(** * plex-meta-tvdb: rating-key codec, TVDB mapper and metadata service

    A shallow embedding of [src/services/MetadataService.ts] (the rating-key
    parser and the lookup service) and of [src/mappers/TVDBMapper.ts] (the
    entity mapper), with the properties of the specification proved about
    the embedded functions. *)

From Stdlib Require Import ZArith Lia List Bool Ascii String.
From Stdlib Require Import DecimalString DecimalPos DecimalZ.
From Stdlib Require Import Permutation Sorted.
Import ListNotations.

#[local] Open Scope string_scope.
#[local] Open Scope list_scope.
#[local] Open Scope Z_scope.

(** String concatenation, as in a template literal or [a + b]. *)
Infix "+++" := String.append (right associativity, at level 60).

(** ** JavaScript values and built-ins used by the sources *)

Module JS.

(** A JavaScript [number] that holds an integer.  The sources only ever
    handle integral ids, ordinals, minutes and sort keys; [NaN], infinities
    and fractions are outside this model, and [Z] is exact where a double is
    (magnitude up to [MAX_SAFE_INTEGER]). *)
Definition number := Z.

Definition MAX_SAFE_INTEGER : number := 9007199254740991.

Definition isSafeNatural (n : number) : Prop := 0 <= n <= MAX_SAFE_INTEGER.

(** [Number.isSafeInteger]: the integers a double holds exactly, of either
    sign. *)
Definition isSafeInteger (n : number) : Prop :=
  - MAX_SAFE_INTEGER <= n <= MAX_SAFE_INTEGER.

(** Template-literal interpolation [`${n}`] of an integral number: decimal
    digits, with a leading minus sign for negatives.  JavaScript prints a
    number of magnitude 1e21 or more in exponent form ("1e+21"), which this
    function does not; it is the interpolation on safe integers, and the
    properties that read the digits back assume them. *)
Definition numToString (n : number) : string :=
  NilZero.string_of_int (Z.to_int n).

(** The character classes [\d] and [[a-z]] (no [u] or [i] flag). *)
Definition isDigit (c : ascii) : bool := (("0" <=? c) && (c <=? "9"))%char.
Definition isLower (c : ascii) : bool := (("a" <=? c) && (c <=? "z"))%char.
Definition isUpper (c : ascii) : bool := (("A" <=? c) && (c <=? "Z"))%char.

Fixpoint digitPrefix (s : string) : string :=
  match s with
  | String c s' => if isDigit c then String c (digitPrefix s') else ""
  | "" => ""
  end.

(** [parseInt(s, 10)] on a string without leading white space or sign (the
    codec only passes captures of [\d+]): the value of the longest prefix of
    decimal digits, [None] standing for [NaN] when there is no digit.  The
    value is exact here; JavaScript rounds it to the nearest double, which
    is the same number up to [MAX_SAFE_INTEGER]. *)
Definition parseInt (s : string) : option number :=
  option_map Z.of_uint (NilZero.uint_of_string (digitPrefix s)).

(** [String.prototype.toUpperCase] / [toLowerCase] on the ASCII range;
    characters outside [a-z] / [A-Z] are left as they are (country codes and
    ordering words are ASCII).  JavaScript maps the cased letters of all of
    Unicode; the two agree on ASCII strings. *)
Definition upperChar (c : ascii) : ascii :=
  if isLower c then ascii_of_nat (nat_of_ascii c - 32) else c.
Definition lowerChar (c : ascii) : ascii :=
  if isUpper c then ascii_of_nat (nat_of_ascii c + 32) else c.

Fixpoint mapString (f : ascii -> ascii) (s : string) : string :=
  match s with
  | String c s' => String (f c) (mapString f s')
  | "" => ""
  end.

Definition toUpperCase : string -> string := mapString upperChar.
Definition toLowerCase : string -> string := mapString lowerChar.

(** Truthiness of the value kinds the sources test. *)
Definition truthyString (s : string) : bool := negb (s =? "")%string.
Definition truthyNumber (n : number) : bool := negb (n =? 0)%Z.

(** [x || undefined] and [x || d] on a [string | null | undefined]. *)
Definition orUndefined (x : option string) : option string :=
  match x with
  | Some s => if truthyString s then Some s else None
  | None => None
  end.
Definition orElse (x : option string) (d : string) : string :=
  match orUndefined x with Some s => s | None => d end.

(** [Array.prototype.slice(start, end)]: negative indices count from the
    end, both bounds are clamped to the array. *)
Definition sliceIndex (len i : Z) : Z :=
  if i <? 0 then Z.max (len + i) 0 else Z.min i len.

Definition slice {A} (l : list A) (startIndex endIndex : Z) : list A :=
  let len := Z.of_nat (List.length l) in
  let k := sliceIndex len startIndex in
  let final := sliceIndex len endIndex in
  firstn (Z.to_nat (final - k)) (skipn (Z.to_nat k) l).

(** [xs.map((x, index) => f x index)]. *)
Fixpoint mapiFrom {A B} (f : A -> Z -> B) (i : Z) (l : list A) : list B :=
  match l with
  | [] => []
  | x :: l' => f x i :: mapiFrom f (i + 1) l'
  end.
Definition mapi {A B} (f : A -> Z -> B) (l : list A) : list B := mapiFrom f 0 l.

(** [xs.sort((a, b) => key a - key b)]: the sort is stable, so the result is
    the arrangement by ascending key in which equal keys keep their input
    order.  It is computed here by insertion from the right. *)
Fixpoint insertByKey {A} (key : A -> number) (x : A) (l : list A) : list A :=
  match l with
  | [] => [x]
  | y :: l' => if key x <=? key y then x :: y :: l' else y :: insertByKey key x l'
  end.
Fixpoint sortByKey {A} (key : A -> number) (l : list A) : list A :=
  match l with
  | [] => []
  | x :: l' => insertByKey key x (sortByKey key l')
  end.

(** The order the comparator [(a, b) => key a - key b] asks for. *)
Definition ascending {A} (key : A -> number) (a b : A) : Prop := key a <= key b.

End JS.

(** ** Anchored regular expressions of the rating-key parser

    Text is a [string] of 8-bit characters.  A UTF-16 code unit above 255
    would behave like any other character outside [\d], [[a-z]] and the
    literal texts: it makes every pattern fail. *)

Module Regex.
Import JS.

Inductive charClass := Digit | LowerAlpha.

Definition inClass (k : charClass) (c : ascii) : bool :=
  match k with Digit => isDigit c | LowerAlpha => isLower c end.

(** The pieces the five patterns are made of: literal text, and a capture
    group around one-or-more characters of a class, [(\d+)] or [([a-z]+)]. *)
Inductive item :=
| Lit (text : string)
| CapPlus (k : charClass).

(** A pattern [/^ items $/]. *)
Definition regex := list item.

Fixpoint stripPrefix (p s : string) : option string :=
  match p, s with
  | "", _ => Some s
  | String a p', String b s' => if (a =? b)%char then stripPrefix p' s' else None
  | String _ _, "" => None
  end.

(** One-or-more characters of class [k], then the continuation [cont] on
    what is left.  The [+] is greedy: it first tries to take one more
    character and only then lets the continuation run (backtracking). *)
Fixpoint capPlus (k : charClass) (cont : string -> option (list string)) (s : string)
  : option (string * list string) :=
  match s with
  | "" => None
  | String c s' =>
      if inClass k c then
        match capPlus k cont s' with
        | Some (cap, caps) => Some (String c cap, caps)
        | None =>
            match cont s' with
            | Some caps => Some (String c "", caps)
            | None => None
            end
        end
      else None
  end.

(** Backtracking match of the items against the whole of [s]; the result is
    the list of captured substrings. *)
Fixpoint matchItems (its : list item) (s : string) : option (list string) :=
  match its with
  | [] => match s with "" => Some [] | String _ _ => None end
  | Lit text :: rest =>
      match stripPrefix text s with
      | Some s' => matchItems rest s'
      | None => None
      end
  | CapPlus k :: rest =>
      match capPlus k (matchItems rest) s with
      | Some (cap, caps) => Some (cap :: caps)
      | None => None
      end
  end.

(** [s.match(re)]: [null], or the array whose element 0 is the whole match
    and whose elements 1.. are the captures. *)
Definition regexMatch (re : regex) (s : string) : option (list string) :=
  option_map (cons s) (matchItems re s).

(** [m[i]] on a match array. *)
Definition group (m : list string) (i : nat) : string := nth i m "".

(** *** What a pattern denotes *)

Fixpoint allChars (p : ascii -> bool) (s : string) : bool :=
  match s with
  | "" => true
  | String c s' => p c && allChars p s'
  end.

(** A capture of [k+]: non-empty, every character in the class. *)
Definition isWord (k : charClass) (w : string) : Prop :=
  w <> "" /\ allChars (inClass k) w = true.

Definition startsIn (k : charClass) (s : string) : bool :=
  match s with String c _ => inClass k c | "" => false end.

Fixpoint lastChar (s : string) : option ascii :=
  match s with
  | "" => None
  | String c "" => Some c
  | String _ s' => lastChar s'
  end.

Definition endsWith (k : charClass) (s : string) : Prop :=
  exists c, lastChar s = Some c /\ inClass k c = true.

(** [shape its s caps]: [s] is, piece by piece, the text of [its] with the
    captures [caps] in the capture positions. *)
Fixpoint shape (its : list item) (s : string) (caps : list string) : Prop :=
  match its with
  | [] => s = "" /\ caps = []
  | Lit text :: rest => exists s', s = text +++ s' /\ shape rest s' caps
  | CapPlus k :: rest =>
      exists w s' caps',
        s = w +++ s' /\ caps = w :: caps' /\ isWord k w /\ shape rest s' caps'
  end.

(** The text of a pattern around given captures. *)
Fixpoint render (its : list item) (caps : list string) : string :=
  match its, caps with
  | [], _ => ""
  | Lit text :: rest, _ => text +++ render rest caps
  | CapPlus _ :: rest, w :: caps' => w +++ render rest caps'
  | CapPlus _ :: rest, [] => render rest []
  end.

(** The captures fit the capture positions. *)
Fixpoint fits (its : list item) (caps : list string) : Prop :=
  match its, caps with
  | [], [] => True
  | Lit _ :: rest, _ => fits rest caps
  | CapPlus k :: rest, w :: caps' => isWord k w /\ fits rest caps'
  | _, _ => False
  end.

(** Every [k+] is followed by the end of the pattern or by literal text
    whose first character is outside [k]: the greedy capture is then the only
    one possible. *)
Definition delimits (k : charClass) (rest : list item) : bool :=
  match rest with
  | [] => true
  | Lit (String c _) :: _ => negb (inClass k c)
  | _ => false
  end.

Fixpoint wellDelimited (its : list item) : bool :=
  match its with
  | [] => true
  | Lit _ :: rest => wellDelimited rest
  | CapPlus k :: rest => delimits k rest && wellDelimited rest
  end.

End Regex.

(** ** Upstream records ([src/types/tvdb.ts])

    Each record carries the fields the mapper and the service read; [T | null]
    and optional fields are [option T]. *)

Module TVDB.
Import JS.

Record TVDBArtwork := {
  artwork_type : number;
  artwork_image : string }.

(** [enum TVDBArtworkType] *)
Module TVDBArtworkType.
Definition BANNER : number := 1.
Definition POSTER : number := 2.
Definition BACKGROUND : number := 3.
Definition CLEARLOGO : number := 7.
End TVDBArtworkType.

(** [enum TVDBRemoteIdType] *)
Module TVDBRemoteIdType.
Definition IMDB : number := 2.
Definition TMDB : number := 12.
End TVDBRemoteIdType.

Record TVDBGenre := { genre_name : string }.

Record TVDBCompany := {
  company_id : number;
  company_name : string }.

Record TVDBCharacter := {
  character_name : string;
  character_type : number;
  character_sort : number;
  character_personName : string;
  character_personImgURL : option string }.

Record TVDBRemoteId := {
  remote_id : string;
  remote_type : number }.

(** [country] is declared a [string]; the mapper reads it through [?.], so a
    missing value is representable. *)
Record TVDBContentRating := {
  rating_name : string;
  rating_country : option string }.

Record TVDBSeasonType := {
  seasonType_id : number;
  seasonType_name : string;
  seasonType_type : string;
  seasonType_alternateName : option string }.

Record TVDBEpisode := {
  episode_id : number;
  episode_name : option string;
  episode_aired : option string;
  episode_runtime : option number;
  episode_overview : option string;
  episode_image : option string;
  episode_number : number;
  episode_seasonNumber : number;
  episode_characters : option (list TVDBCharacter);
  episode_remoteIds : option (list TVDBRemoteId) }.

(** [TVDBSeason | TVDBSeasonExtended]: the two extended fields are absent on
    a plain season. *)
Record TVDBSeason := {
  season_id : number;
  season_type : TVDBSeasonType;
  season_name : option string;
  season_number : number;
  season_image : option string;
  season_artwork : option (list TVDBArtwork);
  season_episodes : option (list TVDBEpisode) }.

Record TVDBSeriesExtended := {
  series_id : number;
  series_name : string;
  series_image : option string;
  series_firstAired : option string;
  series_score : number;
  series_originalCountry : option string;
  series_averageRuntime : option number;
  series_overview : option string;
  series_artworks : option (list TVDBArtwork);
  series_companies : option (list TVDBCompany);
  series_originalNetwork : option TVDBCompany;
  series_latestNetwork : option TVDBCompany;
  series_genres : option (list TVDBGenre);
  series_remoteIds : option (list TVDBRemoteId);
  series_characters : option (list TVDBCharacter);
  series_seasons : option (list TVDBSeason);
  series_contentRatings : option (list TVDBContentRating);
  series_seasonTypes : option (list TVDBSeasonType) }.

End TVDB.

(** ** Output records ([src/models/Metadata.ts], as the mapper builds them) *)

Module Metadata.
Import JS.

(** The literals ['show'], ['season'] and ['episode']. *)
Inductive MetadataType := Show | Season | Episode.

Inductive ImageType := coverPoster | background | clearLogo | backgroundSquare | snapshot.

Record Image := { image_type : ImageType; image_url : string; image_alt : string }.
Record Genre := { genre_tag : string }.
Record Guid := { guid_id : string }.
Record Person := {
  person_tag : string;
  person_role : option string;
  person_order : option number;
  person_thumb : option string }.
Record Rating := { rt_image : string; rt_type : string; rt_value : number }.
Record Network := { network_tag : string }.
Record Country := { country_tag : string }.
Record Studio := { studio_tag : string }.
Record SeasonType := {
  st_id : string;
  st_source : string;
  st_tag : string;
  st_title : string }.

(** [Children: { size, Metadata }] *)
Record Children (A : Type) := { children_size : number; children_Metadata : list A }.
Arguments children_size {A}.
Arguments children_Metadata {A}.

Record EpisodeMetadata := {
  ep_type : MetadataType;
  ep_ratingKey : string;
  ep_key : string;
  ep_guid : string;
  ep_title : string;
  ep_originallyAvailableAt : string;
  ep_year : option number;
  ep_summary : option string;
  ep_thumb : option string;
  ep_duration : option number;
  ep_index : number;
  ep_parentIndex : number;
  ep_parentRatingKey : string;
  ep_parentKey : string;
  ep_parentGuid : string;
  ep_parentType : MetadataType;
  ep_parentTitle : string;
  ep_parentThumb : option string;
  ep_grandparentRatingKey : string;
  ep_grandparentKey : string;
  ep_grandparentGuid : string;
  ep_grandparentType : MetadataType;
  ep_grandparentTitle : string;
  ep_grandparentThumb : option string;
  ep_Image : option (list Image);
  ep_Guid : option (list Guid);
  ep_Role : option (list Person);
  ep_Director : option (list Person);
  ep_Producer : option (list Person);
  ep_Writer : option (list Person) }.

Record SeasonMetadata := {
  se_type : MetadataType;
  se_ratingKey : string;
  se_key : string;
  se_guid : string;
  se_title : string;
  se_originallyAvailableAt : string;
  se_index : number;
  se_parentRatingKey : string;
  se_parentKey : string;
  se_parentGuid : string;
  se_parentType : MetadataType;
  se_parentTitle : string;
  se_parentThumb : option string;
  se_thumb : option string;
  se_Guid : option (list Guid);
  se_Image : option (list Image);
  se_Children : option (Children EpisodeMetadata) }.

Record ShowMetadata := {
  sh_type : MetadataType;
  sh_ratingKey : string;
  sh_key : string;
  sh_guid : string;
  sh_title : string;
  sh_originallyAvailableAt : string;
  sh_year : option number;
  sh_summary : option string;
  sh_thumb : option string;
  sh_art : option string;
  sh_contentRating : option string;
  sh_duration : option number;
  sh_studio : option string;
  sh_Image : option (list Image);
  sh_Genre : option (list Genre);
  sh_Guid : option (list Guid);
  sh_Country : option (list Country);
  sh_Role : option (list Person);
  sh_Director : option (list Person);
  sh_Producer : option (list Person);
  sh_Writer : option (list Person);
  sh_Studio : option (list Studio);
  sh_Rating : option (list Rating);
  sh_Network : option (list Network);
  sh_SeasonType : option (list SeasonType);
  sh_Children : option (Children SeasonMetadata) }.

(** An element of [MediaContainer.Metadata]. *)
Inductive AnyMetadata :=
| OfShow (m : ShowMetadata)
| OfSeason (m : SeasonMetadata)
| OfEpisode (m : EpisodeMetadata).

Record MediaContainer := {
  mc_offset : number;
  mc_totalSize : number;
  mc_identifier : string;
  mc_size : number;
  mc_Metadata : list AnyMetadata }.

(** [MetadataResponse] *)
Record MetadataResponse := { MediaContainer_ : MediaContainer }.

End Metadata.

(** ** Collaborators outside the embedded sources *)

(** [createExternalGuid] is called with a number or with a string. *)
Inductive ExternalId :=
| NumId (n : JS.number)
| StrId (s : string).

(** The helpers of [src/utils/guid.ts], which the mapper imports. *)
Class GuidUtils := {
  constructGuid : string -> string -> string -> string;
  constructMetadataKey : string -> string;
  constructMetadataKeyWithChildren : string -> string;
  createExternalGuid : string -> ExternalId -> string }.

(** [new Date(s).getFullYear()], which depends on the host's time zone
    (the year of "2010-01-01" is 2009 west of Greenwich) and is [NaN] for a
    string that is no date.  The class leaves the function open: nothing is
    known of the year it yields, only where it is called. *)
Class DateLib := { getFullYear : string -> JS.number }.

(** [src/providers/TVProvider.ts] *)
Definition TV_PROVIDER_IDENTIFIER : string := "tv.plex.agents.custom.example.thetvdb.tv".

(** ** The entity mapper ([class TVDBMapper], src/mappers/TVDBMapper.ts) *)

Module TVDBMapper.
Import JS TVDB Metadata.

(** [a?.length > 0] / [!a || a.length === 0] on an optional array. *)
Definition nonEmpty {A} (a : option (list A)) : option (list A) :=
  match a with
  | Some (x :: l) => Some (x :: l)
  | _ => None
  end.

(** [images.length > 0 ? images : undefined] *)
Definition someIfAny {A} (l : list A) : option (list A) :=
  match l with [] => None | _ :: _ => Some l end.

Definition optList {A} (o : option A) : list A :=
  match o with Some x => [x] | None => [] end.

Definition hasType (t : number) (a : TVDBArtwork) : bool := artwork_type a =? t.

Definition mkImage (t : ImageType) (title : string) (a : TVDBArtwork) : Image :=
  {| image_type := t; image_url := artwork_image a; image_alt := title |}.

Definition mapImages (artworks : option (list TVDBArtwork)) (title : string)
  : option (list Image) :=
  match nonEmpty artworks with
  | None => None
  | Some artworks =>
      let poster := find (hasType TVDBArtworkType.POSTER) artworks in
      let background := find (hasType TVDBArtworkType.BACKGROUND) artworks in
      let clearLogo_ := find (hasType TVDBArtworkType.CLEARLOGO) artworks in
      let images :=
        optList (option_map (mkImage coverPoster title) poster)
        ++ optList (option_map (mkImage Metadata.background title) background)
        ++ optList (option_map (mkImage clearLogo title) clearLogo_)
        ++ match background with
           | Some _ => []
           | None =>
               let banner := find (hasType TVDBArtworkType.BANNER) artworks in
               optList (option_map (mkImage Metadata.background title) banner)
           end in
      someIfAny images
  end.

Definition mapGenres (series : TVDBSeriesExtended) : option (list Genre) :=
  match nonEmpty (series_genres series) with
  | None => None
  | Some genres => Some (map (fun genre => {| genre_tag := genre_name genre |}) genres)
  end.

Definition remoteOfType (t : number) (r : TVDBRemoteId) : bool := remote_type r =? t.

(** [c => c.type === 3] *)
Definition isActor (c : TVDBCharacter) : bool := character_type c =? 3.

(** [(member, index) => ({ tag, role, order: index + 1, thumb })] *)
Definition castPerson (member : TVDBCharacter) (index : number) : Person :=
  {| person_tag := character_personName member;
     person_role := Some (character_name member);
     person_order := Some (index + 1);
     person_thumb := orUndefined (character_personImgURL member) |}.

Definition mapCast (characters : option (list TVDBCharacter)) : option (list Person) :=
  match nonEmpty characters with
  | None => None
  | Some characters =>
      let actors := sortByKey character_sort (filter isActor characters) in
      Some (mapi castPerson (slice actors 0 1000))
  end.

Record Crew := {
  crew_Director : option (list Person);
  crew_Producer : option (list Person);
  crew_Writer : option (list Person) }.

Definition crewPerson (member : TVDBCharacter) : Person :=
  {| person_tag := character_personName member;
     person_role := None;
     person_order := None;
     person_thumb := orUndefined (character_personImgURL member) |}.

Definition mapCrew (characters : option (list TVDBCharacter)) : Crew :=
  match nonEmpty characters with
  | None => {| crew_Director := None; crew_Producer := None; crew_Writer := None |}
  | Some characters =>
      let bucket t := map crewPerson (filter (fun m => character_type m =? t) characters) in
      let directors := bucket 1 in
      let producers := bucket 4 in
      let writers := bucket 2 in
      {| crew_Director := someIfAny directors;
         crew_Producer := someIfAny producers;
         crew_Writer := someIfAny writers |}
  end.

Definition mapRatings (series : TVDBSeriesExtended) : option (list Rating) :=
  let ratings :=
    if truthyNumber (series_score series) && (series_score series >? 0) then
      [ {| rt_image := "thetvdb://image.rating";
           rt_type := "audience";
           rt_value := series_score series |} ]
    else [] in
  someIfAny ratings.

Definition mapNetworks (series : TVDBSeriesExtended) : option (list Network) :=
  let networks :=
    match series_originalNetwork series with
    | Some n => [ {| network_tag := company_name n |} ]
    | None => []
    end
    ++ match series_latestNetwork series with
       | Some latest =>
           let same :=
             match series_originalNetwork series with
             | Some original => company_id latest =? company_id original
             | None => false
             end in
           if negb same then [ {| network_tag := company_name latest |} ] else []
       | None => []
       end in
  someIfAny networks.

Definition mapCountries (series : TVDBSeriesExtended) : option (list Country) :=
  match orUndefined (series_originalCountry series) with
  | None => None
  | Some c => Some [ {| country_tag := c |} ]
  end.

Definition mapStudios (series : TVDBSeriesExtended) : option (list Studio) :=
  match nonEmpty (series_companies series) with
  | None => None
  | Some companies =>
      Some (map (fun company => {| studio_tag := company_name company |}) companies)
  end.

(** [r.country?.toUpperCase() === code] *)
Definition countryIs (r : TVDBContentRating) (code : string) : bool :=
  match rating_country r with
  | Some c => (toUpperCase c =? code)%string
  | None => false
  end.

(** [getContentRating(series, country = 'US')]: the default value stands in
    when the argument is [undefined]. *)
Definition getContentRating (series : TVDBSeriesExtended) (country : option string)
  : option string :=
  let country := match country with Some c => c | None => "US" end in
  match series_contentRatings series with
  | None => None
  | Some contentRatings =>
      let normalizedCountry := toUpperCase country in
      let isUS := (normalizedCountry =? "US")%string || (normalizedCountry =? "USA")%string in
      let rating :=
        find (fun r => countryIs r normalizedCountry
                       || (isUS && countryIs r "USA")
                       || (isUS && countryIs r "US"))
             contentRatings in
      match rating with
      | Some rating =>
          if isUS then Some (rating_name rating)
          else Some (orElse (option_map toLowerCase (rating_country rating))
                            (toLowerCase country)
                     +++ "/" +++ rating_name rating)
      | None => None
      end
  end.

(** The matching rule in the specification's words: an entry matches when
    its country code, uppercased, equals the uppercased requested country, or
    when both are one of the interchangeable codes [US] and [USA]. *)
Definition usEquivalent (code : string) : bool :=
  (toUpperCase code =? "US")%string || (toUpperCase code =? "USA")%string.

Definition entryMatches (requested : string) (r : TVDBContentRating) : bool :=
  match rating_country r with
  | Some code =>
      (toUpperCase code =? toUpperCase requested)%string
      || (usEquivalent requested && usEquivalent code)
  | None => false
  end.

Definition countryCode (r : TVDBContentRating) : string :=
  match rating_country r with Some code => code | None => "" end.

(** The resolution in the specification's words: the first matching entry
    gives the bare rating name for a US-equivalent request, and otherwise its
    lowercase country code, a slash and the rating name; no match, no rating. *)
Definition resolveContentRating (contentRatings : list TVDBContentRating)
    (requested : string) : option string :=
  match find (entryMatches requested) contentRatings with
  | Some r =>
      if usEquivalent requested then Some (rating_name r)
      else Some (toLowerCase (countryCode r) +++ "/" +++ rating_name r)
  | None => None
  end.

Definition mapSeasonTypes (seasonTypes : option (list TVDBSeasonType))
  : option (list SeasonType) :=
  match nonEmpty seasonTypes with
  | None => None
  | Some seasonTypes =>
      Some (map (fun st =>
                   {| st_id := numToString (TVDB.seasonType_id st);
                      st_source := "tvdb";
                      st_tag := seasonType_name st;
                      st_title := orElse (seasonType_alternateName st) (seasonType_name st) |})
                seasonTypes)
  end.

(** The object literal [typeMap] of [getSeasonTypeShortTag], as its own
    key/value pairs (inherited properties of the object are not modelled). *)
Definition typeMap : list (string * string) :=
  [ ("default", "default");
    ("official", "default");
    ("dvd", "dvd");
    ("absolute", "absolute");
    ("alternate", "alternate");
    ("regional", "regional") ].

(** The keys on which the object literal answers with a property it
    inherits from [Object.prototype] instead: of the inherited names only
    these two are in lower case throughout, as a lowercased type word is.
    There [typeMap[key]] is a function or an object, not a string, and
    [lookup] in the pairs above does not describe it. *)
Definition inheritedKey (k : string) : bool :=
  ((k =? "constructor") || (k =? "__proto__"))%string.

Fixpoint lookup (k : string) (m : list (string * string)) : option string :=
  match m with
  | [] => None
  | (k', v) :: m' => if (k =? k')%string then Some v else lookup k m'
  end.

Definition getSeasonTypeShortTag (seasonType : option TVDBSeasonType) : string :=
  match seasonType with
  | None => "default"
  | Some seasonType =>
      orElse (lookup (toLowerCase (seasonType_type seasonType)) typeMap)
             (toLowerCase (seasonType_type seasonType))
  end.

Record MapSeriesOptions := {
  includeChildren : option bool;
  country : option string }.

Record MapSeasonOptions := { season_includeChildren : option bool }.

(** [options?.includeChildren], tested for truthiness. *)
Definition isTrue (b : option bool) : bool :=
  match b with Some true => true | _ => false end.

Definition isCanonical (s : TVDBSeason) : bool :=
  (seasonType_type (season_type s) =? "default")%string
  || (seasonType_type (season_type s) =? "official")%string.

(** The seasons a show lists as its children: canonical ordering, number
    at least 0, in upstream order. *)
Definition canonicalSeasons (seriesDetails : TVDBSeriesExtended) : list TVDBSeason :=
  match series_seasons seriesDetails with
  | Some seasons => filter (fun s => season_number s >=? 0) (filter isCanonical seasons)
  | None => []
  end.

Section Mapper.
Context `{GuidUtils} `{DateLib}.

(** [{ id: createExternalGuid(source, remote.id) }] *)
Definition externalGuid (source : string) (remote : TVDBRemoteId) : Guid :=
  {| guid_id := createExternalGuid source (StrId (remote_id remote)) |}.

Definition mapExternalGuids (series : TVDBSeriesExtended) : option (list Guid) :=
  let guids :=
    [ {| guid_id := createExternalGuid "tvdb" (NumId (series_id series)) |} ]
    ++ match series_remoteIds series with
       | Some remoteIds =>
           optList (option_map (externalGuid "imdb")
                               (find (remoteOfType TVDBRemoteIdType.IMDB) remoteIds))
           ++ optList (option_map (externalGuid "tmdb")
                                  (find (remoteOfType TVDBRemoteIdType.TMDB) remoteIds))
       | None => []
       end in
  someIfAny guids.

(** [x ? new Date(x).getFullYear() : undefined] *)
Definition yearOf (d : option string) : option number :=
  option_map getFullYear (orUndefined d).

(** [m ? m * 60 * 1000 : undefined] *)
Definition minutesToMs (m : option number) : option number :=
  match m with
  | Some m => if truthyNumber m then Some (m * 60 * 1000) else None
  | None => None
  end.

Definition mapEpisode (episode : TVDBEpisode) (seriesId : number)
    (showTitle showGuid seasonTitle seasonGuid : string)
    (showThumb seasonThumb : option string) : EpisodeMetadata :=
  let ratingKey :=
    "tvdb-episode-" +++ numToString seriesId +++ "-"
      +++ numToString (episode_seasonNumber episode) +++ "-"
      +++ numToString (episode_number episode) in
  let parentRatingKey :=
    "tvdb-season-" +++ numToString seriesId +++ "-"
      +++ numToString (episode_seasonNumber episode) in
  let grandparentRatingKey := "tvdb-show-" +++ numToString seriesId in
  let crew := mapCrew (episode_characters episode) in
  let episodeTitle :=
    orElse (episode_name episode) ("Episode " +++ numToString (episode_number episode)) in
  {| ep_type := Episode;
     ep_ratingKey := ratingKey;
     ep_key := constructMetadataKey ratingKey;
     ep_guid := constructGuid TV_PROVIDER_IDENTIFIER "episode" ratingKey;
     ep_title := episodeTitle;
     ep_originallyAvailableAt := orElse (episode_aired episode) "";
     ep_year := yearOf (episode_aired episode);
     ep_summary := orUndefined (episode_overview episode);
     ep_thumb := orUndefined (episode_image episode);
     ep_duration := minutesToMs (episode_runtime episode);
     ep_index := episode_number episode;
     ep_parentIndex := episode_seasonNumber episode;
     ep_parentRatingKey := parentRatingKey;
     ep_parentKey := constructMetadataKey parentRatingKey;
     ep_parentGuid := seasonGuid;
     ep_parentType := Season;
     ep_parentTitle := seasonTitle;
     ep_parentThumb := seasonThumb;
     ep_grandparentRatingKey := grandparentRatingKey;
     ep_grandparentKey := constructMetadataKey grandparentRatingKey;
     ep_grandparentGuid := showGuid;
     ep_grandparentType := Show;
     ep_grandparentTitle := showTitle;
     ep_grandparentThumb := showThumb;
     ep_Image :=
       option_map (fun url => [ {| image_type := snapshot; image_url := url;
                                   image_alt := episodeTitle |} ])
                  (orUndefined (episode_image episode));
     ep_Guid :=
       Some ([ {| guid_id := createExternalGuid "tvdb" (NumId (episode_id episode)) |} ]
             ++ match episode_remoteIds episode with
                | Some remoteIds =>
                    optList (option_map (externalGuid "imdb")
                               (find (remoteOfType TVDBRemoteIdType.IMDB) remoteIds))
                | None => []
                end);
     ep_Role := mapCast (episode_characters episode);
     ep_Director := crew_Director crew;
     ep_Producer := crew_Producer crew;
     ep_Writer := crew_Writer crew |}.

Definition mapSeason (season : TVDBSeason) (seriesId : number)
    (showTitle showGuid : string) (showThumb : option string)
    (options : option MapSeasonOptions) : SeasonMetadata :=
  let seasonTypeShort := getSeasonTypeShortTag (Some (season_type season)) in
  let ratingKey :=
    "tvdb-season-" +++ numToString seriesId +++ "-" +++ numToString (season_number season) in
  let parentRatingKey := "tvdb-show-" +++ numToString seriesId in
  let seasonTitle :=
    orElse (season_name season) ("Season " +++ numToString (season_number season)) in
  let seasonGuid := constructGuid TV_PROVIDER_IDENTIFIER "season" ratingKey in
  {| se_type := Season;
     se_ratingKey := ratingKey;
     se_key := constructMetadataKeyWithChildren ratingKey;
     se_guid := seasonGuid;
     se_title := seasonTitle;
     se_originallyAvailableAt := "";
     se_index := season_number season;
     se_parentRatingKey := parentRatingKey;
     se_parentKey := constructMetadataKey parentRatingKey;
     se_parentGuid := showGuid;
     se_parentType := Show;
     se_parentTitle := showTitle;
     se_parentThumb := showThumb;
     se_thumb := orUndefined (season_image season);
     se_Guid := Some [ {| guid_id := createExternalGuid "tvdb" (NumId (season_id season)) |} ];
     se_Image :=
       match nonEmpty (season_artwork season) with
       | Some artwork => mapImages (Some artwork) seasonTitle
       | None =>
           option_map (fun url => [ {| image_type := coverPoster; image_url := url;
                                       image_alt := seasonTitle |} ])
                      (orUndefined (season_image season))
       end;
     se_Children :=
       match nonEmpty (season_episodes season) with
       | Some episodes =>
           if isTrue (match options with Some o => season_includeChildren o | None => None end)
           then
             let seasonThumb := orUndefined (season_image season) in
             let episodeMetadata :=
               map (fun episode =>
                      mapEpisode episode seriesId showTitle showGuid seasonTitle
                                 seasonGuid showThumb seasonThumb)
                   episodes in
             Some {| children_size := Z.of_nat (List.length episodeMetadata);
                     children_Metadata := episodeMetadata |}
           else None
       | None => None
       end |}.

Definition mapSeries (series : TVDBSeriesExtended) (options : option MapSeriesOptions)
  : ShowMetadata :=
  let ratingKey := "tvdb-show-" +++ numToString (series_id series) in
  let crew := mapCrew (series_characters series) in
  let showGuid := constructGuid TV_PROVIDER_IDENTIFIER "show" ratingKey in
  {| sh_type := Show;
     sh_ratingKey := ratingKey;
     sh_key := constructMetadataKeyWithChildren ratingKey;
     sh_guid := showGuid;
     sh_title := series_name series;
     sh_originallyAvailableAt := orElse (series_firstAired series) "";
     sh_year := yearOf (series_firstAired series);
     sh_summary := orUndefined (series_overview series);
     sh_thumb := orUndefined (series_image series);
     sh_art :=
       match series_artworks series with
       | Some artworks =>
           option_map artwork_image (find (hasType TVDBArtworkType.BACKGROUND) artworks)
       | None => None
       end;
     sh_contentRating :=
       getContentRating series (match options with Some o => country o | None => None end);
     sh_duration := minutesToMs (series_averageRuntime series);
     sh_studio := option_map company_name (series_originalNetwork series);
     sh_Image := mapImages (series_artworks series) (series_name series);
     sh_Genre := mapGenres series;
     sh_Guid := mapExternalGuids series;
     sh_Country := mapCountries series;
     sh_Role := mapCast (series_characters series);
     sh_Director := crew_Director crew;
     sh_Producer := crew_Producer crew;
     sh_Writer := crew_Writer crew;
     sh_Studio := mapStudios series;
     sh_Rating := mapRatings series;
     sh_Network := mapNetworks series;
     sh_SeasonType := mapSeasonTypes (series_seasonTypes series);
     sh_Children :=
       match nonEmpty (series_seasons series) with
       | Some seasons =>
           if isTrue (match options with Some o => includeChildren o | None => None end)
           then
             let showThumb := orUndefined (series_image series) in
             let seasonMetadata :=
               map (fun season =>
                      mapSeason season (series_id series) (series_name series)
                                showGuid showThumb None)
                   (filter isCanonical seasons) in
             Some {| children_size := Z.of_nat (List.length seasonMetadata);
                     children_Metadata := seasonMetadata |}
           else None
       | None => None
       end |}.

Definition mapAllImages (artworks : option (list TVDBArtwork)) (title : string)
  : list Image :=
  match nonEmpty artworks with
  | None => []
  | Some artworks =>
      flat_map
        (fun artwork =>
           if artwork_type artwork =? TVDBArtworkType.POSTER
           then [mkImage coverPoster title artwork]
           else if artwork_type artwork =? TVDBArtworkType.BACKGROUND
           then [mkImage Metadata.background title artwork]
           else if artwork_type artwork =? TVDBArtworkType.CLEARLOGO
           then [mkImage clearLogo title artwork]
           else if artwork_type artwork =? TVDBArtworkType.BANNER
           then [mkImage Metadata.background title artwork]
           else [])
        artworks
  end.

End Mapper.

(** The artwork types the image mappings know: poster, background, clear
    logo and banner. *)
Definition recognised (a : TVDBArtwork) : bool :=
  hasType TVDBArtworkType.POSTER a || hasType TVDBArtworkType.BACKGROUND a
  || hasType TVDBArtworkType.CLEARLOGO a || hasType TVDBArtworkType.BANNER a.

(** The elements of an optional array, none when it is absent. *)
Definition elements {A} (o : option (list A)) : list A :=
  match o with Some l => l | None => [] end.

(** The crew type codes: director, writer, producer. *)
Definition isCrew (c : TVDBCharacter) : bool :=
  (character_type c =? 1) || (character_type c =? 2) || (character_type c =? 4).

End TVDBMapper.

(** ** The lookup service ([class MetadataService], src/services/MetadataService.ts) *)

Module MetadataService.
Import JS Regex TVDB Metadata TVDBMapper.

(** [interface ParsedRatingKey] *)
Record ParsedRatingKey := {
  parsed_type : MetadataType;
  seriesId : number;
  seasonNumber : option number;
  episodeNumber : option number;
  seasonType : option string }.

(** The five patterns of [parseRatingKey], in the order they are tried. *)
(** [/^tvdb-show-(\d+)$/] *)
Definition showRe : regex := [Lit "tvdb-show-"; CapPlus Digit].
(** [/^tvdb-season-(\d+)-(\d+)-([a-z]+)$/] *)
Definition seasonTypeRe : regex :=
  [Lit "tvdb-season-"; CapPlus Digit; Lit "-"; CapPlus Digit; Lit "-"; CapPlus LowerAlpha].
(** [/^tvdb-season-(\d+)-(\d+)$/] *)
Definition seasonRe : regex :=
  [Lit "tvdb-season-"; CapPlus Digit; Lit "-"; CapPlus Digit].
(** [/^tvdb-episode-(\d+)-(\d+)-(\d+)-([a-z]+)$/] *)
Definition episodeTypeRe : regex :=
  [Lit "tvdb-episode-"; CapPlus Digit; Lit "-"; CapPlus Digit; Lit "-"; CapPlus Digit;
   Lit "-"; CapPlus LowerAlpha].
(** [/^tvdb-episode-(\d+)-(\d+)-(\d+)$/] *)
Definition episodeRe : regex :=
  [Lit "tvdb-episode-"; CapPlus Digit; Lit "-"; CapPlus Digit; Lit "-"; CapPlus Digit].

(** Building a record out of [parseInt] results: [None] (a [NaN] field)
    cannot arise on a capture of [\d+], see [parseInt_digits]. *)
Notation "'let?' x ':=' m 'in' k" :=
  (match m with Some x => k | None => None end)
  (at level 10, x name, m at level 100, k at level 200).

Definition fromShowMatch (showMatch : list string) : option ParsedRatingKey :=
  let? id := parseInt (group showMatch 1) in
  Some {| parsed_type := Show; seriesId := id;
          seasonNumber := None; episodeNumber := None; seasonType := None |}.

Definition fromSeasonTypeMatch (seasonTypeMatch : list string) : option ParsedRatingKey :=
  let? id := parseInt (group seasonTypeMatch 1) in
  let? sn := parseInt (group seasonTypeMatch 2) in
  Some {| parsed_type := Season; seriesId := id;
          seasonNumber := Some sn; episodeNumber := None;
          seasonType := Some (group seasonTypeMatch 3) |}.

Definition fromSeasonMatch (seasonMatch : list string) : option ParsedRatingKey :=
  let? id := parseInt (group seasonMatch 1) in
  let? sn := parseInt (group seasonMatch 2) in
  Some {| parsed_type := Season; seriesId := id;
          seasonNumber := Some sn; episodeNumber := None; seasonType := None |}.

Definition fromEpisodeTypeMatch (episodeTypeMatch : list string) : option ParsedRatingKey :=
  let? id := parseInt (group episodeTypeMatch 1) in
  let? sn := parseInt (group episodeTypeMatch 2) in
  let? en := parseInt (group episodeTypeMatch 3) in
  Some {| parsed_type := Episode; seriesId := id;
          seasonNumber := Some sn; episodeNumber := Some en;
          seasonType := Some (group episodeTypeMatch 4) |}.

Definition fromEpisodeMatch (episodeMatch : list string) : option ParsedRatingKey :=
  let? id := parseInt (group episodeMatch 1) in
  let? sn := parseInt (group episodeMatch 2) in
  let? en := parseInt (group episodeMatch 3) in
  Some {| parsed_type := Episode; seriesId := id;
          seasonNumber := Some sn; episodeNumber := Some en; seasonType := None |}.

Definition parseRatingKey (ratingKey : string) : option ParsedRatingKey :=
  match regexMatch showRe ratingKey with
  | Some showMatch => fromShowMatch showMatch
  | None =>
  match regexMatch seasonTypeRe ratingKey with
  | Some seasonTypeMatch => fromSeasonTypeMatch seasonTypeMatch
  | None =>
  match regexMatch seasonRe ratingKey with
  | Some seasonMatch => fromSeasonMatch seasonMatch
  | None =>
  match regexMatch episodeTypeRe ratingKey with
  | Some episodeTypeMatch => fromEpisodeTypeMatch episodeTypeMatch
  | None =>
  match regexMatch episodeRe ratingKey with
  | Some episodeMatch => fromEpisodeMatch episodeMatch
  | None => None
  end end end end end.

(** The same five forms as data, to talk about the order of the tries. *)
Definition form := (regex * (list string -> option ParsedRatingKey))%type.

Definition ratingKeyForms : list form :=
  [ (showRe, fromShowMatch);
    (seasonTypeRe, fromSeasonTypeMatch);
    (seasonRe, fromSeasonMatch);
    (episodeTypeRe, fromEpisodeTypeMatch);
    (episodeRe, fromEpisodeMatch) ].

Fixpoint firstMatch (forms : list form) (ratingKey : string) : option ParsedRatingKey :=
  match forms with
  | [] => None
  | (re, build) :: forms' =>
      match regexMatch re ratingKey with
      | Some m => build m
      | None => firstMatch forms' ratingKey
      end
  end.

(** A form matches [ratingKey]. *)
Definition matches (f : form) (ratingKey : string) : Prop :=
  regexMatch (fst f) ratingKey <> None.

(** At most one of [forms] matches [ratingKey]. *)
Definition exclusive (ratingKey : string) (forms : list form) : Prop :=
  forall f g, In f forms -> In g forms ->
              matches f ratingKey -> matches g ratingKey -> f = g.

(** A parse is whole: it carries exactly the fields of its type. *)
Definition complete (p : ParsedRatingKey) : Prop :=
  match parsed_type p with
  | Show => seasonNumber p = None /\ episodeNumber p = None /\ seasonType p = None
  | Season => seasonNumber p <> None /\ episodeNumber p = None
  | Episode => seasonNumber p <> None /\ episodeNumber p <> None
  end.

(** An ordering tag the parser accepts: a non-empty word over [a-z]. *)
Definition validTag (seasonTag : option string) : Prop :=
  match seasonTag with
  | Some t => isWord LowerAlpha t
  | None => True
  end.

(** Modelled from the spec: the codec's [encodeShow], [encodeSeason] and
    [encodeEpisode] are not functions of the sources.  The untagged formats
    are the template literals the mapper builds inline ([`tvdb-show-${id}`],
    [`tvdb-season-${id}-${n}`], [`tvdb-episode-${id}-${n}-${e}`]); the
    optional ["-{seasonTag}"] suffix is the specification's, and no source
    file builds it. *)
Definition tagSuffix (seasonTag : option string) : string :=
  match seasonTag with Some t => "-" +++ t | None => "" end.

Definition encodeShow (id : number) : string := "tvdb-show-" +++ numToString id.

Definition encodeSeason (id n : number) (seasonTag : option string) : string :=
  "tvdb-season-" +++ numToString id +++ "-" +++ numToString n +++ tagSuffix seasonTag.

Definition encodeEpisode (id n e : number) (seasonTag : option string) : string :=
  "tvdb-episode-" +++ numToString id +++ "-" +++ numToString n +++ "-"
    +++ numToString e +++ tagSuffix seasonTag.

(** *** Failures and upstream calls *)

(** [throw new Error(message)]; a rejected upstream call carries one too. *)
Record Error := { message : string }.

Inductive Result (A : Type) :=
| Ok (a : A)
| Throw (e : Error).
Arguments Ok {A}.
Arguments Throw {A}.

Definition bind {A B} (m : Result A) (k : A -> Result B) : Result B :=
  match m with Ok a => k a | Throw e => Throw e end.

Notation "'await' x ':=' m 'in' k" := (bind m (fun x => k))
  (at level 10, x name, m at level 100, k at level 200).

(** [class TVDBClient], the upstream catalog: every call may reject, and the
    by-number lookups may resolve to nothing. *)
Record TVDBClient := {
  getSeriesDetails : number -> Result TVDBSeriesExtended;
  getSeasonByNumber : number -> number -> string -> Result (option TVDBSeason);
  getSeasonDetails : number -> Result TVDBSeason;
  getEpisodeByNumber : number -> number -> number -> string -> Result (option TVDBEpisode);
  getEpisodeDetails : number -> Result TVDBEpisode }.

Record MetadataServiceOptions := {
  opt_language : option string;
  opt_country : option string;
  opt_includeChildren : option bool;
  opt_episodeOrder : option string }.

(** [options = {}] *)
Definition noOptions : MetadataServiceOptions :=
  {| opt_language := None; opt_country := None;
     opt_includeChildren := None; opt_episodeOrder := None |}.

Record PagingOptions := {
  containerSize : option number;
  containerStart : option number }.

(** [paging = {}] *)
Definition noPaging : PagingOptions := {| containerSize := None; containerStart := None |}.

Definition single (m : AnyMetadata) : MetadataResponse :=
  {| MediaContainer_ :=
       {| mc_offset := 0; mc_totalSize := 1; mc_identifier := TV_PROVIDER_IDENTIFIER;
          mc_size := 1; mc_Metadata := [m] |} |}.

(** The failures of [getMetadata], by name. *)
Definition invalidIdentifier (ratingKey : string) : Error :=
  {| message := "Invalid ratingKey format: " +++ ratingKey |}.

Definition seasonNotFound (seriesId seasonNumber : number) : Error :=
  {| message := "Season " +++ numToString seasonNumber
                +++ " not found for series " +++ numToString seriesId |}.

Definition episodeNotFound (seriesId seasonNumber episodeNumber : number) : Error :=
  {| message := "Episode S" +++ numToString seasonNumber +++ "E"
                +++ numToString episodeNumber
                +++ " not found for series " +++ numToString seriesId |}.

(** The two artwork calls of [class TVDBClient], which [getImages] uses on
    top of the calls above. *)
Record TVDBArtworkClient := {
  getSeriesArtworks : number -> Result (list TVDBArtwork);
  getSeasonArtworks : number -> Result (list TVDBArtwork) }.

(** [interface ImagesResponse], that is its [MediaContainer]. *)
Record ImagesResponse := {
  ir_offset : number;
  ir_totalSize : number;
  ir_identifier : string;
  ir_size : number;
  ir_Image : list Image }.

(** The container [getImages] returns around the images it gathered. *)
Definition imagesResponse (images : list Image) : ImagesResponse :=
  {| ir_offset := 0;
     ir_totalSize := Z.of_nat (List.length images);
     ir_identifier := TV_PROVIDER_IDENTIFIER;
     ir_size := Z.of_nat (List.length images);
     ir_Image := images |}.

(** The literal a [MetadataType] stands for, as a template interpolates it. *)
Definition typeWord (t : MetadataType) : string :=
  match t with Show => "show" | Season => "season" | Episode => "episode" end.

(** The type tag of an entity in a container. *)
Definition kindOf (m : AnyMetadata) : MetadataType :=
  match m with
  | OfShow m => sh_type m
  | OfSeason m => se_type m
  | OfEpisode m => ep_type m
  end.

(** A parsed identifier with its ordering tag replaced. *)
Definition withSeasonType (p : ParsedRatingKey) (tag : option string) : ParsedRatingKey :=
  {| parsed_type := parsed_type p; seriesId := seriesId p;
     seasonNumber := seasonNumber p; episodeNumber := episodeNumber p;
     seasonType := tag |}.

(** The paging options for an explicit window. *)
Definition window (start pageSize : number) : PagingOptions :=
  {| containerSize := Some pageSize; containerStart := Some start |}.

(** The failures of [getChildren] and [getGrandchildren] on an entity type
    they do not serve. *)
Definition noChildren (t : MetadataType) : Error :=
  {| message := "Cannot get children for type: " +++ typeWord t |}.

Definition noGrandchildren (t : MetadataType) : Error :=
  {| message := "Cannot get grandchildren for type: " +++ typeWord t |}.

Section Service.
Context `{GuidUtils} `{DateLib}.
Variable tvdbClient : TVDBClient.

Definition getShow (seriesId : number) (options : MetadataServiceOptions)
  : Result MetadataResponse :=
  await seriesDetails := getSeriesDetails tvdbClient seriesId in
  let showMetadata :=
    mapSeries seriesDetails
      (Some {| includeChildren := opt_includeChildren options;
               country := opt_country options |}) in
  Ok (single (OfShow showMetadata)).

Definition getSeason (seriesId seasonNumber : number) (options : MetadataServiceOptions)
    (seasonType : option string) : Result MetadataResponse :=
  await seriesDetails := getSeriesDetails tvdbClient seriesId in
  await season := getSeasonByNumber tvdbClient seriesId seasonNumber
                    (orElse seasonType "default") in
  match season with
  | None =>
      Throw {| message := "Season " +++ numToString seasonNumber
                          +++ " not found for series " +++ numToString seriesId |}
  | Some season =>
      await seasonDetails :=
        (if isTrue (opt_includeChildren options)
         then getSeasonDetails tvdbClient (season_id season)
         else Ok season) in
      let showGuid :=
        TV_PROVIDER_IDENTIFIER +++ "://show/tvdb-show-" +++ numToString seriesId in
      let seasonMetadata :=
        mapSeason seasonDetails seriesId (series_name seriesDetails) showGuid
          (orUndefined (series_image seriesDetails))
          (Some {| season_includeChildren := opt_includeChildren options |}) in
      Ok (single (OfSeason seasonMetadata))
  end.

Definition getEpisode (seriesId seasonNumber episodeNumber : number)
    (options : MetadataServiceOptions) (seasonType : option string)
  : Result MetadataResponse :=
  await seriesDetails := getSeriesDetails tvdbClient seriesId in
  await episode := getEpisodeByNumber tvdbClient seriesId seasonNumber episodeNumber
                     (orElse seasonType "default") in
  match episode with
  | None =>
      Throw {| message := "Episode S" +++ numToString seasonNumber +++ "E"
                          +++ numToString episodeNumber
                          +++ " not found for series " +++ numToString seriesId |}
  | Some episode =>
      await episodeDetails := getEpisodeDetails tvdbClient (episode_id episode) in
      let showGuid :=
        TV_PROVIDER_IDENTIFIER +++ "://show/tvdb-show-" +++ numToString seriesId in
      let seasonGuid :=
        TV_PROVIDER_IDENTIFIER +++ "://season/tvdb-season-" +++ numToString seriesId
          +++ "-" +++ numToString seasonNumber in
      let episodeMetadata :=
        mapEpisode episodeDetails seriesId (series_name seriesDetails) showGuid
          ("Season " +++ numToString seasonNumber) seasonGuid
          (orUndefined (series_image seriesDetails)) None in
      Ok (single (OfEpisode episodeMetadata))
  end.

Definition getMetadata (ratingKey : string) (options : MetadataServiceOptions)
  : Result MetadataResponse :=
  match parseRatingKey ratingKey with
  | None => Throw {| message := "Invalid ratingKey format: " +++ ratingKey |}
  | Some parsed =>
      match parsed_type parsed with
      | Show => getShow (seriesId parsed) options
      | Season =>
          match seasonNumber parsed with
          | None => Throw {| message := "Invalid season ratingKey: " +++ ratingKey |}
          | Some sn => getSeason (seriesId parsed) sn options (seasonType parsed)
          end
      | Episode =>
          match seasonNumber parsed, episodeNumber parsed with
          | Some sn, Some en => getEpisode (seriesId parsed) sn en options (seasonType parsed)
          | _, _ => Throw {| message := "Invalid episode ratingKey: " +++ ratingKey |}
          end
      end
  end.

(** The page window shared by the two branches of [getChildren]. *)
Definition paged (all : list AnyMetadata) (containerStart containerSize : number)
  : MetadataResponse :=
  let startIndex := containerStart - 1 in
  let endIndex := startIndex + containerSize in
  let pagedItems := slice all startIndex endIndex in
  {| MediaContainer_ :=
       {| mc_offset := startIndex;
          mc_totalSize := Z.of_nat (List.length all);
          mc_identifier := TV_PROVIDER_IDENTIFIER;
          mc_size := Z.of_nat (List.length pagedItems);
          mc_Metadata := pagedItems |} |}.

Definition getChildren (ratingKey : string) (options : MetadataServiceOptions)
    (paging : PagingOptions) : Result MetadataResponse :=
  match parseRatingKey ratingKey with
  | None => Throw {| message := "Invalid ratingKey format: " +++ ratingKey |}
  | Some parsed =>
      let containerSize := match containerSize paging with Some n => n | None => 20 end in
      let containerStart := match containerStart paging with Some n => n | None => 1 end in
      match parsed_type parsed with
      | Show =>
          await seriesDetails := getSeriesDetails tvdbClient (seriesId parsed) in
          let showGuid :=
            TV_PROVIDER_IDENTIFIER +++ "://show/tvdb-show-" +++ numToString (seriesId parsed) in
          let allSeasons :=
            match series_seasons seriesDetails with
            | Some seasons =>
                map (fun season =>
                       mapSeason season (seriesId parsed) (series_name seriesDetails)
                                 showGuid (orUndefined (series_image seriesDetails)) None)
                    (filter (fun s => season_number s >=? 0) (filter isCanonical seasons))
            | None => []
            end in
          Ok (paged (map OfSeason allSeasons) containerStart containerSize)
      | Season =>
          match seasonNumber parsed with
          | None => Throw {| message := "Invalid season ratingKey: " +++ ratingKey |}
          | Some sn =>
              await seriesDetails := getSeriesDetails tvdbClient (seriesId parsed) in
              await season := getSeasonByNumber tvdbClient (seriesId parsed) sn
                                (orElse (seasonType parsed) "default") in
              match season with
              | None => Throw {| message := "Season " +++ numToString sn +++ " not found" |}
              | Some season =>
                  await seasonDetails := getSeasonDetails tvdbClient (season_id season) in
                  let showGuid :=
                    TV_PROVIDER_IDENTIFIER +++ "://show/tvdb-show-"
                      +++ numToString (seriesId parsed) in
                  let seasonGuid :=
                    TV_PROVIDER_IDENTIFIER +++ "://season/tvdb-season-"
                      +++ numToString (seriesId parsed) +++ "-" +++ numToString sn in
                  let allEpisodes :=
                    match season_episodes seasonDetails with
                    | Some episodes =>
                        map (fun episode =>
                               mapEpisode episode (seriesId parsed) (series_name seriesDetails)
                                 showGuid
                                 (orElse (season_name season) ("Season " +++ numToString sn))
                                 seasonGuid
                                 (orUndefined (series_image seriesDetails))
                                 (orUndefined (season_image season)))
                            episodes
                    | None => []
                    end in
                  Ok (paged (map OfEpisode allEpisodes) containerStart containerSize)
              end
          end
      | Episode => Throw {| message := "Cannot get children for type: episode" |}
      end
  end.

(** The full child list of a show, before paging. *)
Definition childrenOfShow (id : number) (seriesDetails : TVDBSeriesExtended)
  : list AnyMetadata :=
  map OfSeason
    (map (fun season =>
            mapSeason season id (series_name seriesDetails)
              (TV_PROVIDER_IDENTIFIER +++ "://show/tvdb-show-" +++ numToString id)
              (orUndefined (series_image seriesDetails)) None)
         (canonicalSeasons seriesDetails)).

(** [seriesDetails.seasons?.filter(s => s.number >= 1 && (canonical)) || []] *)
Definition regularSeasons (seriesDetails : TVDBSeriesExtended) : list TVDBSeason :=
  match series_seasons seriesDetails with
  | Some seasons => filter (fun s => (season_number s >=? 1) && isCanonical s) seasons
  | None => []
  end.

(** The episodes one turn of the loop of [getGrandchildren] maps. *)
Definition episodesOfSeason (id : number) (seriesDetails : TVDBSeriesExtended)
    (season seasonDetails : TVDBSeason) : list EpisodeMetadata :=
  let showGuid := TV_PROVIDER_IDENTIFIER +++ "://show/tvdb-show-" +++ numToString id in
  let seasonGuid :=
    TV_PROVIDER_IDENTIFIER +++ "://season/tvdb-season-" +++ numToString id
      +++ "-" +++ numToString (season_number season) in
  match season_episodes seasonDetails with
  | Some episodes =>
      map (fun episode =>
             mapEpisode episode id (series_name seriesDetails) showGuid
               (orElse (season_name season)
                       ("Season " +++ numToString (season_number season)))
               seasonGuid
               (orUndefined (series_image seriesDetails))
               (orUndefined (season_image season)))
          episodes
  | None => []
  end.

(** [for (const season of regularSeasons) { ... allEpisodes.push(...episodes) }]:
    one upstream call per season, in order; a rejected call ends the loop. *)
Fixpoint collectEpisodes (id : number) (seriesDetails : TVDBSeriesExtended)
    (seasons : list TVDBSeason) (allEpisodes : list EpisodeMetadata)
  : Result (list EpisodeMetadata) :=
  match seasons with
  | [] => Ok allEpisodes
  | season :: rest =>
      await seasonDetails := getSeasonDetails tvdbClient (season_id season) in
      collectEpisodes id seriesDetails rest
        (allEpisodes ++ episodesOfSeason id seriesDetails season seasonDetails)
  end.

Definition getGrandchildren (ratingKey : string) (options : MetadataServiceOptions)
    (paging : PagingOptions) : Result MetadataResponse :=
  match parseRatingKey ratingKey with
  | None => Throw {| message := "Invalid ratingKey format: " +++ ratingKey |}
  | Some parsed =>
      match parsed_type parsed with
      | Show =>
          let containerSize := match containerSize paging with Some n => n | None => 20 end in
          let containerStart := match containerStart paging with Some n => n | None => 1 end in
          await seriesDetails := getSeriesDetails tvdbClient (seriesId parsed) in
          await allEpisodes :=
            collectEpisodes (seriesId parsed) seriesDetails
              (regularSeasons seriesDetails) [] in
          Ok (paged (map OfEpisode allEpisodes) containerStart containerSize)
      | t =>
          Throw {| message := "Cannot get grandchildren for type: " +++ typeWord t |}
      end
  end.

Variable artworkClient : TVDBArtworkClient.

Definition getImages (ratingKey : string) (options : MetadataServiceOptions)
  : Result ImagesResponse :=
  match parseRatingKey ratingKey with
  | None => Throw {| message := "Invalid ratingKey format: " +++ ratingKey |}
  | Some parsed =>
      match parsed_type parsed with
      | Show =>
          await seriesDetails := getSeriesDetails tvdbClient (seriesId parsed) in
          await artworks := getSeriesArtworks artworkClient (seriesId parsed) in
          Ok (imagesResponse (mapAllImages (Some artworks) (series_name seriesDetails)))
      | Season =>
          match seasonNumber parsed with
          | None => Throw {| message := "Invalid season ratingKey: " +++ ratingKey |}
          | Some sn =>
              await seriesDetails := getSeriesDetails tvdbClient (seriesId parsed) in
              await season := getSeasonByNumber tvdbClient (seriesId parsed) sn
                                (orElse (seasonType parsed) "default") in
              match season with
              | Some season =>
                  await seasonArtworks := getSeasonArtworks artworkClient (season_id season) in
                  Ok (imagesResponse
                        (mapAllImages (Some seasonArtworks)
                           (series_name seriesDetails +++ " - Season " +++ numToString sn)))
              | None => Ok (imagesResponse [])
              end
          end
      | Episode =>
          match seasonNumber parsed, episodeNumber parsed with
          | Some sn, Some en =>
              await seriesDetails := getSeriesDetails tvdbClient (seriesId parsed) in
              await episode := getEpisodeByNumber tvdbClient (seriesId parsed) sn en
                                 (orElse (seasonType parsed) "default") in
              Ok (imagesResponse
                    match episode with
                    | Some episode =>
                        match orUndefined (episode_image episode) with
                        | Some url =>
                            [ {| image_type := snapshot; image_url := url;
                                 image_alt := series_name seriesDetails +++ " - S"
                                              +++ numToString sn +++ "E" +++ numToString en |} ]
                        | None => []
                        end
                    | None => []
                    end)
          | _, _ => Throw {| message := "Invalid episode ratingKey: " +++ ratingKey |}
          end
      end
  end.

End Service.

End MetadataService.

(** ** Sample data

    The records of the mapper's unit tests ([test/TVDBMapper.test.ts]) and
    stand-ins for the collaborators, used to run the functions. *)

Module Samples.
Import JS TVDB Metadata TVDBMapper MetadataService.

(** Modelled from the spec: [src/utils/guid.ts] is not among the sources;
    [constructGuid] is the codec's [buildUri] ("{scheme}://{entityTypeWord}/
    {identifier}"), the keys and the external guid have the shapes the unit
    tests expect. *)
Definition guidUtils : GuidUtils := {|
  constructGuid scheme word ratingKey := scheme +++ "://" +++ word +++ "/" +++ ratingKey;
  constructMetadataKey ratingKey := "/library/metadata/" +++ ratingKey;
  constructMetadataKeyWithChildren ratingKey :=
    "/library/metadata/" +++ ratingKey +++ "/children";
  createExternalGuid source id :=
    source +++ "://" +++ match id with NumId n => numToString n | StrId s => s end |}.

(** The year of a date string that starts with it ("2010-04-05"). *)
Definition dateLib : DateLib := {|
  getFullYear s := match parseInt s with Some y => y | None => 0 end |}.

Definition official : TVDBSeasonType :=
  {| TVDB.seasonType_id := 1; seasonType_name := "Aired Order";
     seasonType_type := "official"; seasonType_alternateName := None |}.

Definition dvd : TVDBSeasonType :=
  {| TVDB.seasonType_id := 2; seasonType_name := "DVD Order";
     seasonType_type := "dvd"; seasonType_alternateName := None |}.

Definition mkSeason (t : TVDBSeasonType) (n : number) : TVDBSeason :=
  {| season_id := 12345 + n; season_type := t;
     season_name := Some ("Season " +++ numToString n); season_number := n;
     season_image := Some "https://artworks.thetvdb.com/season-poster.jpg";
     season_artwork := None; season_episodes := None |}.

Definition season8 : TVDBSeason := mkSeason official 8.
Definition season8dvd : TVDBSeason := mkSeason dvd 8.

(** Ten canonical seasons, numbers 1 to 10, and two DVD-order ones. *)
Definition tenSeasons : list TVDBSeason :=
  map (mkSeason official) [1; 2; 3; 4; 5; 6; 7; 8; 9; 10]
  ++ map (mkSeason dvd) [1; 2].

Definition adventureTime : TVDBSeriesExtended :=
  {| series_id := 152831;
     series_name := "Adventure Time";
     series_image := Some "https://artworks.thetvdb.com/banners/posters/adventure-time.jpg";
     series_firstAired := Some "2010-04-05";
     series_score := 8500;
     series_originalCountry := Some "usa";
     series_averageRuntime := Some 11;
     series_overview := Some "Unlikely heroes Finn and Jake are buddies.";
     series_artworks :=
       Some [ {| artwork_type := TVDBArtworkType.POSTER;
                 artwork_image := "https://artworks.thetvdb.com/poster.jpg" |};
              {| artwork_type := TVDBArtworkType.BACKGROUND;
                 artwork_image := "https://artworks.thetvdb.com/background.jpg" |} ];
     series_companies := Some [ {| company_id := 1; company_name := "Frederator Studios" |} ];
     series_originalNetwork := Some {| company_id := 56; company_name := "Cartoon Network" |};
     series_latestNetwork := Some {| company_id := 56; company_name := "Cartoon Network" |};
     series_genres := Some [ {| genre_name := "Animation" |}; {| genre_name := "Comedy" |} ];
     series_remoteIds :=
       Some [ {| remote_id := "tt1305826"; remote_type := 2 |};
              {| remote_id := "15260"; remote_type := 12 |} ];
     series_characters :=
       Some [ {| character_name := "Finn the Human"; character_type := 3;
                 character_sort := 0; character_personName := "Jeremy Shada";
                 character_personImgURL := Some "https://artworks.thetvdb.com/actor.jpg" |};
              {| character_name := ""; character_type := 1;
                 character_sort := 0; character_personName := "Larry Leichliter";
                 character_personImgURL := None |} ];
     series_seasons := Some tenSeasons;
     series_contentRatings :=
       Some [ {| rating_name := "TV-PG"; rating_country := Some "usa" |} ];
     series_seasonTypes := Some [official; dvd] |}.

(** The same series with a runtime of zero minutes. *)
Definition zeroRuntime : TVDBSeriesExtended :=
  {| series_id := 152831;
     series_name := "Adventure Time";
     series_image := None;
     series_firstAired := None;
     series_score := 0;
     series_originalCountry := None;
     series_averageRuntime := Some 0;
     series_overview := None;
     series_artworks := None;
     series_companies := None;
     series_originalNetwork := None;
     series_latestNetwork := None;
     series_genres := None;
     series_remoteIds := None;
     series_characters := None;
     series_seasons := None;
     series_contentRatings := None;
     series_seasonTypes := None |}.

(** Three actors with sort keys 900, 5 and 5, and a director in between. *)
Definition someCharacters : list TVDBCharacter :=
  [ {| character_name := "Ice King"; character_type := 3; character_sort := 900;
       character_personName := "Tom Kenny"; character_personImgURL := None |};
    {| character_name := ""; character_type := 1; character_sort := 0;
       character_personName := "Larry Leichliter"; character_personImgURL := None |};
    {| character_name := "Finn"; character_type := 3; character_sort := 5;
       character_personName := "Jeremy Shada"; character_personImgURL := None |};
    {| character_name := "Jake"; character_type := 3; character_sort := 5;
       character_personName := "John DiMaggio"; character_personImgURL := Some "" |} ].

(** An upstream catalog that knows the sample series and no season or
    episode by number. *)
Definition upstream : TVDBClient :=
  {| getSeriesDetails id :=
       if id =? 152831 then Ok adventureTime
       else Throw {| message := "Request failed with status code 404" |};
     getSeasonByNumber _ _ _ := Ok None;
     getSeasonDetails _ := Throw {| message := "Request failed with status code 404" |};
     getEpisodeByNumber _ _ _ _ := Ok None;
     getEpisodeDetails _ := Throw {| message := "Request failed with status code 404" |} |}.

(** An upstream catalog that also knows season 8 of the sample series, in
    the canonical and in the DVD ordering. *)
Definition upstreamWithSeason8 : TVDBClient :=
  {| getSeriesDetails := getSeriesDetails upstream;
     getSeasonByNumber id n tag :=
       if (id =? 152831) && (n =? 8) then
         if (tag =? "dvd")%string then Ok (Some season8dvd)
         else if (tag =? "default")%string then Ok (Some season8)
         else Ok None
       else Ok None;
     getSeasonDetails := getSeasonDetails upstream;
     getEpisodeByNumber := getEpisodeByNumber upstream;
     getEpisodeDetails := getEpisodeDetails upstream |}.

End Samples.

(** ** More sample data *)

Module MoreSamples.
Import JS TVDB Metadata TVDBMapper MetadataService Samples.

Definition finale : TVDBEpisode :=
  {| episode_id := 1418023;
     episode_name := Some "The Wild Hunt";
     episode_aired := Some "2017-09-17";
     episode_runtime := Some 11;
     episode_overview := None;
     episode_image := Some "https://artworks.thetvdb.com/episode-still.jpg";
     episode_number := 1;
     episode_seasonNumber := 8;
     episode_characters := None;
     episode_remoteIds := Some [ {| remote_id := "tt7000000"; remote_type := 2 |} ] |}.

Definition sequel : TVDBEpisode :=
  {| episode_id := 1418024;
     episode_name := None;
     episode_aired := None;
     episode_runtime := None;
     episode_overview := None;
     episode_image := None;
     episode_number := 2;
     episode_seasonNumber := 8;
     episode_characters := None;
     episode_remoteIds := None |}.

(** Season 8 with its episode list and an artwork list. *)
Definition season8Extended : TVDBSeason :=
  {| season_id := season_id season8;
     season_type := official;
     season_name := Some "Season 8";
     season_number := 8;
     season_image := Some "https://artworks.thetvdb.com/season-poster.jpg";
     season_artwork :=
       Some [ {| artwork_type := TVDBArtworkType.BANNER;
                 artwork_image := "https://artworks.thetvdb.com/banner.jpg" |};
              {| artwork_type := 5;
                 artwork_image := "https://artworks.thetvdb.com/icon.jpg" |} ];
     season_episodes := Some [finale; sequel] |}.

(** Season 8 with an artwork list that holds an icon only. *)
Definition season8Icon : TVDBSeason :=
  {| season_id := season_id season8;
     season_type := official;
     season_name := Some "Season 8";
     season_number := 8;
     season_image := Some "https://artworks.thetvdb.com/season-poster.jpg";
     season_artwork :=
       Some [ {| artwork_type := 5;
                 artwork_image := "https://artworks.thetvdb.com/icon.jpg" |} ];
     season_episodes := None |}.

(** A series with a special season 0, two regular seasons and a DVD one. *)
Definition miniSeries : TVDBSeriesExtended :=
  {| series_id := 152831;
     series_name := "Adventure Time";
     series_image := None;
     series_firstAired := None;
     series_score := 0;
     series_originalCountry := None;
     series_averageRuntime := None;
     series_overview := None;
     series_artworks := None;
     series_companies := None;
     series_originalNetwork := None;
     series_latestNetwork := None;
     series_genres := None;
     series_remoteIds := None;
     series_characters := None;
     series_seasons :=
       Some [mkSeason official 0; mkSeason official 1; mkSeason dvd 1; mkSeason official 2];
     series_contentRatings := None;
     series_seasonTypes := None |}.

(** The extended record of a season: one episode per season number. *)
Definition detailsOf (season : TVDBSeason) : TVDBSeason :=
  {| season_id := season_id season;
     season_type := season_type season;
     season_name := season_name season;
     season_number := season_number season;
     season_image := season_image season;
     season_artwork := None;
     season_episodes :=
       Some [ {| episode_id := 100 + season_number season;
                 episode_name := None; episode_aired := None; episode_runtime := None;
                 episode_overview := None; episode_image := None;
                 episode_number := 1;
                 episode_seasonNumber := season_number season;
                 episode_characters := None; episode_remoteIds := None |} ] |}.

(** An upstream catalog for [miniSeries]: season ids are 12345 + number;
    the details of season 2 cannot be fetched. *)
Definition miniUpstream : TVDBClient :=
  {| getSeriesDetails id :=
       if id =? 152831 then Ok miniSeries
       else Throw {| message := "Request failed with status code 404" |};
     getSeasonByNumber _ _ _ := Ok None;
     getSeasonDetails sid :=
       if sid =? 12347 then Throw {| message := "Request failed with status code 500" |}
       else Ok (detailsOf (mkSeason official (sid - 12345)));
     getEpisodeByNumber _ _ _ _ := Ok None;
     getEpisodeDetails _ := Throw {| message := "Request failed with status code 404" |} |}.

(** The same catalog with every season's details at hand. *)
Definition miniUpstreamUp : TVDBClient :=
  {| getSeriesDetails := getSeriesDetails miniUpstream;
     getSeasonByNumber := getSeasonByNumber miniUpstream;
     getSeasonDetails sid := Ok (detailsOf (mkSeason official (sid - 12345)));
     getEpisodeByNumber := getEpisodeByNumber miniUpstream;
     getEpisodeDetails := getEpisodeDetails miniUpstream |}.

Definition artworkUpstream : TVDBArtworkClient :=
  {| getSeriesArtworks _ :=
       Ok [ {| artwork_type := TVDBArtworkType.POSTER;
               artwork_image := "https://artworks.thetvdb.com/poster.jpg" |};
            {| artwork_type := 5;
               artwork_image := "https://artworks.thetvdb.com/icon.jpg" |};
            {| artwork_type := TVDBArtworkType.BANNER;
               artwork_image := "https://artworks.thetvdb.com/banner.jpg" |} ];
     getSeasonArtworks _ := Ok [] |}.

(** A series fetch that is rejected. *)
Definition downUpstream : TVDBClient :=
  {| getSeriesDetails _ := Throw {| message := "connect ECONNREFUSED" |};
     getSeasonByNumber := getSeasonByNumber upstream;
     getSeasonDetails := getSeasonDetails upstream;
     getEpisodeByNumber := getEpisodeByNumber upstream;
     getEpisodeDetails := getEpisodeDetails upstream |}.

End MoreSamples.

(** * Properties *)

(** ** Strings and decimal numerals *)

Module StringFacts.
Import JS Regex.

Lemma append_nil_r (s : string) : s +++ "" = s.
Proof. induction s as [|c s IH]; simpl; [reflexivity | now rewrite IH]. Qed.

Lemma append_eq_nil (a b : string) : a +++ b = "" -> a = "" /\ b = "".
Proof. destruct a; simpl; [auto | discriminate]. Qed.

Lemma stripPrefix_append (p s : string) : stripPrefix p (p +++ s) = Some s.
Proof.
  induction p as [|c p IH]; simpl; [reflexivity |].
  now rewrite Ascii.eqb_refl.
Qed.

Lemma stripPrefix_Some (p s s' : string) : stripPrefix p s = Some s' -> s = p +++ s'.
Proof.
  revert s; induction p as [|c p IH]; intros s; simpl.
  - now intros [= ->].
  - destruct s as [|d s]; [discriminate |].
    destruct (Ascii.eqb_spec c d) as [->|]; [|discriminate].
    intros Hs. now rewrite (IH _ Hs).
Qed.


Lemma lastChar_append (a b : string) : b <> "" -> lastChar (a +++ b) = lastChar b.
Proof.
  intros Hb. induction a as [|c a IH]; simpl; [reflexivity |].
  rewrite IH. destruct (a +++ b) eqn:E; [|reflexivity].
  apply append_eq_nil in E. now destruct E.
Qed.

Lemma lastChar_allChars (p : ascii -> bool) (w : string) :
  w <> "" -> allChars p w = true -> exists c, lastChar w = Some c /\ p c = true.
Proof.
  induction w as [|c w IH]; [congruence |].
  intros _ Hw. simpl in Hw. apply andb_true_iff in Hw as [Hc Hw].
  destruct w as [|d w].
  - exists c. auto.
  - destruct IH as (x & Hx & Hpx); [discriminate | assumption |].
    exists x. split; [exact Hx | exact Hpx].
Qed.

Lemma digit_not_lower (c : ascii) : isDigit c = true -> isLower c = false.
Proof.
  destruct c as [[|] [|] [|] [|] [|] [|] [|] [|]]; vm_compute; congruence.
Qed.

(** The numerals printed for non-negative numbers. *)
Lemma allChars_string_of_uint (d : Decimal.uint) :
  allChars isDigit (NilEmpty.string_of_uint d) = true.
Proof. induction d; simpl; auto. Qed.

Lemma digitPrefix_digits (s : string) : allChars isDigit s = true -> digitPrefix s = s.
Proof.
  induction s as [|c s IH]; simpl; [reflexivity |].
  intros Hs. apply andb_true_iff in Hs as [Hc Hs].
  now rewrite Hc, IH.
Qed.

Lemma numToString_nonneg (n : number) :
  0 <= n ->
  exists d, d <> Decimal.Nil /\ numToString n = NilEmpty.string_of_uint d
            /\ Z.of_uint d = n.
Proof.
  intros Hn. unfold numToString.
  destruct n as [|p|p]; [| |lia].
  - exists (Decimal.D0 Decimal.Nil). repeat split. discriminate.
  - exists (Pos.to_uint p). split; [apply Unsigned.to_uint_nonnil |].
    split.
    + simpl. unfold NilZero.string_of_uint.
      destruct (Pos.to_uint p) eqn:E; try reflexivity.
      now apply Unsigned.to_uint_nonnil in E.
    + exact (DecimalZ.of_to (Zpos p)).
Qed.

Lemma string_of_uint_nonnil (d : Decimal.uint) :
  d <> Decimal.Nil -> NilEmpty.string_of_uint d <> "".
Proof. destruct d; simpl; congruence. Qed.

Lemma isWord_numToString (n : number) : 0 <= n -> isWord Digit (numToString n).
Proof.
  intros Hn. destruct (numToString_nonneg n Hn) as (d & Hd & -> & _).
  split; [now apply string_of_uint_nonnil | apply allChars_string_of_uint].
Qed.

Lemma parseInt_numToString (n : number) : 0 <= n -> parseInt (numToString n) = Some n.
Proof.
  intros Hn. destruct (numToString_nonneg n Hn) as (d & Hd & E & Hv).
  unfold parseInt. rewrite E, digitPrefix_digits by apply allChars_string_of_uint.
  unfold NilZero.uint_of_string.
  destruct (NilEmpty.string_of_uint d) eqn:Es.
  - now apply string_of_uint_nonnil in Es.
  - rewrite <- Es, NilEmpty.usu. simpl. now rewrite Hv.
Qed.

(** [parseInt] never yields [NaN] on a capture of [\d+]. *)
Lemma uint_of_string_digits (s : string) :
  allChars isDigit s = true -> exists d, NilEmpty.uint_of_string s = Some d.
Proof.
  induction s as [|c s IH]; simpl; [now eexists |].
  intros Hs. apply andb_true_iff in Hs as [Hc Hs].
  destruct (IH Hs) as [d ->].
  destruct c as [[|] [|] [|] [|] [|] [|] [|] [|]]; try discriminate Hc; simpl; now eexists.
Qed.

Lemma parseInt_digits (w : string) : isWord Digit w -> exists n, parseInt w = Some n.
Proof.
  intros [Hne Hw]. unfold parseInt. rewrite digitPrefix_digits by exact Hw.
  destruct (uint_of_string_digits w Hw) as [d Hd].
  unfold NilZero.uint_of_string. destruct w; [congruence |].
  rewrite Hd. simpl. now eexists.
Qed.

End StringFacts.

(** ** The pattern matcher *)

Module RegexFacts.
Import JS Regex StringFacts.

Lemma capPlus_stuck (k : charClass) cont (s : string) :
  startsIn k s = false -> capPlus k cont s = None.
Proof. destruct s as [|c s]; simpl; [reflexivity | now intros ->]. Qed.

(** Soundness of a capture: what [capPlus] returns is a word of the class,
    and the continuation accepted the rest. *)
Lemma capPlus_sound (k : charClass) cont (s cap : string) (caps : list string) :
  capPlus k cont s = Some (cap, caps) ->
  exists s', s = cap +++ s' /\ isWord k cap /\ cont s' = Some caps.
Proof.
  revert cap; induction s as [|c s IH]; intros cap; simpl; [discriminate |].
  destruct (inClass k c) eqn:Hc; [|discriminate].
  destruct (capPlus k cont s) as [[cap' caps']|] eqn:Hrec.
  - intros [= <- <-]. destruct (IH _ eq_refl) as (s' & -> & [Hne Hall] & Hk).
    exists s'. split; [reflexivity |]. split; [|exact Hk].
    split; [discriminate | simpl; now rewrite Hc].
  - destruct (cont s) eqn:Hk; [|discriminate].
    intros [= <- <-]. exists s. split; [reflexivity |]. split; [|exact Hk].
    split; [discriminate | simpl; now rewrite Hc].
Qed.

(** A greedy capture stops exactly at a delimiter. *)
Lemma capPlus_greedy (k : charClass) cont (w s : string) (caps : list string) :
  isWord k w -> startsIn k s = false -> cont s = Some caps ->
  capPlus k cont (w +++ s) = Some (w, caps).
Proof.
  intros [Hne Hall] Hs Hk. induction w as [|c w IH]; [congruence |].
  simpl in Hall. apply andb_true_iff in Hall as [Hc Hall].
  simpl. rewrite Hc. destruct w as [|d w].
  - simpl. now rewrite (capPlus_stuck k cont s Hs), Hk.
  - rewrite IH; [reflexivity | discriminate | exact Hall].
Qed.

Theorem matchItems_sound (its : list item) :
  forall s caps, matchItems its s = Some caps -> shape its s caps.
Proof.
  induction its as [|[text|k] rest IH]; intros s caps; simpl.
  - destruct s; [now intros [= <-] | discriminate].
  - destruct (stripPrefix text s) as [s'|] eqn:E; [|discriminate].
    intros Hm. exists s'. split; [now apply stripPrefix_Some | now apply IH].
  - destruct (capPlus k (matchItems rest) s) as [[cap caps']|] eqn:E; [|discriminate].
    intros [= <-]. apply capPlus_sound in E as (s' & -> & Hw & Hk).
    exists cap, s', caps'. repeat split; try apply Hw. now apply IH.
Qed.

Lemma startsIn_render (k : charClass) (rest : list item) (caps : list string) :
  delimits k rest = true -> startsIn k (render rest caps) = false.
Proof.
  destruct rest as [|[[|c text]|k'] rest]; simpl; try discriminate; [reflexivity |].
  now intros ->%negb_true_iff.
Qed.

(** On a well-delimited pattern the matcher returns exactly the captures the
    text was rendered from. *)
Theorem matchItems_render (its : list item) :
  wellDelimited its = true ->
  forall caps, fits its caps -> matchItems its (render its caps) = Some caps.
Proof.
  induction its as [|[text|k] rest IH]; intros Hwd caps Hfit; simpl in *.
  - now destruct caps.
  - rewrite stripPrefix_append. now apply IH.
  - apply andb_true_iff in Hwd as [Hd Hwd].
    destruct caps as [|w caps]; [contradiction |]. destruct Hfit as [Hw Hfit].
    rewrite (capPlus_greedy k _ w _ caps Hw); auto using startsIn_render.
Qed.

(** A pattern that ends in [k+] only matches text that ends in [k]. *)
Lemma shape_ends (k : charClass) (its : list item) :
  forall s caps, shape (its ++ [CapPlus k]) s caps ->
  exists c, lastChar s = Some c /\ inClass k c = true.
Proof.
  induction its as [|[text|k'] rest IH]; intros s caps; simpl.
  - intros (w & s' & caps' & -> & _ & [Hne Hall] & -> & _).
    rewrite append_nil_r. now apply lastChar_allChars.
  - intros (s' & -> & Hs'). destruct (IH _ _ Hs') as (c & Hc & Hk).
    exists c. split; [|exact Hk]. rewrite lastChar_append; [exact Hc |].
    intros ->. discriminate.
  - intros (w & s' & caps' & -> & _ & _ & Hs').
    destruct (IH _ _ Hs') as (c & Hc & Hk).
    exists c. split; [|exact Hk]. rewrite lastChar_append; [exact Hc |].
    intros ->. discriminate.
Qed.

Lemma regexMatch_Some (re : regex) (s : string) (m : list string) :
  regexMatch re s = Some m -> exists caps, m = s :: caps /\ matchItems re s = Some caps.
Proof.
  unfold regexMatch. destruct (matchItems re s) as [caps|]; [|discriminate].
  intros [= <-]. now exists caps.
Qed.

End RegexFacts.

(** ** The rating-key codec *)

Module CodecFacts.
Import JS Regex StringFacts RegexFacts Metadata MetadataService.

Lemma parseRatingKey_firstMatch (ratingKey : string) :
  parseRatingKey ratingKey = firstMatch ratingKeyForms ratingKey.
Proof. reflexivity. Qed.

(** *** First match over forms of which at most one matches *)

Section FirstMatch.
Variable ratingKey : string.

Lemma firstMatch_none (forms : list form) :
  (forall f, In f forms -> regexMatch (fst f) ratingKey = None) ->
  firstMatch forms ratingKey = None.
Proof.
  induction forms as [|[re build] forms IH]; intros Hnone; simpl; [reflexivity |].
  pose proof (Hnone (re, build) (or_introl eq_refl)) as E. simpl in E. rewrite E.
  apply IH. intros f Hf. apply Hnone. now right.
Qed.

Lemma firstMatch_the_one (forms : list form) (f : form) (m : list string) :
  exclusive ratingKey forms -> In f forms -> regexMatch (fst f) ratingKey = Some m ->
  firstMatch forms ratingKey = snd f m.
Proof.
  induction forms as [|[re build] forms IH]; intros Hex Hin Hm; [contradiction |].
  simpl. destruct (regexMatch re ratingKey) as [m'|] eqn:E.
  - assert (Hfg : (re, build) = f).
    { apply Hex; [now left | exact Hin | | ]; unfold matches; simpl; congruence. }
    subst f. simpl in *. congruence.
  - destruct Hin as [<-|Hin]; [simpl in Hm; congruence |].
    apply IH; auto. intros g h Hg Hh. apply Hex; now right.
Qed.

Lemma firstMatch_some_or_none (forms : list form) :
  (exists f m, In f forms /\ regexMatch (fst f) ratingKey = Some m)
  \/ (forall f, In f forms -> regexMatch (fst f) ratingKey = None).
Proof.
  induction forms as [|f forms [(g & m & Hg & Hm)|Hnone]].
  - right. intros f [].
  - left. exists g, m. split; [now right | exact Hm].
  - destruct (regexMatch (fst f) ratingKey) as [m|] eqn:E.
    + left. exists f, m. split; [now left | exact E].
    + right. intros g [<-|Hg]; auto.
Qed.

(** With at most one matching form, the order of the tries is immaterial. *)
Lemma firstMatch_Permutation (forms forms' : list form) :
  exclusive ratingKey forms -> Permutation forms' forms ->
  firstMatch forms' ratingKey = firstMatch forms ratingKey.
Proof.
  intros Hex Hperm.
  assert (Hex' : exclusive ratingKey forms').
  { intros f g Hf Hg. apply Hex; eapply Permutation_in; eauto. }
  destruct (firstMatch_some_or_none forms) as [(f & m & Hf & Hm)|Hnone].
  - rewrite (firstMatch_the_one forms f m), (firstMatch_the_one forms' f m); auto.
    eapply Permutation_in; [symmetry|]; eauto.
  - rewrite !firstMatch_none; auto.
    intros f Hf. apply Hnone. eapply Permutation_in; eauto.
Qed.

End FirstMatch.

(** *** What each of the five patterns forces on the text *)

Lemma shape_prefix (text : string) (rest : list item) (s : string) (caps : list string) :
  shape (Lit text :: rest) s caps -> exists s', s = text +++ s'.
Proof. intros (s' & -> & _). now exists s'. Qed.

Lemma endsWith_conflict (s : string) : endsWith Digit s -> endsWith LowerAlpha s -> False.
Proof.
  intros (c & Hc & Hd) (c' & Hc' & Hl). simpl in *.
  assert (c' = c) by congruence. subst c'.
  apply digit_not_lower in Hd. congruence.
Qed.

Lemma showRe_sig s caps : matchItems showRe s = Some caps ->
  exists s', s = "tvdb-show-" +++ s'.
Proof. intros Hm%matchItems_sound. exact (shape_prefix _ _ _ _ Hm). Qed.

Lemma seasonTypeRe_sig s caps : matchItems seasonTypeRe s = Some caps ->
  (exists s', s = "tvdb-season-" +++ s') /\ endsWith LowerAlpha s.
Proof.
  intros Hm%matchItems_sound. split; [exact (shape_prefix _ _ _ _ Hm) |].
  exact (shape_ends LowerAlpha
           [Lit "tvdb-season-"; CapPlus Digit; Lit "-"; CapPlus Digit; Lit "-"] s caps Hm).
Qed.

Lemma seasonRe_sig s caps : matchItems seasonRe s = Some caps ->
  (exists s', s = "tvdb-season-" +++ s') /\ endsWith Digit s.
Proof.
  intros Hm%matchItems_sound. split; [exact (shape_prefix _ _ _ _ Hm) |].
  exact (shape_ends Digit [Lit "tvdb-season-"; CapPlus Digit; Lit "-"] s caps Hm).
Qed.

Lemma episodeTypeRe_sig s caps : matchItems episodeTypeRe s = Some caps ->
  (exists s', s = "tvdb-episode-" +++ s') /\ endsWith LowerAlpha s.
Proof.
  intros Hm%matchItems_sound. split; [exact (shape_prefix _ _ _ _ Hm) |].
  exact (shape_ends LowerAlpha
           [Lit "tvdb-episode-"; CapPlus Digit; Lit "-"; CapPlus Digit; Lit "-";
            CapPlus Digit; Lit "-"] s caps Hm).
Qed.

Lemma episodeRe_sig s caps : matchItems episodeRe s = Some caps ->
  (exists s', s = "tvdb-episode-" +++ s') /\ endsWith Digit s.
Proof.
  intros Hm%matchItems_sound. split; [exact (shape_prefix _ _ _ _ Hm) |].
  exact (shape_ends Digit
           [Lit "tvdb-episode-"; CapPlus Digit; Lit "-"; CapPlus Digit; Lit "-"] s caps Hm).
Qed.

Ltac prefix_clash :=
  match goal with
  | H1 : ?s = _ +++ _, H2 : ?s = _ +++ _ |- _ =>
      rewrite H1 in H2; simpl in H2; discriminate H2
  end.

Ltac signatures :=
  repeat match goal with
  | H : matchItems showRe _ = Some _ |- _ => apply showRe_sig in H as [? ?]
  | H : matchItems seasonTypeRe _ = Some _ |- _ => apply seasonTypeRe_sig in H as [[? ?] ?]
  | H : matchItems seasonRe _ = Some _ |- _ => apply seasonRe_sig in H as [[? ?] ?]
  | H : matchItems episodeTypeRe _ = Some _ |- _ => apply episodeTypeRe_sig in H as [[? ?] ?]
  | H : matchItems episodeRe _ = Some _ |- _ => apply episodeRe_sig in H as [[? ?] ?]
  end.

(** No text matches two of the five forms. *)
Lemma ratingKeyForms_exclusive (ratingKey : string) : exclusive ratingKey ratingKeyForms.
Proof.
  intros f g Hf Hg Mf Mg. unfold matches in *.
  destruct (regexMatch (fst f) ratingKey) as [mf|] eqn:Ef; [clear Mf | congruence].
  destruct (regexMatch (fst g) ratingKey) as [mg|] eqn:Eg; [clear Mg | congruence].
  apply regexMatch_Some in Ef as (cf & _ & Ef).
  apply regexMatch_Some in Eg as (cg & _ & Eg).
  simpl in Hf, Hg.
  repeat destruct Hf as [<-|Hf]; try contradiction;
  repeat destruct Hg as [<-|Hg]; try contradiction;
  try reflexivity; cbn [fst] in Ef, Eg; exfalso; signatures;
  first [ prefix_clash | eapply endsWith_conflict; eassumption ].
Qed.

Ltac run_build :=
  unfold snd, fromShowMatch, fromSeasonTypeMatch, fromSeasonMatch,
    fromEpisodeTypeMatch, fromEpisodeMatch, group; cbn [nth].

(** A matching form always builds a whole record: the numeric captures are
    digit words, so no field is [NaN]. *)
Lemma form_builds (ratingKey : string) (f : form) (m : list string) :
  In f ratingKeyForms -> regexMatch (fst f) ratingKey = Some m ->
  exists p, snd f m = Some p /\ complete p.
Proof.
  intros Hf Hm. apply regexMatch_Some in Hm as (caps & -> & Hm).
  apply matchItems_sound in Hm. simpl in Hf.
  repeat destruct Hf as [<-|Hf]; try contradiction; cbn in Hm;
    repeat match goal with
    | H : exists _, _ |- _ => destruct H
    | H : _ /\ _ |- _ => destruct H
    end; subst;
    run_build;
    repeat match goal with
    | H : isWord Digit ?w |- context [parseInt ?w] =>
        let n := fresh "n" in let E := fresh "E" in
        destruct (parseInt_digits w H) as [n E]; rewrite E
    end;
    (eexists; split; [reflexivity | unfold complete; cbn; repeat split; congruence]).
Qed.

Lemma parse_via (ratingKey : string) (f : form) (caps : list string) :
  In f ratingKeyForms -> matchItems (fst f) ratingKey = Some caps ->
  parseRatingKey ratingKey = snd f (ratingKey :: caps).
Proof.
  intros Hf Hm. rewrite parseRatingKey_firstMatch.
  apply firstMatch_the_one; auto using ratingKeyForms_exclusive.
  unfold regexMatch. now rewrite Hm.
Qed.

(** Decoding after encoding, for non-negative numbers. *)
Lemma parseRatingKey_encode_nonneg (id n e : number) (seasonTag : option string) :
  0 <= id -> 0 <= n -> 0 <= e -> validTag seasonTag ->
  parseRatingKey (encodeShow id)
  = Some {| parsed_type := Show; seriesId := id; seasonNumber := None;
            episodeNumber := None; seasonType := None |}
  /\ parseRatingKey (encodeSeason id n seasonTag)
     = Some {| parsed_type := Season; seriesId := id; seasonNumber := Some n;
               episodeNumber := None; seasonType := seasonTag |}
  /\ parseRatingKey (encodeEpisode id n e seasonTag)
     = Some {| parsed_type := Episode; seriesId := id; seasonNumber := Some n;
               episodeNumber := Some e; seasonType := seasonTag |}.
Proof.
  intros Hid Hn He Htag.
  pose proof (isWord_numToString id Hid) as Wid.
  pose proof (isWord_numToString n Hn) as Wn.
  pose proof (isWord_numToString e He) as We.
  split; [|split].
  - rewrite (parse_via _ (showRe, fromShowMatch) [numToString id]).
    + run_build. now rewrite parseInt_numToString.
    + cbn; auto.
    + cbn [fst].
      replace (encodeShow id) with (render showRe [numToString id])
        by (cbn; now rewrite append_nil_r).
      apply matchItems_render; [reflexivity | cbn; auto].
  - destruct seasonTag as [t|].
    + rewrite (parse_via _ (seasonTypeRe, fromSeasonTypeMatch)
                 [numToString id; numToString n; t]).
      * run_build. now rewrite !parseInt_numToString.
      * cbn; auto.
      * cbn [fst].
        replace (encodeSeason id n (Some t))
          with (render seasonTypeRe [numToString id; numToString n; t])
          by (cbn; now rewrite append_nil_r).
        apply matchItems_render; [reflexivity | cbn; auto].
    + rewrite (parse_via _ (seasonRe, fromSeasonMatch) [numToString id; numToString n]).
      * run_build. now rewrite !parseInt_numToString.
      * cbn; auto.
      * cbn [fst].
        replace (encodeSeason id n None)
          with (render seasonRe [numToString id; numToString n])
          by reflexivity.
        apply matchItems_render; [reflexivity | cbn; auto].
  - destruct seasonTag as [t|].
    + rewrite (parse_via _ (episodeTypeRe, fromEpisodeTypeMatch)
                 [numToString id; numToString n; numToString e; t]).
      * run_build. now rewrite !parseInt_numToString.
      * cbn; auto 10.
      * cbn [fst].
        replace (encodeEpisode id n e (Some t))
          with (render episodeTypeRe [numToString id; numToString n; numToString e; t])
          by (cbn; now rewrite append_nil_r).
        apply matchItems_render; [reflexivity | cbn; auto].
    + rewrite (parse_via _ (episodeRe, fromEpisodeMatch)
                 [numToString id; numToString n; numToString e]).
      * run_build. now rewrite !parseInt_numToString.
      * cbn; auto 10.
      * cbn [fst].
        replace (encodeEpisode id n e None)
          with (render episodeRe [numToString id; numToString n; numToString e])
          by reflexivity.
        apply matchItems_render; [reflexivity | cbn; auto].
Qed.

(** C1.  Decoding an encoded identifier recovers its components, for the
    three shapes (show, season, episode), with and without an ordering tag:
    for ids and ordinals that are non-negative safe integers and a tag that
    is a non-empty word over [a-z], [parseRatingKey] of the encoded string is
    the record of exactly the encoded type, numbers and tag. *)
Theorem parseRatingKey_encode (id n e : number) (seasonTag : option string) :
  isSafeNatural id -> isSafeNatural n -> isSafeNatural e -> validTag seasonTag ->
  parseRatingKey (encodeShow id)
  = Some {| parsed_type := Show; seriesId := id; seasonNumber := None;
            episodeNumber := None; seasonType := None |}
  /\ parseRatingKey (encodeSeason id n seasonTag)
     = Some {| parsed_type := Season; seriesId := id; seasonNumber := Some n;
               episodeNumber := None; seasonType := seasonTag |}
  /\ parseRatingKey (encodeEpisode id n e seasonTag)
     = Some {| parsed_type := Episode; seriesId := id; seasonNumber := Some n;
               episodeNumber := Some e; seasonType := seasonTag |}.
Proof.
  intros [Hid _] [Hn _] [He _] Htag. now apply parseRatingKey_encode_nonneg.
Qed.

Lemma parseRatingKey_encode_witness :
  parseRatingKey (encodeShow 152831)
  = Some {| parsed_type := Show; seriesId := 152831; seasonNumber := None;
            episodeNumber := None; seasonType := None |}
  /\ parseRatingKey (encodeSeason 152831 10 (Some "dvd"))
     = Some {| parsed_type := Season; seriesId := 152831; seasonNumber := Some 10;
               episodeNumber := None; seasonType := Some "dvd" |}
  /\ parseRatingKey (encodeEpisode 152831 10 1 (Some "dvd"))
     = Some {| parsed_type := Episode; seriesId := 152831; seasonNumber := Some 10;
               episodeNumber := Some 1; seasonType := Some "dvd" |}.
Proof.
  apply (parseRatingKey_encode 152831 10 1 (Some "dvd"));
    try (unfold isSafeNatural, MAX_SAFE_INTEGER; lia).
  split; [discriminate | reflexivity].
Defined.

Lemma parseRatingKey_Some_inv (ratingKey : string) (p : ParsedRatingKey) :
  parseRatingKey ratingKey = Some p ->
  complete p
  /\ exists f m, In f ratingKeyForms
                 /\ regexMatch (fst f) ratingKey = Some m
                 /\ snd f m = Some p.
Proof.
  pose proof (ratingKeyForms_exclusive ratingKey) as Hex.
  intros Hp. rewrite parseRatingKey_firstMatch in Hp.
  destruct (firstMatch_some_or_none ratingKey ratingKeyForms)
    as [(f & m & Hf & Hm)|Hnone].
  - rewrite (firstMatch_the_one ratingKey _ f m Hex Hf Hm) in Hp.
    destruct (form_builds ratingKey f m Hf Hm) as (p' & Hp' & Hc).
    assert (p' = p) by congruence. subst p'.
    split; [exact Hc |]. now exists f, m.
  - rewrite (firstMatch_none ratingKey _ Hnone) in Hp. discriminate.
Qed.

(** C3.  For every input string at most one of the five anchored forms
    matches, so trying the forms in any order gives the result of
    [parseRatingKey]; a string that matches none of them parses to [null],
    and only such a string does; every successful parse is the whole record
    built by the one form that matched the whole string. *)
Theorem parseRatingKey_exclusive_total (ratingKey : string) :
  exclusive ratingKey ratingKeyForms
  /\ (forall forms', Permutation forms' ratingKeyForms ->
                     firstMatch forms' ratingKey = parseRatingKey ratingKey)
  /\ ((forall f, In f ratingKeyForms -> regexMatch (fst f) ratingKey = None)
      <-> parseRatingKey ratingKey = None)
  /\ (forall p, parseRatingKey ratingKey = Some p ->
                complete p
                /\ exists f m, In f ratingKeyForms
                               /\ regexMatch (fst f) ratingKey = Some m
                               /\ snd f m = Some p).
Proof.
  pose proof (ratingKeyForms_exclusive ratingKey) as Hex.
  split; [exact Hex |]. split; [|split].
  - intros forms' Hperm. rewrite parseRatingKey_firstMatch.
    now apply firstMatch_Permutation.
  - rewrite parseRatingKey_firstMatch. split.
    + apply firstMatch_none.
    + intros Hnone f Hf.
      destruct (regexMatch (fst f) ratingKey) as [m|] eqn:E; [|reflexivity].
      rewrite (firstMatch_the_one ratingKey _ f m Hex Hf E) in Hnone.
      destruct (form_builds ratingKey f m Hf E) as (p & Hp & _). congruence.
  - intros p. apply parseRatingKey_Some_inv.
Qed.

Lemma parseRatingKey_exclusive_total_witness :
  firstMatch (rev ratingKeyForms) "tvdb-season-15260-1-dvd"
  = parseRatingKey "tvdb-season-15260-1-dvd".
Proof.
  exact (proj1 (proj2 (parseRatingKey_exclusive_total "tvdb-season-15260-1-dvd"))
           (rev ratingKeyForms) (Permutation_sym (Permutation_rev ratingKeyForms))).
Defined.

End CodecFacts.

(** ** Arrays: [slice], indexed [map], stable [sort] *)

Module ArrayFacts.
Import JS.

Lemma slice_window {A} (l : list A) (a n : Z) :
  0 <= a -> 0 <= n ->
  slice l a (a + n) = firstn (Z.to_nat n) (skipn (Z.to_nat a) l).
Proof.
  intros Ha Hn. unfold slice, sliceIndex.
  destruct (Z.ltb_spec a 0); [lia |]. destruct (Z.ltb_spec (a + n) 0); [lia |].
  set (len := Z.of_nat (List.length l)).
  assert (Hlen : List.length l = Z.to_nat len) by (unfold len; lia).
  destruct (Z.le_gt_cases len a) as [Hge|Hlt].
  - rewrite !Z.min_r by lia. rewrite Z.sub_diag. simpl.
    rewrite (skipn_all2 l (n := Z.to_nat a)) by lia. now rewrite firstn_nil.
  - rewrite (Z.min_l a len) by lia.
    destruct (Z.le_gt_cases (a + n) len) as [Hin|Hout].
    + rewrite Z.min_l by lia. f_equal. lia.
    + rewrite Z.min_r by lia.
      rewrite !firstn_all2; try reflexivity; rewrite length_skipn; lia.
Qed.

Lemma slice_from_0 {A} (l : list A) (n : Z) :
  0 <= n -> slice l 0 n = firstn (Z.to_nat n) l.
Proof. intros Hn. exact (slice_window l 0 n (Z.le_refl 0) Hn). Qed.

Lemma length_mapiFrom {A B} (f : A -> Z -> B) (l : list A) :
  forall i, List.length (mapiFrom f i l) = List.length l.
Proof. induction l as [|x l IH]; intros i; simpl; [reflexivity | now rewrite IH]. Qed.

Lemma nth_error_mapiFrom {A B} (f : A -> Z -> B) (l : list A) :
  forall i j, nth_error (mapiFrom f i l) j
              = option_map (fun x => f x (i + Z.of_nat j)) (nth_error l j).
Proof.
  induction l as [|x l IH]; intros i [|j]; simpl; try reflexivity.
  - now rewrite Z.add_0_r.
  - rewrite IH. destruct (nth_error l j); simpl; [|reflexivity].
    do 2 f_equal. lia.
Qed.

Section Sort.
Context {A : Type} (key : A -> number).


Lemma insertByKey_Permutation (x : A) (l : list A) :
  Permutation (insertByKey key x l) (x :: l).
Proof.
  induction l as [|y l IH]; simpl; [reflexivity |].
  destruct (key x <=? key y); [reflexivity |].
  rewrite IH. apply perm_swap.
Qed.

Lemma sortByKey_Permutation (l : list A) : Permutation (sortByKey key l) l.
Proof.
  induction l as [|x l IH]; simpl; [reflexivity |].
  rewrite insertByKey_Permutation. now constructor.
Qed.

Lemma insertByKey_Forall (P : A -> Prop) (x : A) (l : list A) :
  P x -> Forall P l -> Forall P (insertByKey key x l).
Proof.
  intros Hx Hl. induction Hl as [|y l Hy Hl IH]; simpl; [now repeat constructor |].
  destruct (key x <=? key y); repeat constructor; auto.
Qed.


Lemma insertByKey_sorted (x : A) (l : list A) :
  StronglySorted (ascending key) l -> StronglySorted (ascending key) (insertByKey key x l).
Proof.
  induction 1 as [|y l Hs IH Hy]; simpl; [repeat constructor |].
  destruct (Z.leb_spec (key x) (key y)) as [Hle|Hgt].
  - constructor; [now constructor |].
    constructor; [exact Hle |].
    eapply Forall_impl; [|exact Hy]. unfold ascending. intros; lia.
  - constructor; [exact IH |].
    apply insertByKey_Forall; [unfold ascending; lia | exact Hy].
Qed.

Lemma sortByKey_sorted (l : list A) : StronglySorted (ascending key) (sortByKey key l).
Proof.
  induction l as [|x l IH]; simpl; [constructor | now apply insertByKey_sorted].
Qed.

(** Stability: the elements of any one key keep their input order. *)
Lemma insertByKey_stable (k : number) (x : A) (l : list A) :
  filter (fun a => key a =? k) (insertByKey key x l)
  = filter (fun a => key a =? k) (x :: l).
Proof.
  induction l as [|y l IH]; [reflexivity |].
  cbn [insertByKey]. destruct (Z.leb_spec (key x) (key y)) as [Hle|Hgt]; [reflexivity |].
  cbn [filter] in *. rewrite IH.
  destruct (Z.eqb_spec (key x) k), (Z.eqb_spec (key y) k); try reflexivity. lia.
Qed.

Lemma sortByKey_stable (k : number) (l : list A) :
  filter (fun a => key a =? k) (sortByKey key l) = filter (fun a => key a =? k) l.
Proof.
  induction l as [|x l IH]; [reflexivity |].
  cbn [sortByKey]. rewrite insertByKey_stable. cbn [filter]. now rewrite IH.
Qed.

End Sort.

End ArrayFacts.

(** ** The entity mapper *)

Module MapperFacts.
Import JS TVDB Metadata TVDBMapper MetadataService Samples StringFacts ArrayFacts.

(** *** Case conversion *)

Lemma lowerChar_upperChar (c : ascii) : lowerChar (upperChar c) = lowerChar c.
Proof. destruct c as [[|] [|] [|] [|] [|] [|] [|] [|]]; reflexivity. Qed.

Lemma toLowerCase_toUpperCase (s : string) : toLowerCase (toUpperCase s) = toLowerCase s.
Proof.
  unfold toLowerCase, toUpperCase.
  induction s as [|c s IH]; cbn [mapString]; [reflexivity |].
  now rewrite lowerChar_upperChar, IH.
Qed.

Lemma toLowerCase_same (a b : string) :
  toUpperCase a = toUpperCase b -> toLowerCase a = toLowerCase b.
Proof.
  intros E. rewrite <- (toLowerCase_toUpperCase a), <- (toLowerCase_toUpperCase b).
  now rewrite E.
Qed.

Lemma orElse_same (s : string) : orElse (Some s) s = s.
Proof. unfold orElse, orUndefined. now destruct (truthyString s). Qed.

(** *** Cast *)

Lemma mapCast_empty : mapCast None = None /\ mapCast (Some []) = None.
Proof. split; reflexivity. Qed.

Lemma mapCast_nonempty (characters : list TVDBCharacter) :
  characters <> [] ->
  mapCast (Some characters)
  = Some (mapi castPerson
            (firstn 1000 (sortByKey character_sort (filter isActor characters)))).
Proof.
  destruct characters as [|c l]; [congruence |]. intros _.
  unfold mapCast, nonEmpty. now rewrite slice_from_0 by lia.
Qed.

(** C4.  The cast of a character list: exactly the characters whose type
    code is 3, in the stable ascending order of their upstream [sort] field,
    cut to the first 1000, each numbered by [order] = its position (from 1)
    in that filtered-and-sorted list, whatever the [sort] values are.  (For a
    missing or empty character list the cast is absent.) *)
Theorem mapCast_filters_sorts_caps_renumbers (characters : list TVDBCharacter) :
  let typeThree := filter (fun c => character_type c =? 3) characters in
  let actors := sortByKey character_sort typeThree in
  (forall c, In c actors <-> In c characters /\ character_type c = 3)
  /\ Permutation actors typeThree
  /\ StronglySorted (ascending character_sort) actors
  /\ (forall k, filter (fun c => character_sort c =? k) actors
                = filter (fun c => character_sort c =? k) typeThree)
  /\ mapCast (Some characters)
     = match characters with
       | [] => None
       | _ :: _ => Some (mapi castPerson (firstn 1000 actors))
       end
  /\ (forall cast, mapCast (Some characters) = Some cast ->
        List.length cast = Nat.min 1000 (List.length typeThree)
        /\ forall i p, nth_error cast i = Some p ->
             (i < 1000)%nat
             /\ person_order p = Some (Z.of_nat i + 1)
             /\ exists member, nth_error actors i = Some member
                               /\ In member characters
                               /\ character_type member = 3
                               /\ p = castPerson member (Z.of_nat i)).
Proof.
  intros typeThree actors.
  assert (Hperm : Permutation actors typeThree)
    by apply sortByKey_Permutation.
  assert (Hin : forall c, In c actors <-> In c characters /\ character_type c = 3).
  { intros c. unfold typeThree in Hperm. split.
    - intros Hc. eapply Permutation_in in Hc; [|exact Hperm].
      apply filter_In in Hc as [Hc Ht]. apply Z.eqb_eq in Ht. now split.
    - intros [Hc Ht]. eapply Permutation_in; [symmetry; exact Hperm |].
      apply filter_In. split; [exact Hc | now apply Z.eqb_eq]. }
  assert (Hcode : mapCast (Some characters)
                  = match characters with
                    | [] => None
                    | _ :: _ => Some (mapi castPerson (firstn 1000 actors))
                    end).
  { destruct characters as [|c l]; [reflexivity |]. now apply mapCast_nonempty. }
  split; [exact Hin |].
  split; [exact Hperm |].
  split; [apply sortByKey_sorted |].
  split; [intros k; apply sortByKey_stable |].
  split; [exact Hcode |].
  intros cast Hcast. rewrite Hcode in Hcast.
  destruct characters as [|c l]; [discriminate |].
  assert (Hc : cast = mapi castPerson (firstn 1000 actors)) by congruence.
  subst cast. clear Hcast. split.
  - unfold mapi. rewrite length_mapiFrom, length_firstn.
    now rewrite (Permutation_length Hperm).
  - intros i p Hp. unfold mapi in Hp. rewrite nth_error_mapiFrom in Hp.
    destruct (nth_error (firstn 1000 actors) i) as [member|] eqn:Hm; [|discriminate].
    assert (Hpm : p = castPerson member (0 + Z.of_nat i)) by (cbn [option_map] in Hp; congruence).
    subst p. clear Hp. rewrite Z.add_0_l.
    assert (Hi : (i < 1000)%nat).
    { assert (Hlt : (i < List.length (firstn 1000 actors))%nat)
        by (apply nth_error_Some; congruence).
      rewrite length_firstn in Hlt. lia. }
    rewrite nth_error_firstn in Hm.
    destruct (Nat.ltb_spec i 1000) as [_|]; [|lia].
    split; [exact Hi |]. split; [reflexivity |].
    exists member. split; [exact Hm |].
    apply nth_error_In in Hm. apply Hin in Hm as [Hm Ht].
    split; [exact Hm |]. split; [exact Ht | reflexivity].
Qed.

(** The sample cast: sort keys 900, 5, 5 come out as orders 3, 1, 2. *)
Example mapCast_someCharacters :
  option_map (map (fun p => (person_tag p, person_order p))) (mapCast (Some someCharacters))
  = Some [("Jeremy Shada", Some 1); ("John DiMaggio", Some 2); ("Tom Kenny", Some 3)].
Proof. reflexivity. Qed.

Lemma mapCast_filters_sorts_caps_renumbers_witness :
  List.length (mapi castPerson
                 (firstn 1000
                    (sortByKey character_sort
                       (filter (fun c => character_type c =? 3) someCharacters))))
  = Nat.min 1000
      (List.length (filter (fun c => character_type c =? 3) someCharacters))
  /\ forall i p,
       nth_error (mapi castPerson
                    (firstn 1000
                       (sortByKey character_sort
                          (filter (fun c => character_type c =? 3) someCharacters)))) i
       = Some p ->
       (i < 1000)%nat
       /\ person_order p = Some (Z.of_nat i + 1)
       /\ exists member,
            nth_error (sortByKey character_sort
                         (filter (fun c => character_type c =? 3) someCharacters)) i
            = Some member
            /\ In member someCharacters
            /\ character_type member = 3
            /\ p = castPerson member (Z.of_nat i).
Proof.
  exact (proj2 (proj2 (proj2 (proj2 (proj2
           (mapCast_filters_sorts_caps_renumbers someCharacters))))) _ eq_refl).
Defined.

(** *** Content rating *)

Lemma find_pointwise {A} (f g : A -> bool) (l : list A) :
  (forall x, f x = g x) -> find f l = find g l.
Proof.
  intros E. induction l as [|x l IH]; simpl; [reflexivity |].
  now rewrite E, IH.
Qed.

(** The source's test on an entry is the specification's matching rule. *)
Lemma countryTest_entryMatches (requested : string) (r : TVDBContentRating) :
  let normalizedCountry := toUpperCase requested in
  let isUS := (normalizedCountry =? "US")%string || (normalizedCountry =? "USA")%string in
  countryIs r normalizedCountry || (isUS && countryIs r "USA") || (isUS && countryIs r "US")
  = entryMatches requested r.
Proof.
  unfold entryMatches, countryIs, usEquivalent. cbn zeta.
  destruct (rating_country r) as [code|].
  - destruct (toUpperCase code =? toUpperCase requested)%string,
             (toUpperCase requested =? "US")%string,
             (toUpperCase requested =? "USA")%string,
             (toUpperCase code =? "US")%string,
             (toUpperCase code =? "USA")%string; reflexivity.
  - now rewrite !andb_false_r.
Qed.

(** A matching entry of a request that is not US-equivalent carries the
    requested country code, up to case. *)
Lemma entryMatches_code (requested : string) (r : TVDBContentRating) :
  entryMatches requested r = true -> usEquivalent requested = false ->
  rating_country r = Some (countryCode r)
  /\ toUpperCase (countryCode r) = toUpperCase requested
  /\ toLowerCase (countryCode r) = toLowerCase requested.
Proof.
  unfold entryMatches, countryCode. intros Hr Hus.
  destruct (rating_country r) as [code|]; [|discriminate].
  rewrite Hus, andb_false_l, orb_false_r in Hr. apply String.eqb_eq in Hr.
  auto using toLowerCase_same.
Qed.

Lemma mapString_nil (f : ascii -> ascii) (s : string) : mapString f s = "" -> s = "".
Proof. destruct s; [reflexivity | discriminate]. Qed.

Lemma getContentRating_resolve (series : TVDBSeriesExtended)
    (contentRatings : list TVDBContentRating) (requested : string) :
  series_contentRatings series = Some contentRatings ->
  getContentRating series (Some requested) = resolveContentRating contentRatings requested.
Proof.
  intros Hrs. unfold getContentRating, resolveContentRating. rewrite Hrs.
  rewrite (find_pointwise _ (entryMatches requested))
    by (intros r; apply countryTest_entryMatches).
  fold (usEquivalent requested).
  destruct (find (entryMatches requested) contentRatings) as [r|] eqn:Hfind;
    [|reflexivity].
  destruct (usEquivalent requested) eqn:Hus; [reflexivity |].
  apply find_some in Hfind as [_ Hr].
  destruct (entryMatches_code requested r Hr Hus) as (Hcode & _ & Hlow).
  rewrite Hcode. cbn [option_map]. now rewrite <- Hlow, orElse_same.
Qed.

(** C5.  For a series with a content-ratings list and a requested country,
    the content rating is the resolution of the specification: the first
    entry whose uppercased country code equals the uppercased request ([US]
    and [USA] being interchangeable) gives the bare rating name when the
    request is US-equivalent and "lowercase country code / rating name"
    otherwise, the code being the entry's, which is the requested one up to
    case; the rating is absent exactly when no entry matches. *)
Theorem getContentRating_resolution (series : TVDBSeriesExtended)
    (contentRatings : list TVDBContentRating) (requested : string) :
  series_contentRatings series = Some contentRatings ->
  getContentRating series (Some requested) = resolveContentRating contentRatings requested
  /\ (forall r, find (entryMatches requested) contentRatings = Some r ->
                usEquivalent requested = false ->
                toLowerCase (countryCode r) = toLowerCase requested)
  /\ (getContentRating series (Some requested) = None
      <-> forall r, In r contentRatings -> entryMatches requested r = false).
Proof.
  intros Hrs. rewrite (getContentRating_resolve _ _ _ Hrs).
  split; [reflexivity |]. split.
  { intros r Hfind Hus. apply find_some in Hfind as [_ Hr].
    now apply entryMatches_code. }
  unfold resolveContentRating.
  destruct (find (entryMatches requested) contentRatings) as [r|] eqn:Hfind.
  - split.
    + destruct (usEquivalent requested); discriminate.
    + intros Hnone. apply find_some in Hfind as [Hin Hr].
      rewrite (Hnone r Hin) in Hr. discriminate.
  - split; [|reflexivity]. intros _ r Hin.
    exact (find_none _ _ Hfind r Hin).
Qed.

Lemma getContentRating_resolution_witness :
  getContentRating adventureTime (Some "USA") = Some "TV-PG".
Proof.
  exact (proj1 (getContentRating_resolution adventureTime
                  [ {| rating_name := "TV-PG"; rating_country := Some "usa" |} ]
                  "USA" eq_refl)).
Defined.

(** The two examples of the specification. *)
Example getContentRating_USA_usa :
  getContentRating adventureTime (Some "USA") = Some "TV-PG"
  /\ getContentRating adventureTime (Some "GB") = None.
Proof. split; reflexivity. Qed.

(** *** Season ordering tag *)

(** The lookup table: canonical and official map to "default"; "dvd",
    "absolute", "alternate" and "regional" map to themselves, as does every
    other word, lowercased. *)
Lemma getSeasonTypeShortTag_table (seasonType : TVDBSeasonType) :
  let word := toLowerCase (seasonType_type seasonType) in
  getSeasonTypeShortTag (Some seasonType)
  = if (word =? "default")%string || (word =? "official")%string then "default" else word.
Proof.
  cbn zeta. unfold getSeasonTypeShortTag, typeMap, lookup.
  set (word := toLowerCase (seasonType_type seasonType)).
  repeat match goal with
  | |- context [(word =? ?k)%string] =>
      destruct (String.eqb_spec word k) as [->|]; [reflexivity |]
  end.
  reflexivity.
Qed.

Section Mapper.
Context `{GuidUtils} `{DateLib}.

(** The identifier [mapSeason] builds has no ordering tag: the tag it
    derives first does not reach the template. *)
Lemma mapSeason_ratingKey (season : TVDBSeason) (seriesId : number)
    (showTitle showGuid : string) (showThumb : option string)
    (options : option MapSeasonOptions) :
  se_ratingKey (mapSeason season seriesId showTitle showGuid showThumb options)
  = encodeSeason seriesId (season_number season) None.
Proof.
  cbn [mapSeason se_ratingKey]. unfold encodeSeason, tagSuffix.
  now rewrite append_nil_r.
Qed.

(** *** Duration *)

Lemma minutesToMs_spec (m : option number) :
  minutesToMs m
  = match m with
    | Some r => if r =? 0 then None else Some (r * 60000)
    | None => None
    end.
Proof.
  destruct m as [r|]; [|reflexivity]. unfold minutesToMs, truthyNumber.
  destruct (r =? 0); simpl; [reflexivity | f_equal; lia].
Qed.

(** C8, as the code has it.  [mapSeries] sets [duration] to
    [averageRuntime] (minutes) times 60000 when [averageRuntime] is present
    and not zero, and leaves it absent when [averageRuntime] is absent or
    zero; a runtime of 11 gives 660000. *)
Theorem mapSeries_duration (series : TVDBSeriesExtended) (options : option MapSeriesOptions) :
  sh_duration (mapSeries series options)
  = match series_averageRuntime series with
    | Some r => if r =? 0 then None else Some (r * 60000)
    | None => None
    end
  /\ (series_averageRuntime series = Some 11 ->
      sh_duration (mapSeries series options) = Some 660000).
Proof.
  assert (E := minutesToMs_spec (series_averageRuntime series)).
  split; [exact E |].
  intros E11. cbn [mapSeries sh_duration]. now rewrite E11.
Qed.

(** C9.  A series whose [averageRuntime] is present and equal to 0 gets no
    [duration]: the field is tested for truthiness. *)
Theorem mapSeries_duration_zero (series : TVDBSeriesExtended)
    (options : option MapSeriesOptions) :
  series_averageRuntime series = Some 0 ->
  sh_duration (mapSeries series options) = None.
Proof. intros E. cbn [mapSeries sh_duration]. now rewrite E. Qed.

(** C10.  Without a country option [mapSeries] is [mapSeries] with country
    "US" (whether the options are missing altogether or only their country),
    and a series whose only content-rating entry is a US or USA one then
    gets the bare rating name. *)
Theorem mapSeries_country_defaults_to_US (series : TVDBSeriesExtended)
    (includeChildren : option bool) :
  mapSeries series None
  = mapSeries series (Some {| includeChildren := None; country := Some "US" |})
  /\ mapSeries series (Some {| includeChildren := includeChildren; country := None |})
     = mapSeries series (Some {| includeChildren := includeChildren; country := Some "US" |})
  /\ (forall r code,
        series_contentRatings series = Some [r] ->
        rating_country r = Some code -> usEquivalent code = true ->
        sh_contentRating (mapSeries series None) = Some (rating_name r)).
Proof.
  split; [reflexivity |]. split; [reflexivity |].
  intros r code Hrs Hcode Hus.
  change (sh_contentRating (mapSeries series None))
    with (getContentRating series (Some "US")).
  rewrite (getContentRating_resolve _ _ _ Hrs).
  unfold resolveContentRating, entryMatches. cbn [find].
  rewrite Hcode, Hus. change (usEquivalent "US") with true.
  now rewrite orb_true_r.
Qed.

End Mapper.

(** C8 as first stated fails at a runtime of zero minutes: the field is
    present, and the duration is absent rather than 0 * 60000. *)
Lemma mapSeries_duration_present_zero :
  series_averageRuntime zeroRuntime = Some 0
  /\ sh_duration (@mapSeries guidUtils dateLib zeroRuntime None) = None
  /\ sh_duration (@mapSeries guidUtils dateLib zeroRuntime None) <> Some (0 * 60000).
Proof. repeat split. discriminate. Qed.

Lemma mapSeries_duration_witness :
  sh_duration (@mapSeries guidUtils dateLib adventureTime None) = Some 660000.
Proof.
  exact (proj2 (@mapSeries_duration guidUtils dateLib adventureTime None) eq_refl).
Defined.

Lemma mapSeries_country_defaults_to_US_witness :
  sh_contentRating (@mapSeries guidUtils dateLib adventureTime None) = Some "TV-PG".
Proof.
  exact (proj2 (proj2 (@mapSeries_country_defaults_to_US guidUtils dateLib
                         adventureTime None))
           {| rating_name := "TV-PG"; rating_country := Some "usa" |} "usa"
           eq_refl eq_refl eq_refl).
Defined.

Lemma mapSeries_duration_zero_witness :
  sh_duration (@mapSeries guidUtils dateLib zeroRuntime None) = None.
Proof. apply (@mapSeries_duration_zero guidUtils dateLib zeroRuntime None). reflexivity. Defined.

(** C2 on a DVD-order season: the tag derived from the lookup table is
    "dvd", the identifier the specification describes is
    "tvdb-season-152831-8-dvd", and [mapSeason] yields "tvdb-season-152831-8". *)
Theorem mapSeason_dvd_ratingKey :
  getSeasonTypeShortTag (Some (season_type season8dvd)) = "dvd"
  /\ encodeSeason 152831 (season_number season8dvd)
       (Some (getSeasonTypeShortTag (Some (season_type season8dvd))))
     = "tvdb-season-152831-8-dvd"
  /\ se_ratingKey (@mapSeason guidUtils dateLib season8dvd 152831 "Adventure Time"
                     "tv.plex.agents.custom.example.thetvdb.tv://show/tvdb-show-152831"
                     None None)
     = "tvdb-season-152831-8".
Proof. repeat split. Qed.

End MapperFacts.

(** ** The lookup service *)

Module ServiceFacts.
Import JS Regex TVDB Metadata TVDBMapper MetadataService Samples.
Import StringFacts ArrayFacts CodecFacts.

Section Service.
Context `{GuidUtils} `{DateLib}.
Variable tvdbClient : TVDBClient.

Lemma getChildren_show (ratingKey : string) (parsed : ParsedRatingKey)
    (options : MetadataServiceOptions) (paging : PagingOptions)
    (seriesDetails : TVDBSeriesExtended) :
  parseRatingKey ratingKey = Some parsed -> parsed_type parsed = Show ->
  getSeriesDetails tvdbClient (seriesId parsed) = Ok seriesDetails ->
  getChildren tvdbClient ratingKey options paging
  = Ok (paged (childrenOfShow (seriesId parsed) seriesDetails)
              (match containerStart paging with Some n => n | None => 1 end)
              (match containerSize paging with Some n => n | None => 20 end)).
Proof.
  intros Hp Ht Hseries. unfold getChildren. rewrite Hp, Ht, Hseries. cbn [bind].
  unfold childrenOfShow, canonicalSeasons.
  now destruct (series_seasons seriesDetails).
Qed.

(** C6.  [getChildren] on a show identifier builds the full filtered child
    list and returns the page window over it: [offset] is the zero-based
    start index [start - 1], [totalSize] the length of the full list, [size]
    the length of the returned slice, with [start] defaulting to 1 and the
    page size to 20; for a 1-based [start] the slice is the half-open window
    of [size] items from index [start - 1].  On a show with 10 canonical
    seasons, start 1 and size 20 return all 10 (offset 0, totalSize 10, size
    10), and start 11 returns none. *)
Theorem getChildren_show_paging (ratingKey : string) (parsed : ParsedRatingKey)
    (options : MetadataServiceOptions) (paging : PagingOptions)
    (seriesDetails : TVDBSeriesExtended) :
  parseRatingKey ratingKey = Some parsed -> parsed_type parsed = Show ->
  getSeriesDetails tvdbClient (seriesId parsed) = Ok seriesDetails ->
  let start := match containerStart paging with Some n => n | None => 1 end in
  let pageSize := match containerSize paging with Some n => n | None => 20 end in
  let all := childrenOfShow (seriesId parsed) seriesDetails in
  let page := slice all (start - 1) (start - 1 + pageSize) in
  getChildren tvdbClient ratingKey options paging
  = Ok {| MediaContainer_ :=
            {| mc_offset := start - 1;
               mc_totalSize := Z.of_nat (List.length all);
               mc_identifier := TV_PROVIDER_IDENTIFIER;
               mc_size := Z.of_nat (List.length page);
               mc_Metadata := page |} |}
  /\ (1 <= start -> 0 <= pageSize ->
      page = firstn (Z.to_nat pageSize) (skipn (Z.to_nat (start - 1)) all))
  /\ (List.length all = 10%nat -> pageSize = 20 ->
      (start = 1 -> page = all /\ start - 1 = 0 /\ Z.of_nat (List.length all) = 10
                    /\ Z.of_nat (List.length page) = 10)
      /\ (start = 11 -> page = [] /\ Z.of_nat (List.length page) = 0)).
Proof.
  intros Hp Ht Hseries start pageSize all page.
  split; [exact (getChildren_show ratingKey parsed options paging seriesDetails
                   Hp Ht Hseries) |].
  assert (Hwin : 1 <= start -> 0 <= pageSize ->
                 page = firstn (Z.to_nat pageSize) (skipn (Z.to_nat (start - 1)) all)).
  { intros Hs Hn. unfold page. apply slice_window; lia. }
  split; [exact Hwin |].
  intros Hlen Hsize. split.
  - intros Hstart.
    assert (Hpage : page = all).
    { rewrite Hwin by lia. rewrite Hstart, Hsize.
      change (Z.to_nat (1 - 1)) with 0%nat. cbn [skipn].
      apply firstn_all2. lia. }
    rewrite Hpage. repeat split; lia.
  - intros Hstart.
    assert (Hpage : page = []).
    { rewrite Hwin by lia. rewrite skipn_all2 by lia. apply firstn_nil. }
    rewrite Hpage. split; reflexivity.
Qed.

Lemma getMetadata_season (ratingKey : string) (parsed : ParsedRatingKey)
    (options : MetadataServiceOptions) :
  parseRatingKey ratingKey = Some parsed -> parsed_type parsed = Season ->
  exists n, seasonNumber parsed = Some n
            /\ getMetadata tvdbClient ratingKey options
               = getSeason tvdbClient (seriesId parsed) n options (seasonType parsed).
Proof.
  intros Hp Ht. destruct (parseRatingKey_Some_inv _ _ Hp) as [Hc _].
  unfold complete in Hc. rewrite Ht in Hc. destruct Hc as [Hn _].
  destruct (seasonNumber parsed) as [n|] eqn:En; [|congruence].
  exists n. split; [reflexivity |].
  unfold getMetadata. now rewrite Hp, Ht, En.
Qed.

Lemma getMetadata_episode (ratingKey : string) (parsed : ParsedRatingKey)
    (options : MetadataServiceOptions) :
  parseRatingKey ratingKey = Some parsed -> parsed_type parsed = Episode ->
  exists n e, seasonNumber parsed = Some n /\ episodeNumber parsed = Some e
              /\ getMetadata tvdbClient ratingKey options
                 = getEpisode tvdbClient (seriesId parsed) n e options (seasonType parsed).
Proof.
  intros Hp Ht. destruct (parseRatingKey_Some_inv _ _ Hp) as [Hc _].
  unfold complete in Hc. rewrite Ht in Hc. destruct Hc as [Hn He].
  destruct (seasonNumber parsed) as [n|] eqn:En; [|congruence].
  destruct (episodeNumber parsed) as [e|] eqn:Ee; [|congruence].
  exists n, e. repeat split.
  unfold getMetadata. now rewrite Hp, Ht, En, Ee.
Qed.

(** C7.  [getMetadata] fails with the invalid-identifier error when the
    identifier does not decode, and with a not-found error when the
    identifier decodes to a season or an episode, the series is fetched and
    the upstream lookup by number yields nothing.  The failures are thrown
    (not swallowed) and the invalid-identifier error differs from every
    not-found error, so a caller can tell them apart. *)
Theorem getMetadata_failures (options : MetadataServiceOptions) :
  (forall ratingKey,
     parseRatingKey ratingKey = None ->
     getMetadata tvdbClient ratingKey options = Throw (invalidIdentifier ratingKey))
  /\ (forall ratingKey parsed seriesDetails n,
        parseRatingKey ratingKey = Some parsed -> parsed_type parsed = Season ->
        seasonNumber parsed = Some n ->
        getSeriesDetails tvdbClient (seriesId parsed) = Ok seriesDetails ->
        getSeasonByNumber tvdbClient (seriesId parsed) n
          (orElse (seasonType parsed) "default") = Ok None ->
        getMetadata tvdbClient ratingKey options
        = Throw (seasonNotFound (seriesId parsed) n))
  /\ (forall ratingKey parsed seriesDetails n e,
        parseRatingKey ratingKey = Some parsed -> parsed_type parsed = Episode ->
        seasonNumber parsed = Some n -> episodeNumber parsed = Some e ->
        getSeriesDetails tvdbClient (seriesId parsed) = Ok seriesDetails ->
        getEpisodeByNumber tvdbClient (seriesId parsed) n e
          (orElse (seasonType parsed) "default") = Ok None ->
        getMetadata tvdbClient ratingKey options
        = Throw (episodeNotFound (seriesId parsed) n e))
  /\ (forall ratingKey id n e,
        invalidIdentifier ratingKey <> seasonNotFound id n
        /\ invalidIdentifier ratingKey <> episodeNotFound id n e).
Proof.
  split; [|split; [|split]].
  - intros ratingKey Hp. unfold getMetadata. now rewrite Hp.
  - intros ratingKey parsed sd n Hp Ht Hn Hseries Hnone.
    destruct (getMetadata_season ratingKey parsed options Hp Ht) as (n' & Hn' & ->).
    assert (n' = n) by congruence. subst n'.
    unfold getSeason. rewrite Hseries. cbn [bind]. rewrite Hnone. reflexivity.
  - intros ratingKey parsed sd n e Hp Ht Hn He Hseries Hnone.
    destruct (getMetadata_episode ratingKey parsed options Hp Ht)
      as (n' & e' & Hn' & He' & ->).
    assert (n' = n) by congruence. assert (e' = e) by congruence. subst n' e'.
    unfold getEpisode. rewrite Hseries. cbn [bind]. rewrite Hnone. reflexivity.
  - intros ratingKey id n e. split; intros E; discriminate E.
Qed.

End Service.

Lemma getChildren_show_paging_witness :
  @getChildren guidUtils dateLib upstream "tvdb-show-152831" noOptions
    {| containerSize := Some 20; containerStart := Some 1 |}
  = Ok {| MediaContainer_ :=
            {| mc_offset := 0;
               mc_totalSize := 10;
               mc_identifier := TV_PROVIDER_IDENTIFIER;
               mc_size := 10;
               mc_Metadata := @childrenOfShow guidUtils dateLib 152831 adventureTime |} |}.
Proof.
  exact (proj1 (@getChildren_show_paging guidUtils dateLib upstream "tvdb-show-152831"
                  {| parsed_type := Show; seriesId := 152831; seasonNumber := None;
                     episodeNumber := None; seasonType := None |}
                  noOptions {| containerSize := Some 20; containerStart := Some 1 |}
                  adventureTime eq_refl eq_refl eq_refl)).
Defined.

Lemma getMetadata_failures_witness :
  @getMetadata guidUtils dateLib upstream "tvdb-season-152831-3-dvd" noOptions
  = Throw (seasonNotFound 152831 3).
Proof.
  exact (proj1 (proj2 (@getMetadata_failures guidUtils dateLib upstream noOptions))
           "tvdb-season-152831-3-dvd"
           {| parsed_type := Season; seriesId := 152831; seasonNumber := Some 3;
              episodeNumber := None; seasonType := Some "dvd" |}
           adventureTime 3 eq_refl eq_refl eq_refl eq_refl eq_refl).
Defined.

(** The second page of the ten seasons is empty. *)
Example getChildren_second_page :
  exists r,
    @getChildren guidUtils dateLib upstream "tvdb-show-152831" noOptions
      {| containerSize := Some 20; containerStart := Some 11 |} = Ok r
    /\ mc_offset (MediaContainer_ r) = 10
    /\ mc_totalSize (MediaContainer_ r) = 10
    /\ mc_size (MediaContainer_ r) = 0
    /\ mc_Metadata (MediaContainer_ r) = [].
Proof. eexists. repeat split. Qed.

(** The three failures on the sample catalog. *)
Example getMetadata_sample_failures :
  @getMetadata guidUtils dateLib upstream "tvdb-movie-1" noOptions
  = Throw {| message := "Invalid ratingKey format: tvdb-movie-1" |}
  /\ @getMetadata guidUtils dateLib upstream "tvdb-season-152831-3" noOptions
     = Throw {| message := "Season 3 not found for series 152831" |}
  /\ @getMetadata guidUtils dateLib upstream "tvdb-episode-152831-3-4-dvd" noOptions
     = Throw {| message := "Episode S3E4 not found for series 152831" |}.
Proof. repeat split. Qed.

(** Asking for the DVD-order season 8 by its tagged identifier returns a
    season whose own identifier is the untagged one, which decodes to the
    canonical ordering. *)
Example getMetadata_dvd_season :
  exists m,
    @getMetadata guidUtils dateLib upstreamWithSeason8 "tvdb-season-152831-8-dvd" noOptions
    = Ok (single (OfSeason m))
    /\ se_ratingKey m = "tvdb-season-152831-8"
    /\ option_map seasonType (parseRatingKey "tvdb-season-152831-8-dvd") = Some (Some "dvd")
    /\ option_map seasonType (parseRatingKey (se_ratingKey m)) = Some None.
Proof. eexists. repeat split. Qed.

End ServiceFacts.

(** * Further properties of the sources *)

(** ** Identifiers: what the parser yields, what the mapper builds *)

Module IdentifierFacts.
Import JS Regex TVDB Metadata TVDBMapper MetadataService Samples MoreSamples.
Import StringFacts RegexFacts CodecFacts MapperFacts.

Lemma parseInt_nonneg (s : string) (n : number) : parseInt s = Some n -> 0 <= n.
Proof.
  unfold parseInt. destruct (NilZero.uint_of_string (digitPrefix s)) as [d|]; [|discriminate].
  intros [= <-]. unfold Z.of_uint. apply N2Z.is_nonneg.
Qed.

Ltac split_parse H :=
  repeat match type of H with
  | context [parseInt ?w] =>
      let n := fresh "n" in let E := fresh "E" in
      destruct (parseInt w) as [n|] eqn:E; [apply parseInt_nonneg in E | discriminate H]
  end.

Lemma parsed_fields (ratingKey : string) (p : ParsedRatingKey) :
  parseRatingKey ratingKey = Some p ->
  0 <= seriesId p
  /\ (forall n, seasonNumber p = Some n -> 0 <= n)
  /\ (forall e, episodeNumber p = Some e -> 0 <= e)
  /\ validTag (seasonType p).
Proof.
  intros Hp. destruct (parseRatingKey_Some_inv _ _ Hp) as (_ & f & m & Hf & Hm & Hb).
  apply regexMatch_Some in Hm as (caps & -> & Hm).
  apply matchItems_sound in Hm. simpl in Hf.
  repeat destruct Hf as [<-|Hf]; try contradiction; cbn in Hm;
    repeat match goal with
    | H : exists _, _ |- _ => destruct H
    | H : _ /\ _ |- _ => destruct H
    end; subst;
    unfold snd, fromShowMatch, fromSeasonTypeMatch, fromSeasonMatch,
      fromEpisodeTypeMatch, fromEpisodeMatch, group in Hb; cbn [nth] in Hb;
    split_parse Hb;
    (assert (Hq : p = _) by (symmetry; injection Hb as Hb; exact Hb));
    rewrite Hq; cbn [seriesId seasonNumber episodeNumber seasonType validTag];
    refine (conj _ (conj _ (conj _ _))); try assumption; try exact I;
    try (let E' := fresh in
         intros ? E'; first [discriminate E' | injection E' as <-; assumption]).
Qed.

(** X1.  Whatever [parseRatingKey] accepts, the numbers it yields are not
    negative and the ordering tag, when there is one, is a non-empty word
    over [a-z]: no sign, no empty tag, no upper case gets through. *)
Theorem parseRatingKey_fields (ratingKey : string) (p : ParsedRatingKey) :
  parseRatingKey ratingKey = Some p ->
  0 <= seriesId p
  /\ (forall n, seasonNumber p = Some n -> 0 <= n)
  /\ (forall e, episodeNumber p = Some e -> 0 <= e)
  /\ validTag (seasonType p).
Proof. apply parsed_fields. Qed.

Lemma parseRatingKey_fields_witness :
  0 <= 15260
  /\ (forall n, Some 1 = Some n -> 0 <= n)
  /\ (forall e, Some 5 = Some e -> 0 <= e)
  /\ validTag (Some "dvd").
Proof.
  exact (parseRatingKey_fields "tvdb-episode-15260-1-5-dvd"
           {| parsed_type := Episode; seriesId := 15260; seasonNumber := Some 1;
              episodeNumber := Some 5; seasonType := Some "dvd" |} eq_refl).
Defined.

Section Mapper.
Context `{GuidUtils} `{DateLib}.

Lemma mapEpisode_ratingKey (episode : TVDBEpisode) (seriesId : number)
    (showTitle showGuid seasonTitle seasonGuid : string)
    (showThumb seasonThumb : option string) :
  let m := mapEpisode episode seriesId showTitle showGuid seasonTitle seasonGuid
             showThumb seasonThumb in
  ep_ratingKey m
  = encodeEpisode seriesId (episode_seasonNumber episode) (episode_number episode) None
  /\ ep_parentRatingKey m = encodeSeason seriesId (episode_seasonNumber episode) None
  /\ ep_grandparentRatingKey m = encodeShow seriesId.
Proof.
  cbn [mapEpisode ep_ratingKey ep_parentRatingKey ep_grandparentRatingKey].
  unfold encodeEpisode, encodeSeason, encodeShow, tagSuffix.
  now rewrite !append_nil_r.
Qed.

Lemma season_key_decodes (season : TVDBSeason) (seriesId : number)
    (showTitle showGuid : string) (showThumb : option string)
    (options : option MapSeasonOptions) :
  0 <= seriesId -> 0 <= season_number season ->
  parseRatingKey
    (se_ratingKey (mapSeason season seriesId showTitle showGuid showThumb options))
  = Some {| parsed_type := Season; MetadataService.seriesId := seriesId;
            seasonNumber := Some (season_number season);
            episodeNumber := None; seasonType := None |}.
Proof.
  intros Hid Hn. rewrite mapSeason_ratingKey.
  exact (proj1 (proj2 (parseRatingKey_encode_nonneg seriesId (season_number season) 0
                         None Hid Hn (Z.le_refl 0) I))).
Qed.

Lemma episode_key_decodes (episode : TVDBEpisode) (seriesId : number)
    (showTitle showGuid seasonTitle seasonGuid : string)
    (showThumb seasonThumb : option string) :
  0 <= seriesId -> 0 <= episode_seasonNumber episode -> 0 <= episode_number episode ->
  parseRatingKey
    (ep_ratingKey (mapEpisode episode seriesId showTitle showGuid seasonTitle seasonGuid
                     showThumb seasonThumb))
  = Some {| parsed_type := Episode; MetadataService.seriesId := seriesId;
            seasonNumber := Some (episode_seasonNumber episode);
            episodeNumber := Some (episode_number episode); seasonType := None |}.
Proof.
  intros Hid Hn He.
  rewrite (proj1 (mapEpisode_ratingKey episode seriesId showTitle showGuid seasonTitle
                    seasonGuid showThumb seasonThumb)).
  exact (proj2 (proj2 (parseRatingKey_encode_nonneg seriesId (episode_seasonNumber episode)
                         (episode_number episode) None Hid Hn He I))).
Qed.

(** X2.  For a series id that is a safe integer, the identifier [mapSeries]
    builds decodes back to the show of that id exactly when the id is not
    negative; for a negative id the identifier is one the parser rejects. *)
Theorem mapSeries_ratingKey_decodes (series : TVDBSeriesExtended)
    (options : option MapSeriesOptions) :
  isSafeInteger (series_id series) ->
  parseRatingKey (sh_ratingKey (mapSeries series options))
  = if 0 <=? series_id series
    then Some {| parsed_type := Show; seriesId := series_id series;
                 seasonNumber := None; episodeNumber := None; seasonType := None |}
    else None.
Proof.
  intros _.
  cbn [mapSeries sh_ratingKey]. destruct (Z.leb_spec 0 (series_id series)) as [Hid|Hid].
  - exact (proj1 (parseRatingKey_encode_nonneg (series_id series) 0 0 None
                    Hid (Z.le_refl 0) (Z.le_refl 0) I)).
  - destruct (series_id series) as [|q|q]; try lia. reflexivity.
Qed.

(** X3.  For a series id and a season number that are safe non-negative
    integers, the identifier [mapSeason] builds decodes to that season,
    without an ordering tag whatever the season's type, and its parent
    identifier decodes to the show. *)
Theorem mapSeason_ratingKey_decodes (season : TVDBSeason) (seriesId : number)
    (showTitle showGuid : string) (showThumb : option string)
    (options : option MapSeasonOptions) :
  isSafeNatural seriesId -> isSafeNatural (season_number season) ->
  let m := mapSeason season seriesId showTitle showGuid showThumb options in
  parseRatingKey (se_ratingKey m)
  = Some {| parsed_type := Season; MetadataService.seriesId := seriesId;
            seasonNumber := Some (season_number season);
            episodeNumber := None; seasonType := None |}
  /\ parseRatingKey (se_parentRatingKey m)
     = Some {| parsed_type := Show; MetadataService.seriesId := seriesId;
               seasonNumber := None; episodeNumber := None; seasonType := None |}.
Proof.
  intros [Hid _] [Hn _] m.
  destruct (parseRatingKey_encode_nonneg seriesId (season_number season) 0 None
              Hid Hn (Z.le_refl 0) I) as (Hshow & Hseason & _).
  split; [|exact Hshow].
  unfold m. now rewrite mapSeason_ratingKey.
Qed.

(** X4.  For numbers that are safe non-negative integers, the identifier
    [mapEpisode] builds decodes to the episode, its parent identifier to the
    season of the episode's season number and its grandparent identifier to
    the show. *)
Theorem mapEpisode_ratingKey_decodes (episode : TVDBEpisode) (seriesId : number)
    (showTitle showGuid seasonTitle seasonGuid : string)
    (showThumb seasonThumb : option string) :
  isSafeNatural seriesId -> isSafeNatural (episode_seasonNumber episode) ->
  isSafeNatural (episode_number episode) ->
  let m := mapEpisode episode seriesId showTitle showGuid seasonTitle seasonGuid
             showThumb seasonThumb in
  parseRatingKey (ep_ratingKey m)
  = Some {| parsed_type := Episode; MetadataService.seriesId := seriesId;
            seasonNumber := Some (episode_seasonNumber episode);
            episodeNumber := Some (episode_number episode); seasonType := None |}
  /\ parseRatingKey (ep_parentRatingKey m)
     = Some {| parsed_type := Season; MetadataService.seriesId := seriesId;
               seasonNumber := Some (episode_seasonNumber episode);
               episodeNumber := None; seasonType := None |}
  /\ parseRatingKey (ep_grandparentRatingKey m)
     = Some {| parsed_type := Show; MetadataService.seriesId := seriesId;
               seasonNumber := None; episodeNumber := None; seasonType := None |}.
Proof.
  intros [Hid _] [Hn _] [He _] m.
  destruct (mapEpisode_ratingKey episode seriesId showTitle showGuid seasonTitle
              seasonGuid showThumb seasonThumb) as (E1 & E2 & E3).
  fold m in E1, E2, E3. rewrite E1, E2, E3.
  destruct (parseRatingKey_encode_nonneg seriesId (episode_seasonNumber episode)
              (episode_number episode) None Hid Hn He I) as (Hshow & Hseason & Hep).
  auto.
Qed.

(** X5.  An identifier stands for its numbers and for nothing else: for
    safe non-negative integers, two seasons share an identifier exactly when
    they share series id and season number, whatever their season types (two
    orderings of one season number of a series do share theirs); two
    episodes share one exactly when they share all three numbers; and no
    season identifier is an episode identifier. *)
Theorem mapper_identifiers_by_numbers (season season' : TVDBSeason)
    (episode episode' : TVDBEpisode) (id id' : number)
    (t g t' g' st sg st' sg' : string) (th th' sth sth' : option string)
    (o o' : option MapSeasonOptions) :
  isSafeNatural id -> isSafeNatural id' ->
  isSafeNatural (season_number season) -> isSafeNatural (season_number season') ->
  isSafeNatural (episode_seasonNumber episode) -> isSafeNatural (episode_number episode) ->
  isSafeNatural (episode_seasonNumber episode') ->
  isSafeNatural (episode_number episode') ->
  (se_ratingKey (mapSeason season id t g th o)
   = se_ratingKey (mapSeason season' id' t' g' th' o')
   <-> id = id' /\ season_number season = season_number season')
  /\ (ep_ratingKey (mapEpisode episode id t g st sg th sth)
      = ep_ratingKey (mapEpisode episode' id' t' g' st' sg' th' sth')
      <-> id = id' /\ episode_seasonNumber episode = episode_seasonNumber episode'
          /\ episode_number episode = episode_number episode')
  /\ se_ratingKey (mapSeason season id t g th o)
     <> ep_ratingKey (mapEpisode episode id' t' g' st sg th' sth).
Proof.
  intros [Hid _] [Hid' _] [Hn _] [Hn' _] [Hs _] [He _] [Hs' _] [He' _].
  pose proof (season_key_decodes season id t g th o Hid Hn) as P1.
  pose proof (season_key_decodes season' id' t' g' th' o' Hid' Hn') as P2.
  pose proof (episode_key_decodes episode id t g st sg th sth Hid Hs He) as Q1.
  pose proof (episode_key_decodes episode' id' t' g' st' sg' th' sth' Hid' Hs' He') as Q2.
  pose proof (episode_key_decodes episode id' t' g' st sg th' sth Hid' Hs He) as Q3.
  split; [|split].
  - split.
    + intros E. rewrite E in P1. rewrite P1 in P2. now injection P2.
    + intros [E1 E2]. rewrite !mapSeason_ratingKey. now rewrite E1, E2.
  - split.
    + intros E. rewrite E in Q1. rewrite Q1 in Q2. now injection Q2.
    + intros (E1 & E2 & E3).
      rewrite (proj1 (mapEpisode_ratingKey episode id t g st sg th sth)).
      rewrite (proj1 (mapEpisode_ratingKey episode' id' t' g' st' sg' th' sth')).
      now rewrite E1, E2, E3.
  - intros E. rewrite E in P1. rewrite P1 in Q3. discriminate Q3.
Qed.

End Mapper.

Lemma mapSeries_ratingKey_decodes_witness :
  parseRatingKey (sh_ratingKey (@mapSeries guidUtils dateLib adventureTime None))
  = Some {| parsed_type := Show; seriesId := 152831;
            seasonNumber := None; episodeNumber := None; seasonType := None |}.
Proof.
  refine (@mapSeries_ratingKey_decodes guidUtils dateLib adventureTime None _).
  unfold isSafeInteger, MAX_SAFE_INTEGER; cbn; lia.
Defined.

Lemma mapSeason_ratingKey_decodes_witness :
  parseRatingKey
    (se_ratingKey (@mapSeason guidUtils dateLib season8dvd 152831 "Adventure Time" "" None None))
  = Some {| parsed_type := Season; seriesId := 152831; seasonNumber := Some 8;
            episodeNumber := None; seasonType := None |}.
Proof.
  refine (proj1 (@mapSeason_ratingKey_decodes guidUtils dateLib season8dvd 152831
                   "Adventure Time" "" None None _ _));
    unfold isSafeNatural, MAX_SAFE_INTEGER; cbn; lia.
Defined.

Lemma mapEpisode_ratingKey_decodes_witness :
  parseRatingKey
    (ep_parentRatingKey (@mapEpisode guidUtils dateLib finale 152831 "" "" "" "" None None))
  = Some {| parsed_type := Season; seriesId := 152831; seasonNumber := Some 8;
            episodeNumber := None; seasonType := None |}.
Proof.
  refine (proj1 (proj2 (@mapEpisode_ratingKey_decodes guidUtils dateLib finale 152831
                          "" "" "" "" None None _ _ _)));
    unfold isSafeNatural, MAX_SAFE_INTEGER; cbn; lia.
Defined.

Lemma mapper_identifiers_by_numbers_witness :
  se_ratingKey (@mapSeason guidUtils dateLib season8 152831 "" "" None None)
  = se_ratingKey (@mapSeason guidUtils dateLib season8dvd 152831 "" "" None None)
  /\ se_ratingKey (@mapSeason guidUtils dateLib season8 152831 "" "" None None)
     <> ep_ratingKey (@mapEpisode guidUtils dateLib finale 152831 "" "" "" "" None None).
Proof.
  refine ((fun K => conj (proj2 (proj1 K) (conj eq_refl eq_refl)) (proj2 (proj2 K)))
            (@mapper_identifiers_by_numbers guidUtils dateLib season8 season8dvd
               finale sequel 152831 152831 "" "" "" "" "" "" "" ""
               None None None None None None _ _ _ _ _ _ _ _));
    unfold isSafeNatural, MAX_SAFE_INTEGER; cbn; lia.
Defined.

End IdentifierFacts.

(** ** Images, people and children in the mapper *)

Module MapperMore.
Import JS TVDB Metadata TVDBMapper MetadataService Samples MoreSamples.
Import StringFacts ArrayFacts MapperFacts.

(** *** Images *)

Lemma hasType_recognised (t : number) (a : TVDBArtwork) :
  In t [TVDBArtworkType.POSTER; TVDBArtworkType.BACKGROUND;
        TVDBArtworkType.CLEARLOGO; TVDBArtworkType.BANNER] ->
  hasType t a = true -> recognised a = true.
Proof.
  unfold recognised. intros Ht Ha. cbn [In] in Ht.
  repeat destruct Ht as [<-|Ht]; try contradiction; rewrite Ha;
    now rewrite ?orb_true_r.
Qed.

Lemma find_hasType_none (t : number) (l : list TVDBArtwork) (a : TVDBArtwork) :
  find (hasType t) l = None -> In a l -> hasType t a = false.
Proof. intros Hf Ha. exact (find_none _ _ Hf a Ha). Qed.

Ltac found :=
  repeat match goal with
  | H : find (hasType _) _ = Some _ |- _ => apply find_some in H as [? ?]
  end.

Lemma mapImages_spec (a0 : TVDBArtwork) (l0 : list TVDBArtwork) (title : string) :
  let l := a0 :: l0 in
  (mapImages (Some l) title = None <-> forall a, In a l -> recognised a = false)
  /\ forall images, mapImages (Some l) title = Some images ->
       images <> []
       /\ (List.length images <= 3)%nat
       /\ NoDup (map image_type images)
       /\ forall i, In i images ->
            image_alt i = title
            /\ exists a, In a l /\ recognised a = true /\ image_url i = artwork_image a.
Proof.
  intros l. subst l. unfold mapImages. cbn [nonEmpty]. set (l := a0 :: l0).
  destruct (find (hasType TVDBArtworkType.POSTER) l) as [p|] eqn:Hp;
  destruct (find (hasType TVDBArtworkType.BACKGROUND) l) as [b|] eqn:Hb;
  destruct (find (hasType TVDBArtworkType.CLEARLOGO) l) as [c|] eqn:Hc;
  destruct (find (hasType TVDBArtworkType.BANNER) l) as [n|] eqn:Hn;
  cbn [option_map optList app someIfAny].
  all: split.
  all: try (split; [discriminate |]; intros Hall; exfalso; found;
            match goal with
            | Hin : In ?x _, Hx : hasType ?t ?x = true |- _ =>
                assert (recognised x = true)
                  by (apply (hasType_recognised t); [cbn; auto |exact Hx]);
                rewrite (Hall x Hin) in *; discriminate
            end).
  all: try (intros images [= <-]; split; [discriminate |];
            split; [cbn; lia |];
            split; [cbn; repeat constructor; cbn; intuition discriminate |];
            intros i Hi; cbn [In] in Hi; found;
            repeat destruct Hi as [<-|Hi]; try contradiction;
            (split; [reflexivity |]);
            match goal with
            | |- exists a, _ /\ _ /\ image_url (mkImage _ _ ?x) = _ =>
                exists x; split; [assumption |]; split; [|reflexivity];
                match goal with
                | Hx : hasType ?t x = true |- _ =>
                    apply (hasType_recognised t); [cbn; auto | exact Hx]
                end
            end).
  - split; [|reflexivity]. intros _ a Ha. unfold recognised.
    now rewrite (find_hasType_none _ _ _ Hp Ha), (find_hasType_none _ _ _ Hb Ha),
                (find_hasType_none _ _ _ Hc Ha), (find_hasType_none _ _ _ Hn Ha).
  - intros images [=].
Qed.

Lemma mapImages_absent (artworks : option (list TVDBArtwork)) (title : string) :
  mapImages artworks title = None
  <-> forall a, In a (elements artworks) -> recognised a = false.
Proof.
  destruct artworks as [[|a0 l0]|]; cbn [elements].
  - split; [intros _ a [] | reflexivity].
  - apply (mapImages_spec a0 l0 title).
  - split; [intros _ a [] | reflexivity].
Qed.

(** X6.  [mapImages] picks at most one image per kind: when it returns a
    list, the list is not empty, has at most three images of pairwise
    different types, each titled with the given title and taken from an
    artwork of a known type; it returns nothing exactly when no artwork has a
    known type (poster, background, clear logo, banner). *)
Theorem mapImages_one_per_type (artworks : option (list TVDBArtwork)) (title : string) :
  (mapImages artworks title = None
   <-> forall a, In a (elements artworks) -> recognised a = false)
  /\ forall images, mapImages artworks title = Some images ->
       images <> []
       /\ (List.length images <= 3)%nat
       /\ NoDup (map image_type images)
       /\ forall i, In i images ->
            image_alt i = title
            /\ exists a, In a (elements artworks)
                         /\ recognised a = true /\ image_url i = artwork_image a.
Proof.
  split; [apply mapImages_absent |].
  destruct artworks as [[|a0 l0]|]; cbn [elements].
  - intros images Hi. discriminate Hi.
  - apply (mapImages_spec a0 l0 title).
  - intros images Hi. discriminate Hi.
Qed.

Lemma mapImages_one_per_type_witness :
  mapImages (season_artwork season8Icon) "Season 8" = None.
Proof.
  apply (proj1 (mapImages_one_per_type (season_artwork season8Icon) "Season 8")).
  intros a [<-|[]]. reflexivity.
Defined.

Lemma mapAllImages_flat (artworks : option (list TVDBArtwork)) (title : string) :
  mapAllImages artworks title
  = flat_map
      (fun artwork =>
         if artwork_type artwork =? TVDBArtworkType.POSTER
         then [mkImage coverPoster title artwork]
         else if artwork_type artwork =? TVDBArtworkType.BACKGROUND
         then [mkImage Metadata.background title artwork]
         else if artwork_type artwork =? TVDBArtworkType.CLEARLOGO
         then [mkImage clearLogo title artwork]
         else if artwork_type artwork =? TVDBArtworkType.BANNER
         then [mkImage Metadata.background title artwork]
         else [])
      (elements artworks).
Proof. now destruct artworks as [[|a l]|]. Qed.

Lemma mapAllImages_In (artworks : option (list TVDBArtwork)) (title : string)
    (a : TVDBArtwork) (t : number) (kind : ImageType) :
  In (t, kind) [(TVDBArtworkType.POSTER, coverPoster);
                (TVDBArtworkType.BACKGROUND, Metadata.background);
                (TVDBArtworkType.CLEARLOGO, clearLogo);
                (TVDBArtworkType.BANNER, Metadata.background)] ->
  In a (elements artworks) -> hasType t a = true ->
  In (mkImage kind title a) (mapAllImages artworks title).
Proof.
  intros Hk Ha Ht. rewrite mapAllImages_flat. apply in_flat_map. exists a.
  split; [exact Ha |]. unfold hasType in Ht. apply Z.eqb_eq in Ht.
  cbn [In] in Hk.
  repeat destruct Hk as [[= <- <-]|Hk]; try contradiction; rewrite Ht; cbn; auto.
Qed.

(** X7.  [mapAllImages] emits one image per artwork of a known type, in
    input order (so an absent or empty list gives the empty list); no image
    is a snapshot or a square background; and every image [mapImages] picks
    from the same artworks is among them. *)
Theorem mapAllImages_all_recognised (artworks : option (list TVDBArtwork))
    (title : string) :
  map image_url (mapAllImages artworks title)
  = map artwork_image (filter recognised (elements artworks))
  /\ (forall i, In i (mapAllImages artworks title) ->
        image_alt i = title /\ image_type i <> snapshot
        /\ image_type i <> backgroundSquare)
  /\ (forall images, mapImages artworks title = Some images ->
        incl images (mapAllImages artworks title)).
Proof.
  split; [|split].
  - rewrite mapAllImages_flat. induction (elements artworks) as [|a l IH];
      [reflexivity |].
    cbn [flat_map filter]. rewrite map_app, IH. unfold recognised, hasType.
    unfold TVDBArtworkType.POSTER, TVDBArtworkType.BACKGROUND,
      TVDBArtworkType.CLEARLOGO, TVDBArtworkType.BANNER.
    destruct (artwork_type a =? 2), (artwork_type a =? 3),
             (artwork_type a =? 7), (artwork_type a =? 1); reflexivity.
  - intros i Hi. rewrite mapAllImages_flat in Hi. apply in_flat_map in Hi as (a & _ & Hi).
    destruct (artwork_type a =? TVDBArtworkType.POSTER);
      [|destruct (artwork_type a =? TVDBArtworkType.BACKGROUND);
        [|destruct (artwork_type a =? TVDBArtworkType.CLEARLOGO);
          [|destruct (artwork_type a =? TVDBArtworkType.BANNER)]]];
      cbn [In] in Hi; try contradiction;
      destruct Hi as [<-|[]]; repeat split; discriminate.
  - destruct artworks as [[|a0 l0]|];
      try (intros images Himg; discriminate Himg).
    intros images Himg i Hi. unfold mapImages in Himg. cbn [nonEmpty] in Himg.
    set (l := a0 :: l0) in *.
    destruct (find (hasType TVDBArtworkType.POSTER) l) as [p|] eqn:Hp;
    destruct (find (hasType TVDBArtworkType.BACKGROUND) l) as [b|] eqn:Hb;
    destruct (find (hasType TVDBArtworkType.CLEARLOGO) l) as [c|] eqn:Hc;
    destruct (find (hasType TVDBArtworkType.BANNER) l) as [n|] eqn:Hn;
    cbn [option_map optList app someIfAny] in Himg; try discriminate Himg;
    injection Himg as <-; cbn [In] in Hi; found;
    repeat destruct Hi as [<-|Hi]; try contradiction;
    match goal with
    | |- In (mkImage ?kind _ ?x) _ =>
        match goal with
        | Hx : hasType ?t x = true |- _ =>
            apply (mapAllImages_In (Some l) title x t kind); [cbn; auto 6 | assumption | exact Hx]
        end
    end.
Qed.

Lemma mapAllImages_all_recognised_witness :
  incl [ {| image_type := Metadata.background;
            image_url := "https://artworks.thetvdb.com/banner.jpg";
            image_alt := "Season 8" |} ]
       (mapAllImages (season_artwork season8Extended) "Season 8").
Proof.
  exact (proj2 (proj2 (mapAllImages_all_recognised (season_artwork season8Extended)
                         "Season 8")) _ eq_refl).
Defined.

End MapperMore.

(** ** People, external ids, tags and children in the mapper *)

Module MapperLinks.
Import JS TVDB Metadata TVDBMapper MetadataService Samples MoreSamples.
Import StringFacts ArrayFacts MapperFacts MapperMore.

Lemma elements_someIfAny {A} (l : list A) : elements (someIfAny l) = l.
Proof. now destruct l. Qed.

Lemma someIfAny_not_empty {A} (l : list A) : someIfAny l <> Some [].
Proof. destruct l; discriminate. Qed.

(** *** Cast and crew *)

Lemma four_buckets (l : list TVDBCharacter) :
  (List.length (filter (fun m => (character_type m =? 1)%Z) l)
   + List.length (filter (fun m => (character_type m =? 4)%Z) l)
   + List.length (filter (fun m => (character_type m =? 2)%Z) l)
   + List.length (filter isActor l) <= List.length l)%nat.
Proof.
  induction l as [|c l IH]; [reflexivity |]. cbn [filter]. unfold isActor at 1.
  destruct (Z.eqb_spec (character_type c) 1), (Z.eqb_spec (character_type c) 4),
           (Z.eqb_spec (character_type c) 2), (Z.eqb_spec (character_type c) 3);
    cbn [List.length]; lia.
Qed.

Lemma length_mapCast (characters : option (list TVDBCharacter)) :
  (List.length (elements (mapCast characters))
   <= List.length (filter isActor (elements characters)))%nat.
Proof.
  destruct characters as [[|c l]|]; try (cbn; lia).
  rewrite mapCast_nonempty by discriminate. cbn [elements].
  unfold mapi. rewrite length_mapiFrom, length_firstn.
  rewrite (Permutation_length (sortByKey_Permutation character_sort _)). lia.
Qed.

(** X8.  [mapCrew] sorts the characters into three buckets by type code,
    directors (1), producers (4) and writers (2), each in input order; a
    bucket is absent rather than empty; and since actors are type 3, nobody
    is listed twice: cast and crew together never outnumber the characters,
    and a character of any other type code is listed nowhere. *)
Theorem mapCrew_partition (characters : option (list TVDBCharacter)) :
  let cs := elements characters in
  let crew := mapCrew characters in
  elements (crew_Director crew)
  = map crewPerson (filter (fun m => character_type m =? 1) cs)
  /\ elements (crew_Producer crew)
     = map crewPerson (filter (fun m => character_type m =? 4) cs)
  /\ elements (crew_Writer crew)
     = map crewPerson (filter (fun m => character_type m =? 2) cs)
  /\ crew_Director crew <> Some [] /\ crew_Producer crew <> Some []
  /\ crew_Writer crew <> Some []
  /\ (List.length (elements (crew_Director crew))
      + List.length (elements (crew_Producer crew))
      + List.length (elements (crew_Writer crew))
      + List.length (elements (mapCast characters)) <= List.length cs)%nat.
Proof.
  intros cs crew.
  assert (HD : elements (crew_Director crew)
               = map crewPerson (filter (fun m => character_type m =? 1) cs)).
  { subst cs crew. destruct characters as [[|c l]|]; try reflexivity.
    unfold mapCrew. cbn [nonEmpty crew_Director elements]. apply elements_someIfAny. }
  assert (HP : elements (crew_Producer crew)
               = map crewPerson (filter (fun m => character_type m =? 4) cs)).
  { subst cs crew. destruct characters as [[|c l]|]; try reflexivity.
    unfold mapCrew. cbn [nonEmpty crew_Producer elements]. apply elements_someIfAny. }
  assert (HW : elements (crew_Writer crew)
               = map crewPerson (filter (fun m => character_type m =? 2) cs)).
  { subst cs crew. destruct characters as [[|c l]|]; try reflexivity.
    unfold mapCrew. cbn [nonEmpty crew_Writer elements]. apply elements_someIfAny. }
  repeat split; try assumption.
  1-3: subst crew; destruct characters as [[|c l]|]; try discriminate;
       unfold mapCrew; cbn [nonEmpty crew_Director crew_Producer crew_Writer];
       apply someIfAny_not_empty.
  rewrite HD, HP, HW, !length_map.
  pose proof (four_buckets cs). pose proof (length_mapCast characters).
  fold cs in H0. lia.
Qed.

Section Mapper.
Context `{GuidUtils} `{DateLib}.

(** *** External ids *)

(** X9.  The external-id list of a series is never absent: it starts with
    the series' own id tagged "tvdb", followed by at most two more entries
    (IMDB, TMDB), and by none exactly when the remote-id list has no entry
    of either type. *)
Theorem mapExternalGuids_tvdb_first (series : TVDBSeriesExtended) :
  exists rest,
    mapExternalGuids series
    = Some ({| guid_id := createExternalGuid "tvdb" (NumId (series_id series)) |} :: rest)
    /\ (List.length rest <= 2)%nat
    /\ (rest = []
        <-> forall r, In r (elements (series_remoteIds series)) ->
                      remote_type r <> TVDBRemoteIdType.IMDB
                      /\ remote_type r <> TVDBRemoteIdType.TMDB).
Proof.
  unfold mapExternalGuids. destruct (series_remoteIds series) as [l|]; cbn [elements].
  - destruct (find (remoteOfType TVDBRemoteIdType.IMDB) l) as [i|] eqn:Hi;
    destruct (find (remoteOfType TVDBRemoteIdType.TMDB) l) as [t|] eqn:Ht;
    cbn [option_map optList app someIfAny]; eexists; (split; [reflexivity |]);
    (split; [cbn; lia |]).
    1-3: split; [discriminate |]; intros Hall; exfalso;
         repeat match goal with
         | Hf : find (remoteOfType _) _ = Some _ |- _ => apply find_some in Hf as [? ?]
         end;
         match goal with
         | Hin : In ?x _, Hx : remoteOfType _ ?x = true |- _ =>
             destruct (Hall x Hin); unfold remoteOfType in Hx;
             apply Z.eqb_eq in Hx; contradiction
         end.
    split; [|reflexivity]. intros _ r Hr.
    pose proof (find_none _ _ Hi r Hr) as Ei. pose proof (find_none _ _ Ht r Hr) as Et.
    unfold remoteOfType in Ei, Et. apply Z.eqb_neq in Ei, Et. auto.
  - exists []. repeat split; auto; contradiction.
Qed.

(** *** The background of a show *)

(** X10.  When [mapSeries] sets [art], it is the address of the background
    image in the show's [Image] list. *)
Theorem mapSeries_art_in_Image (series : TVDBSeriesExtended)
    (options : option MapSeriesOptions) (url : string) :
  sh_art (mapSeries series options) = Some url ->
  In {| image_type := Metadata.background; image_url := url;
        image_alt := series_name series |}
     (elements (sh_Image (mapSeries series options))).
Proof.
  cbn [mapSeries sh_art sh_Image].
  destruct (series_artworks series) as [l|]; [|discriminate].
  destruct (find (hasType TVDBArtworkType.BACKGROUND) l) as [b|] eqn:Hb; [|discriminate].
  intros [= <-]. destruct l as [|a0 l0]; [discriminate Hb |].
  unfold mapImages. cbn [nonEmpty]. rewrite Hb.
  destruct (find (hasType TVDBArtworkType.POSTER) (a0 :: l0));
  destruct (find (hasType TVDBArtworkType.CLEARLOGO) (a0 :: l0));
  cbn [option_map optList app someIfAny elements]; unfold mkImage; cbn [In]; auto.
Qed.

(** *** Season images *)

(** X11.  A season without extended artwork gets the single poster made of
    its [image] (if any); a season with extended artwork gets [mapImages] of
    that artwork instead, so an artwork list of unknown types only leaves the
    season without [Image] even when it has an [image] of its own. *)
Theorem mapSeason_Image (season : TVDBSeason) (seriesId : number)
    (showTitle showGuid : string) (showThumb : option string)
    (options : option MapSeasonOptions) :
  let m := mapSeason season seriesId showTitle showGuid showThumb options in
  (elements (season_artwork season) = [] ->
   se_Image m
   = option_map (fun url => [ {| image_type := coverPoster; image_url := url;
                                 image_alt := se_title m |} ]) (se_thumb m))
  /\ (elements (season_artwork season) <> [] ->
      se_Image m = mapImages (season_artwork season) (se_title m)
      /\ ((forall a, In a (elements (season_artwork season)) -> recognised a = false) ->
          se_Image m = None)).
Proof.
  cbn [mapSeason se_Image se_thumb se_title].
  destruct (season_artwork season) as [[|a l]|]; cbn [nonEmpty elements].
  - split; [reflexivity | congruence].
  - split; [discriminate |]. intros _. split; [reflexivity |].
    intros Hall. now apply mapImages_absent.
  - split; [reflexivity | congruence].
Qed.

(** *** Children *)

(** X12.  [mapSeries] attaches children exactly when [includeChildren] is
    set and the series lists at least one season.  The children are the
    seasons of canonical ordering, in upstream order, [size] is their count
    (0 when no listed season is canonical), none carries children of its
    own, and each points back to the show: parent identifier, URI, title and
    thumbnail are the show's. *)
Theorem mapSeries_Children (series : TVDBSeriesExtended)
    (options : option MapSeriesOptions) :
  let m := mapSeries series options in
  let wanted := isTrue (match options with Some o => includeChildren o | None => None end) in
  (sh_Children m <> None <-> wanted = true /\ elements (series_seasons series) <> [])
  /\ forall ch, sh_Children m = Some ch ->
       children_size ch = Z.of_nat (List.length (children_Metadata ch))
       /\ map se_index (children_Metadata ch)
          = map season_number (filter isCanonical (elements (series_seasons series)))
       /\ Forall (fun c => se_parentRatingKey c = sh_ratingKey m
                           /\ se_parentGuid c = sh_guid m
                           /\ se_parentTitle c = sh_title m
                           /\ se_parentThumb c = sh_thumb m
                           /\ se_Children c = None)
                 (children_Metadata ch).
Proof.
  cbn [mapSeries sh_Children sh_ratingKey sh_guid sh_title sh_thumb].
  destruct (series_seasons series) as [[|s0 l0]|]; cbn [nonEmpty elements].
  1,3: split; [split; [congruence | intros [_ ?]; congruence] | discriminate].
  destruct (isTrue _).
  - split; [split; [intros _; split; [reflexivity | discriminate] | discriminate] |].
    intros ch [= <-]. cbn [children_size children_Metadata].
    split; [reflexivity |]. split; [now rewrite map_map |].
    apply Forall_forall. intros c Hc. apply in_map_iff in Hc as (s & <- & _).
    repeat split. cbn [mapSeason se_Children].
    now destruct (nonEmpty (season_episodes s)).
  - split; [split; [congruence | intros [? _]; discriminate] | discriminate].
Qed.

(** X13.  [mapSeason] attaches children exactly when [includeChildren] is
    set and the season carries a non-empty episode list; there is then one
    child per episode, in order, and each takes the season as parent (URI,
    title, thumbnail) and the season's parent as grandparent. *)
Theorem mapSeason_Children (season : TVDBSeason) (seriesId : number)
    (showTitle showGuid : string) (showThumb : option string)
    (options : option MapSeasonOptions) :
  let m := mapSeason season seriesId showTitle showGuid showThumb options in
  let wanted :=
    isTrue (match options with Some o => season_includeChildren o | None => None end) in
  (se_Children m <> None <-> wanted = true /\ elements (season_episodes season) <> [])
  /\ forall ch, se_Children m = Some ch ->
       children_size ch = Z.of_nat (List.length (children_Metadata ch))
       /\ children_Metadata ch <> []
       /\ map ep_index (children_Metadata ch)
          = map episode_number (elements (season_episodes season))
       /\ Forall (fun e => ep_parentGuid e = se_guid m
                           /\ ep_parentTitle e = se_title m
                           /\ ep_parentThumb e = se_thumb m
                           /\ ep_grandparentRatingKey e = se_parentRatingKey m
                           /\ ep_grandparentGuid e = se_parentGuid m
                           /\ ep_grandparentTitle e = se_parentTitle m
                           /\ ep_grandparentThumb e = se_parentThumb m)
                 (children_Metadata ch).
Proof.
  cbn [mapSeason se_Children se_guid se_title se_thumb se_parentRatingKey
       se_parentGuid se_parentTitle se_parentThumb].
  destruct (season_episodes season) as [[|e0 l0]|]; cbn [nonEmpty elements].
  1,3: split; [split; [congruence | intros [_ ?]; congruence] | discriminate].
  destruct (isTrue _).
  - split; [split; [intros _; split; [reflexivity | discriminate] | discriminate] |].
    intros ch [= <-]. cbn [children_size children_Metadata].
    split; [reflexivity |]. split; [discriminate |].
    split; [cbn [map]; f_equal; now rewrite map_map |].
    apply Forall_forall. intros c Hc. cbn [In] in Hc.
    destruct Hc as [<-|Hc]; [|apply in_map_iff in Hc as (s & <- & _)]; repeat split.
  - split; [split; [congruence | intros [? _]; discriminate] | discriminate].
Qed.

End Mapper.

Lemma mapSeries_art_in_Image_witness :
  In {| image_type := Metadata.background;
        image_url := "https://artworks.thetvdb.com/background.jpg";
        image_alt := "Adventure Time" |}
     (elements (sh_Image (@mapSeries guidUtils dateLib adventureTime None))).
Proof.
  exact (@mapSeries_art_in_Image guidUtils dateLib adventureTime None _ eq_refl).
Defined.

Lemma mapSeason_Image_witness :
  se_Image (@mapSeason guidUtils dateLib season8Icon 152831 "" "" None None) = None.
Proof.
  refine (proj2 (proj2 (@mapSeason_Image guidUtils dateLib season8Icon 152831 "" ""
                          None None) _) _).
  - discriminate.
  - intros a [<-|[]]. reflexivity.
Defined.

Lemma mapSeries_Children_witness :
  sh_Children (@mapSeries guidUtils dateLib miniSeries
                 (Some {| includeChildren := Some true; country := None |})) <> None.
Proof.
  refine (proj2 (proj1 (@mapSeries_Children guidUtils dateLib miniSeries
                          (Some {| includeChildren := Some true; country := None |})))
            (conj eq_refl _)).
  discriminate.
Defined.

Lemma mapSeason_Children_witness :
  se_Children (@mapSeason guidUtils dateLib season8Extended 152831 "" "" None
                 (Some {| season_includeChildren := Some true |})) <> None.
Proof.
  refine (proj2 (proj1 (@mapSeason_Children guidUtils dateLib season8Extended 152831
                          "" "" None (Some {| season_includeChildren := Some true |})))
            (conj eq_refl _)).
  discriminate.
Defined.

End MapperLinks.

(** ** Letter case in tags and country codes *)

Module MapperCase.
Import JS TVDB Metadata TVDBMapper MetadataService Samples MoreSamples.
Import StringFacts MapperFacts.

Lemma lowerChar_idem (c : ascii) : lowerChar (lowerChar c) = lowerChar c.
Proof. destruct c as [[|] [|] [|] [|] [|] [|] [|] [|]]; reflexivity. Qed.

Lemma toLowerCase_idem (s : string) : toLowerCase (toLowerCase s) = toLowerCase s.
Proof.
  unfold toLowerCase. induction s as [|c s IH]; cbn [mapString]; [reflexivity |].
  now rewrite lowerChar_idem, IH.
Qed.

(** X14.  Every season that passes the canonical-ordering filter (type
    "default" or "official") has the short tag "default".  For a type word
    that is not, once lowercased, a property name the lookup object inherits
    ("constructor", "__proto__"), the short tag is in lower case and depends
    on the type word only up to case; the canonical type words are of that
    kind. *)
Theorem getSeasonTypeShortTag_canonical (season : TVDBSeason) :
  (isCanonical season = true ->
   inheritedKey (toLowerCase (seasonType_type (season_type season))) = false
   /\ getSeasonTypeShortTag (Some (season_type season)) = "default")
  /\ (inheritedKey (toLowerCase (seasonType_type (season_type season))) = false ->
      toLowerCase (getSeasonTypeShortTag (Some (season_type season)))
      = getSeasonTypeShortTag (Some (season_type season))
      /\ forall other,
           toLowerCase (seasonType_type other)
           = toLowerCase (seasonType_type (season_type season)) ->
           getSeasonTypeShortTag (Some other)
           = getSeasonTypeShortTag (Some (season_type season))).
Proof.
  split.
  - unfold isCanonical. intros Hc. apply orb_true_iff in Hc.
    rewrite getSeasonTypeShortTag_table. cbn zeta.
    destruct Hc as [Hc|Hc]; apply String.eqb_eq in Hc; rewrite Hc; split; reflexivity.
  - intros _. split.
    + rewrite getSeasonTypeShortTag_table. cbn zeta.
      destruct ((_ =? "default")%string || _); [reflexivity | apply toLowerCase_idem].
    + intros other E. rewrite !getSeasonTypeShortTag_table. cbn zeta. now rewrite E.
Qed.

Lemma getSeasonTypeShortTag_canonical_witness :
  getSeasonTypeShortTag (Some (season_type season8)) = "default"
  /\ toLowerCase (getSeasonTypeShortTag (Some (season_type season8dvd)))
     = getSeasonTypeShortTag (Some (season_type season8dvd)).
Proof.
  split.
  - exact (proj2 (proj1 (getSeasonTypeShortTag_canonical season8) eq_refl)).
  - exact (proj1 (proj2 (getSeasonTypeShortTag_canonical season8dvd) eq_refl)).
Defined.

Lemma entryMatches_us (requested : string) (r : TVDBContentRating) :
  usEquivalent requested = true ->
  entryMatches requested r
  = match rating_country r with Some code => usEquivalent code | None => false end.
Proof.
  intros Hus. unfold entryMatches. destruct (rating_country r) as [code|]; [|reflexivity].
  rewrite Hus, andb_true_l.
  destruct (String.eqb_spec (toUpperCase code) (toUpperCase requested)) as [E|];
    [|reflexivity].
  cbn [orb]. unfold usEquivalent in *. now rewrite E.
Qed.

(** X15.  The requested country is taken up to letter case, and the two US
    codes are one: requests whose uppercased codes agree, or which are both
    US-equivalent ("US", "usa", ...), resolve to the same content rating. *)
Theorem getContentRating_case_insensitive (series : TVDBSeriesExtended)
    (requested requested' : string) :
  toUpperCase requested = toUpperCase requested'
  \/ (usEquivalent requested = true /\ usEquivalent requested' = true) ->
  getContentRating series (Some requested) = getContentRating series (Some requested').
Proof.
  intros Hsame. destruct (series_contentRatings series) as [rs|] eqn:Hrs.
  - rewrite !(getContentRating_resolve _ _ _ Hrs). unfold resolveContentRating.
    assert (Hus : usEquivalent requested = usEquivalent requested').
    { destruct Hsame as [E|[-> ->]]; [|reflexivity]. unfold usEquivalent. now rewrite E. }
    assert (Hm : forall r, entryMatches requested r = entryMatches requested' r).
    { intros r. destruct Hsame as [E|[U U']].
      - unfold entryMatches. now rewrite E, Hus.
      - now rewrite !entryMatches_us. }
    rewrite (find_pointwise _ _ rs Hm). now rewrite Hus.
  - unfold getContentRating. now rewrite Hrs.
Qed.

Lemma getContentRating_case_insensitive_witness :
  getContentRating adventureTime (Some "us") = getContentRating adventureTime (Some "USA").
Proof.
  apply (getContentRating_case_insensitive adventureTime "us" "USA").
  right. split; reflexivity.
Defined.

End MapperCase.

(** ** The lookup service: failures, tags, containers *)

Module ServiceMore.
Import JS Regex TVDB Metadata TVDBMapper MetadataService Samples MoreSamples.
Import StringFacts ArrayFacts CodecFacts MapperFacts ServiceFacts IdentifierFacts.

Section Service.
Context `{GuidUtils} `{DateLib}.
Variable tvdbClient : TVDBClient.
Variable artworkClient : TVDBArtworkClient.

(** A decoded identifier, by cases on its type, with the fields the type
    guarantees. *)
Lemma parsed_cases (ratingKey : string) (p : ParsedRatingKey) :
  parseRatingKey ratingKey = Some p ->
  parsed_type p = Show
  \/ (parsed_type p = Season /\ exists n, seasonNumber p = Some n)
  \/ (parsed_type p = Episode
      /\ exists n e, seasonNumber p = Some n /\ episodeNumber p = Some e).
Proof.
  intros Hp. destruct (parseRatingKey_Some_inv _ _ Hp) as [Hc _].
  unfold complete in Hc. destruct (parsed_type p); [now left | right; left | right; right].
  - destruct Hc as [Hn _]. destruct (seasonNumber p) as [n|]; [|congruence].
    split; [reflexivity | now exists n].
  - destruct Hc as [Hn He].
    destruct (seasonNumber p) as [n|]; [|congruence].
    destruct (episodeNumber p) as [e|]; [|congruence].
    split; [reflexivity | now exists n, e].
Qed.

Ltac by_type Hp :=
  let Ht := fresh "Ht" in let Hn := fresh "Hn" in let He := fresh "He" in
  destruct (parsed_cases _ _ Hp) as [Ht|[[Ht [? Hn]]|[Ht (? & ? & Hn & He)]]].

(** X16.  A rejected series fetch is passed on unchanged: for any
    identifier that decodes, [getMetadata] and [getImages] fail with the
    upstream error itself, and so do [getChildren] (show or season) and
    [getGrandchildren] (show). *)
Theorem series_failure_propagates (ratingKey : string) (p : ParsedRatingKey)
    (e : Error) (options : MetadataServiceOptions) (paging : PagingOptions) :
  parseRatingKey ratingKey = Some p ->
  getSeriesDetails tvdbClient (seriesId p) = Throw e ->
  getMetadata tvdbClient ratingKey options = Throw e
  /\ getImages tvdbClient artworkClient ratingKey options = Throw e
  /\ (parsed_type p <> Episode ->
      getChildren tvdbClient ratingKey options paging = Throw e)
  /\ (parsed_type p = Show ->
      getGrandchildren tvdbClient ratingKey options paging = Throw e).
Proof.
  intros Hp Hs. unfold getMetadata, getImages, getChildren, getGrandchildren.
  rewrite Hp. by_type Hp; rewrite Ht; try rewrite Hn; try rewrite He;
    unfold getShow, getSeason, getEpisode; rewrite Hs; cbn [bind];
    repeat split; congruence.
Qed.

(** X17.  An identifier that does not decode, or that names an entity type
    the operation does not serve, is refused before anything is fetched:
    [getChildren], [getGrandchildren] and [getImages] fail with the
    invalid-identifier error on an undecodable string, [getChildren] fails on
    an episode and [getGrandchildren] on a season or an episode, whatever the
    upstream catalog would answer. *)
Theorem refused_before_fetching (ratingKey : string)
    (options : MetadataServiceOptions) (paging : PagingOptions) :
  (parseRatingKey ratingKey = None ->
   getChildren tvdbClient ratingKey options paging = Throw (invalidIdentifier ratingKey)
   /\ getGrandchildren tvdbClient ratingKey options paging
      = Throw (invalidIdentifier ratingKey)
   /\ getImages tvdbClient artworkClient ratingKey options
      = Throw (invalidIdentifier ratingKey))
  /\ (forall p, parseRatingKey ratingKey = Some p ->
        (parsed_type p = Episode ->
         getChildren tvdbClient ratingKey options paging = Throw (noChildren Episode))
        /\ (parsed_type p <> Show ->
            getGrandchildren tvdbClient ratingKey options paging
            = Throw (noGrandchildren (parsed_type p)))).
Proof.
  unfold getChildren, getGrandchildren, getImages. split.
  - intros ->. repeat split.
  - intros p ->. split.
    + intros ->. reflexivity.
    + destruct (parsed_type p); [congruence | reflexivity | reflexivity].
Qed.

(** X18.  An identifier without ordering tag is served as the same
    identifier tagged "default": the two give equal results for
    [getMetadata], [getChildren], [getGrandchildren] and [getImages]. *)
Theorem default_tag_is_no_tag (ratingKey ratingKey' : string) (p : ParsedRatingKey)
    (options : MetadataServiceOptions) (paging : PagingOptions) :
  parseRatingKey ratingKey = Some (withSeasonType p None) ->
  parseRatingKey ratingKey' = Some (withSeasonType p (Some "default")) ->
  getMetadata tvdbClient ratingKey options = getMetadata tvdbClient ratingKey' options
  /\ getChildren tvdbClient ratingKey options paging
     = getChildren tvdbClient ratingKey' options paging
  /\ getGrandchildren tvdbClient ratingKey options paging
     = getGrandchildren tvdbClient ratingKey' options paging
  /\ getImages tvdbClient artworkClient ratingKey options
     = getImages tvdbClient artworkClient ratingKey' options.
Proof.
  intros Hp Hp'. unfold getMetadata, getChildren, getGrandchildren, getImages.
  rewrite Hp, Hp'. by_type Hp; cbn [withSeasonType parsed_type seasonNumber
    episodeNumber seasonType seriesId] in *; rewrite Ht; try rewrite Hn; try rewrite He;
    repeat split.
Qed.

(** X19.  Whenever [getMetadata] succeeds, the container holds exactly one
    entity, of the type the identifier names, with offset 0 and both sizes
    equal to 1. *)
Theorem getMetadata_single (ratingKey : string) (options : MetadataServiceOptions)
    (r : MetadataResponse) :
  getMetadata tvdbClient ratingKey options = Ok r ->
  exists p m,
    parseRatingKey ratingKey = Some p
    /\ MediaContainer_ r
       = {| mc_offset := 0; mc_totalSize := 1; mc_identifier := TV_PROVIDER_IDENTIFIER;
            mc_size := 1; mc_Metadata := [m] |}
    /\ kindOf m = parsed_type p.
Proof.
  unfold getMetadata. destruct (parseRatingKey ratingKey) as [p|] eqn:Hp; [|discriminate].
  intros Hr. exists p.
  by_type Hp; rewrite Ht in *; try rewrite Hn in Hr; try rewrite He in Hr;
    unfold getShow, getSeason, getEpisode in Hr;
    repeat match type of Hr with
    | context [bind ?c _] =>
        let v := fresh "v" in destruct c as [v|?]; cbn [bind] in Hr; [|discriminate Hr]
    | context [match ?v with Some _ => _ | None => _ end] =>
        destruct v; [|discriminate Hr]
    | context [if ?b then _ else _] => destruct b
    end;
    injection Hr as <-; eexists; (split; [reflexivity |]); split; reflexivity.
Qed.

End Service.

Lemma series_failure_propagates_witness :
  @getMetadata guidUtils dateLib downUpstream "tvdb-episode-152831-1-5" noOptions
  = Throw {| message := "connect ECONNREFUSED" |}.
Proof.
  exact (proj1 (@series_failure_propagates guidUtils dateLib downUpstream artworkUpstream
                  "tvdb-episode-152831-1-5"
                  {| parsed_type := Episode; seriesId := 152831; seasonNumber := Some 1;
                     episodeNumber := Some 5; seasonType := None |}
                  _ noOptions noPaging eq_refl eq_refl)).
Defined.

Lemma refused_before_fetching_witness :
  @getGrandchildren guidUtils dateLib upstream "tvdb-season-152831-1" noOptions noPaging
  = Throw (noGrandchildren Season).
Proof.
  refine (proj2 (proj2 (@refused_before_fetching guidUtils dateLib upstream artworkUpstream
                          "tvdb-season-152831-1" noOptions noPaging)
                   {| parsed_type := Season; seriesId := 152831; seasonNumber := Some 1;
                      episodeNumber := None; seasonType := None |} eq_refl) _).
  discriminate.
Defined.

Lemma default_tag_is_no_tag_witness :
  @getMetadata guidUtils dateLib upstreamWithSeason8 "tvdb-season-152831-8" noOptions
  = @getMetadata guidUtils dateLib upstreamWithSeason8 "tvdb-season-152831-8-default"
      noOptions.
Proof.
  exact (proj1 (@default_tag_is_no_tag guidUtils dateLib upstreamWithSeason8
                  artworkUpstream "tvdb-season-152831-8" "tvdb-season-152831-8-default"
                  {| parsed_type := Season; seriesId := 152831; seasonNumber := Some 8;
                     episodeNumber := None; seasonType := None |}
                  noOptions noPaging eq_refl eq_refl)).
Defined.

Lemma getMetadata_single_witness :
  exists p m,
    parseRatingKey "tvdb-show-152831" = Some p
    /\ MediaContainer_
         (single (OfShow (@mapSeries guidUtils dateLib adventureTime
                            (Some {| includeChildren := None; country := None |}))))
       = {| mc_offset := 0; mc_totalSize := 1; mc_identifier := TV_PROVIDER_IDENTIFIER;
            mc_size := 1; mc_Metadata := [m] |}
    /\ kindOf m = parsed_type p.
Proof.
  exact (@getMetadata_single guidUtils dateLib upstream "tvdb-show-152831" noOptions
           _ eq_refl).
Defined.

End ServiceMore.

(** ** The lookup service: paging, grandchildren, images *)

Module ServicePaging.
Import JS Regex TVDB Metadata TVDBMapper MetadataService Samples MoreSamples.
Import StringFacts ArrayFacts CodecFacts MapperFacts ServiceFacts IdentifierFacts.

(** *** Windows over a list *)

Lemma firstn_plus {A} (n m : nat) (l : list A) :
  firstn (n + m) l = firstn n l ++ firstn m (skipn n l).
Proof.
  revert l; induction n as [|n IH]; intros l; [reflexivity |].
  destruct l as [|x l]; cbn [Nat.add firstn skipn app].
  - now rewrite firstn_nil.
  - now rewrite IH.
Qed.

Lemma skipn_plus {A} (n m : nat) (l : list A) :
  skipn (n + m) l = skipn m (skipn n l).
Proof.
  revert l; induction n as [|n IH]; intros l; [reflexivity |].
  destruct l as [|x l]; cbn [Nat.add skipn]; [now rewrite skipn_nil | apply IH].
Qed.

Lemma slice_tile {A} (l : list A) (a n m : Z) :
  0 <= a -> 0 <= n -> 0 <= m ->
  slice l a (a + n) ++ slice l (a + n) (a + n + m) = slice l a (a + (n + m)).
Proof.
  intros Ha Hn Hm. rewrite !slice_window by lia.
  replace (Z.to_nat (n + m)) with (Z.to_nat n + Z.to_nat m)%nat by lia.
  replace (Z.to_nat (a + n)) with (Z.to_nat a + Z.to_nat n)%nat by lia.
  now rewrite firstn_plus, skipn_plus.
Qed.

Lemma length_slice_window {A} (l : list A) (a n : Z) :
  0 <= a -> 0 <= n ->
  Z.of_nat (List.length (slice l a (a + n)))
  = Z.min n (Z.max 0 (Z.of_nat (List.length l) - a)).
Proof.
  intros Ha Hn. rewrite slice_window by lia.
  rewrite length_firstn, length_skipn. lia.
Qed.

Lemma In_slice {A} (l : list A) (a b : Z) (x : A) : In x (slice l a b) -> In x l.
Proof.
  unfold slice. set (k := Z.to_nat _). set (j := Z.to_nat _). intros Hx.
  rewrite <- (firstn_skipn j l). apply in_or_app. right.
  rewrite <- (firstn_skipn k (skipn j l)). apply in_or_app. now left.
Qed.

Lemma skipn_last {A} (l : list A) (d : A) :
  l <> [] -> skipn (List.length l - 1) l = [last l d].
Proof.
  induction l as [|x l IH]; [congruence |]. intros _.
  destruct l as [|y l]; [reflexivity |].
  specialize (IH ltac:(discriminate)).
  replace (List.length (x :: y :: l) - 1)%nat with (S (List.length (y :: l) - 1))
    by (cbn [List.length]; lia).
  rewrite skipn_cons, IH. reflexivity.
Qed.

Section Service.
Context `{GuidUtils} `{DateLib}.
Variable tvdbClient : TVDBClient.
Variable artworkClient : TVDBArtworkClient.

(** X20.  Consecutive pages tile the child list: for a 1-based start, the
    page of [n] children from [start] followed by the page of [m] children
    from [start + n] is the page of [n + m] children from [start], and the
    sizes add up. *)
Theorem getChildren_pages_tile (ratingKey : string) (p : ParsedRatingKey)
    (options : MetadataServiceOptions) (seriesDetails : TVDBSeriesExtended)
    (start n m : number) :
  parseRatingKey ratingKey = Some p -> parsed_type p = Show ->
  getSeriesDetails tvdbClient (seriesId p) = Ok seriesDetails ->
  1 <= start -> 0 <= n -> 0 <= m ->
  exists r1 r2 r,
    getChildren tvdbClient ratingKey options (window start n) = Ok r1
    /\ getChildren tvdbClient ratingKey options (window (start + n) m) = Ok r2
    /\ getChildren tvdbClient ratingKey options (window start (n + m)) = Ok r
    /\ mc_Metadata (MediaContainer_ r1) ++ mc_Metadata (MediaContainer_ r2)
       = mc_Metadata (MediaContainer_ r)
    /\ mc_size (MediaContainer_ r1) + mc_size (MediaContainer_ r2)
       = mc_size (MediaContainer_ r)
    /\ mc_offset (MediaContainer_ r2) = mc_offset (MediaContainer_ r1) + n
    /\ mc_totalSize (MediaContainer_ r1) = mc_totalSize (MediaContainer_ r).
Proof.
  intros Hp Ht Hs Hstart Hn Hm.
  rewrite !(getChildren_show tvdbClient ratingKey p options _ seriesDetails Hp Ht Hs).
  do 3 eexists. do 3 (split; [reflexivity |]).
  unfold paged, window. cbn [MediaContainer_ mc_Metadata mc_size mc_offset mc_totalSize
    containerStart containerSize].
  set (all := childrenOfShow (seriesId p) seriesDetails).
  assert (Htile : slice all (start - 1) (start - 1 + n)
                  ++ slice all (start + n - 1) (start + n - 1 + m)
                  = slice all (start - 1) (start - 1 + (n + m))).
  { replace (start + n - 1) with (start - 1 + n) by lia. apply slice_tile; lia. }
  split; [exact Htile |]. split; [|split; [lia | reflexivity]].
  rewrite <- Htile, length_app. lia.
Qed.

(** X21.  For a 1-based start and a non-negative page size, the [size]
    [getChildren] reports for a show is the smaller of the page size and of
    what is left of the list from the start on; it never exceeds either. *)
Theorem getChildren_size (ratingKey : string) (p : ParsedRatingKey)
    (options : MetadataServiceOptions) (paging : PagingOptions)
    (r : MetadataResponse) :
  parseRatingKey ratingKey = Some p -> parsed_type p = Show ->
  getChildren tvdbClient ratingKey options paging = Ok r ->
  let start := match containerStart paging with Some n => n | None => 1 end in
  let pageSize := match containerSize paging with Some n => n | None => 20 end in
  1 <= start -> 0 <= pageSize ->
  mc_size (MediaContainer_ r)
  = Z.min pageSize (Z.max 0 (mc_totalSize (MediaContainer_ r) - mc_offset (MediaContainer_ r)))
  /\ mc_size (MediaContainer_ r) = Z.of_nat (List.length (mc_Metadata (MediaContainer_ r)))
  /\ 0 <= mc_size (MediaContainer_ r) <= pageSize
  /\ mc_size (MediaContainer_ r) <= mc_totalSize (MediaContainer_ r).
Proof.
  intros Hp Ht Hr start pageSize Hstart Hsize.
  destruct (getSeriesDetails tvdbClient (seriesId p)) as [sd|e] eqn:Hs.
  - rewrite (getChildren_show tvdbClient ratingKey p options paging sd Hp Ht Hs) in Hr.
    injection Hr as <-. unfold paged.
    cbn [MediaContainer_ mc_Metadata mc_size mc_offset mc_totalSize].
    fold start pageSize.
    pose proof (length_slice_window (childrenOfShow (seriesId p) sd) (start - 1) pageSize
                  ltac:(lia) Hsize) as Hlen.
    rewrite Hlen. repeat split; lia.
  - unfold getChildren in Hr. rewrite Hp, Ht, Hs in Hr. discriminate Hr.
Qed.

(** X22.  A start of 0 is not clamped to the first page: the slice then
    begins one before the end, so a show whose child list is not empty and
    shorter than the page size gets its last child alone, with offset -1;
    with a page size between 1 and the length of the list it gets nothing. *)
Theorem getChildren_start_zero (ratingKey : string) (p : ParsedRatingKey)
    (options : MetadataServiceOptions) (seriesDetails : TVDBSeriesExtended)
    (pageSize : number) (d : AnyMetadata) :
  parseRatingKey ratingKey = Some p -> parsed_type p = Show ->
  getSeriesDetails tvdbClient (seriesId p) = Ok seriesDetails ->
  let all := childrenOfShow (seriesId p) seriesDetails in
  all <> [] -> 1 <= pageSize ->
  exists r,
    getChildren tvdbClient ratingKey options (window 0 pageSize) = Ok r
    /\ mc_offset (MediaContainer_ r) = -1
    /\ mc_totalSize (MediaContainer_ r) = Z.of_nat (List.length all)
    /\ mc_Metadata (MediaContainer_ r)
       = if Z.of_nat (List.length all) <? pageSize then [last all d] else [].
Proof.
  intros Hp Ht Hs all Hall Hsize.
  rewrite (getChildren_show tvdbClient ratingKey p options _ seriesDetails Hp Ht Hs).
  eexists. split; [reflexivity |]. unfold paged, window.
  cbn [MediaContainer_ mc_Metadata mc_size mc_offset mc_totalSize
       containerStart containerSize]. fold all.
  split; [reflexivity |]. split; [reflexivity |].
  assert (Hlen : (0 < List.length all)%nat) by (destruct all; [congruence | cbn; lia]).
  unfold slice, sliceIndex. change (0 - 1 <? 0) with true. cbn match.
  destruct (Z.ltb_spec (0 - 1 + pageSize) 0) as [|_]; [lia |].
  rewrite Z.max_l by lia.
  replace (Z.to_nat (Z.of_nat (List.length all) + (0 - 1)))
    with (List.length all - 1)%nat by lia.
  rewrite (skipn_last all d Hall).
  destruct (Z.ltb_spec (Z.of_nat (List.length all)) pageSize) as [Hlt|Hge].
  - rewrite Z.min_r by lia.
    replace (Z.to_nat (Z.of_nat (List.length all)
                       - (Z.of_nat (List.length all) + (0 - 1)))) with 1%nat by lia.
    reflexivity.
  - rewrite Z.min_l by lia.
    replace (Z.to_nat (0 - 1 + pageSize - (Z.of_nat (List.length all) + (0 - 1))))
      with 0%nat by lia.
    reflexivity.
Qed.

(** X23.  What the service hands out, it takes back: for a show whose
    series id and upstream season numbers are safe integers, [getChildren]
    succeeds and every child it returns is a season of safe non-negative
    number without children of its own, whose parent identifier is the
    show's and whose own identifier decodes to that season of that series. *)
Theorem getChildren_children_decode (ratingKey : string) (p : ParsedRatingKey)
    (options : MetadataServiceOptions) (paging : PagingOptions)
    (seriesDetails : TVDBSeriesExtended) :
  parseRatingKey ratingKey = Some p -> parsed_type p = Show ->
  isSafeNatural (seriesId p) ->
  getSeriesDetails tvdbClient (seriesId p) = Ok seriesDetails ->
  Forall (fun season => isSafeInteger (season_number season))
         (elements (series_seasons seriesDetails)) ->
  exists r,
    getChildren tvdbClient ratingKey options paging = Ok r
    /\ Forall (fun child =>
                 exists m,
                   child = OfSeason m
                   /\ isSafeNatural (se_index m)
                   /\ se_Children m = None
                   /\ se_parentRatingKey m = "tvdb-show-" +++ numToString (seriesId p)
                   /\ parseRatingKey (se_ratingKey m)
                      = Some {| parsed_type := Season; seriesId := seriesId p;
                                seasonNumber := Some (se_index m);
                                episodeNumber := None; seasonType := None |})
              (mc_Metadata (MediaContainer_ r)).
Proof.
  intros Hp Ht [Hid _] Hs Hsafe.
  rewrite (getChildren_show tvdbClient ratingKey p options paging seriesDetails Hp Ht Hs).
  eexists. split; [reflexivity |].
  unfold paged. cbn [MediaContainer_ mc_Metadata].
  apply Forall_forall. intros child Hc. apply In_slice in Hc.
  unfold childrenOfShow in Hc. rewrite map_map in Hc.
  apply in_map_iff in Hc as (season & <- & Hin).
  unfold canonicalSeasons in Hin.
  destruct (series_seasons seriesDetails) as [seasons|]; [|destruct Hin].
  cbn [elements] in Hsafe.
  apply filter_In in Hin as [Hin Hn]. apply Z.geb_le in Hn.
  apply filter_In in Hin as [Hin _].
  pose proof (proj1 (Forall_forall _ _) Hsafe season Hin) as [_ Hmax].
  eexists. split; [reflexivity |].
  split; [split; [exact Hn | exact Hmax] |].
  split; [cbn [mapSeason se_Children]; now destruct (nonEmpty (season_episodes season)) |].
  split; [reflexivity |].
  rewrite mapSeason_ratingKey.
  exact (proj1 (proj2 (parseRatingKey_encode_nonneg (seriesId p) (season_number season) 0
                         None Hid Hn (Z.le_refl 0) I))).
Qed.

End Service.

Lemma getChildren_pages_tile_witness :
  exists r1 r2 r,
    @getChildren guidUtils dateLib upstream "tvdb-show-152831" noOptions (window 1 4) = Ok r1
    /\ @getChildren guidUtils dateLib upstream "tvdb-show-152831" noOptions
         (window (1 + 4) 6) = Ok r2
    /\ @getChildren guidUtils dateLib upstream "tvdb-show-152831" noOptions
         (window 1 (4 + 6)) = Ok r
    /\ mc_Metadata (MediaContainer_ r1) ++ mc_Metadata (MediaContainer_ r2)
       = mc_Metadata (MediaContainer_ r)
    /\ mc_size (MediaContainer_ r1) + mc_size (MediaContainer_ r2)
       = mc_size (MediaContainer_ r)
    /\ mc_offset (MediaContainer_ r2) = mc_offset (MediaContainer_ r1) + 4
    /\ mc_totalSize (MediaContainer_ r1) = mc_totalSize (MediaContainer_ r).
Proof.
  refine (@getChildren_pages_tile guidUtils dateLib upstream "tvdb-show-152831"
            {| parsed_type := Show; seriesId := 152831; seasonNumber := None;
               episodeNumber := None; seasonType := None |}
            noOptions adventureTime 1 4 6 eq_refl eq_refl eq_refl _ _ _); lia.
Defined.

Lemma getChildren_size_witness :
  mc_size (MediaContainer_ (paged (@childrenOfShow guidUtils dateLib 152831 adventureTime) 8 5))
  <= mc_totalSize
       (MediaContainer_ (paged (@childrenOfShow guidUtils dateLib 152831 adventureTime) 8 5)).
Proof.
  refine (proj2 (proj2 (proj2
            (@getChildren_size guidUtils dateLib upstream "tvdb-show-152831"
               {| parsed_type := Show; seriesId := 152831; seasonNumber := None;
                  episodeNumber := None; seasonType := None |}
               noOptions (window 8 5) _ eq_refl eq_refl eq_refl _ _)))); cbn; lia.
Defined.

Lemma getChildren_start_zero_witness :
  exists r,
    @getChildren guidUtils dateLib upstream "tvdb-show-152831" noOptions (window 0 20) = Ok r
    /\ mc_offset (MediaContainer_ r) = -1
    /\ mc_totalSize (MediaContainer_ r) = 10
    /\ mc_Metadata (MediaContainer_ r)
       = [OfSeason (@mapSeason guidUtils dateLib (mkSeason official 10) 152831
                      "Adventure Time"
                      "tv.plex.agents.custom.example.thetvdb.tv://show/tvdb-show-152831"
                      (Some "https://artworks.thetvdb.com/banners/posters/adventure-time.jpg")
                      None)].
Proof.
  refine (@getChildren_start_zero guidUtils dateLib upstream "tvdb-show-152831"
            {| parsed_type := Show; seriesId := 152831; seasonNumber := None;
               episodeNumber := None; seasonType := None |}
            noOptions adventureTime 20
            (OfSeason (@mapSeason guidUtils dateLib season8 0 "" "" None None))
            eq_refl eq_refl eq_refl _ _); [discriminate | lia].
Defined.

Lemma getChildren_children_decode_witness :
  exists r,
    @getChildren guidUtils dateLib upstream "tvdb-show-152831" noOptions noPaging = Ok r
    /\ Forall (fun child =>
                 exists m,
                   child = OfSeason m
                   /\ isSafeNatural (se_index m)
                   /\ se_Children m = None
                   /\ se_parentRatingKey m = "tvdb-show-" +++ numToString 152831
                   /\ parseRatingKey (se_ratingKey m)
                      = Some {| parsed_type := Season; seriesId := 152831;
                                seasonNumber := Some (se_index m);
                                episodeNumber := None; seasonType := None |})
              (mc_Metadata (MediaContainer_ r)).
Proof.
  refine (@getChildren_children_decode guidUtils dateLib upstream "tvdb-show-152831"
            {| parsed_type := Show; seriesId := 152831; seasonNumber := None;
               episodeNumber := None; seasonType := None |}
            noOptions noPaging adventureTime eq_refl eq_refl _ eq_refl _).
  - unfold isSafeNatural, MAX_SAFE_INTEGER; cbn; lia.
  - repeat constructor; unfold MAX_SAFE_INTEGER; cbn; lia.
Defined.

End ServicePaging.

(** ** The lookup service: grandchildren and images *)

Module ServiceLists.
Import JS Regex TVDB Metadata TVDBMapper MetadataService Samples MoreSamples.
Import StringFacts ArrayFacts CodecFacts MapperFacts ServiceFacts IdentifierFacts.
Import MapperMore.

Lemma mapAllImages_types (artworks : option (list TVDBArtwork)) (title : string)
    (i : Image) :
  In i (mapAllImages artworks title) ->
  image_type i <> snapshot /\ image_type i <> backgroundSquare.
Proof.
  intros Hi. rewrite mapAllImages_flat in Hi. apply in_flat_map in Hi as (a & _ & Hi).
  destruct (artwork_type a =? TVDBArtworkType.POSTER);
    [|destruct (artwork_type a =? TVDBArtworkType.BACKGROUND);
      [|destruct (artwork_type a =? TVDBArtworkType.CLEARLOGO);
        [|destruct (artwork_type a =? TVDBArtworkType.BANNER)]]];
    cbn [In] in Hi; try contradiction;
    destruct Hi as [<-|[]]; split; discriminate.
Qed.

Section Service.
Context `{GuidUtils} `{DateLib}.
Variable tvdbClient : TVDBClient.
Variable artworkClient : TVDBArtworkClient.

(** *** Grandchildren *)

Lemma collectEpisodes_ok (id : number) (seriesDetails : TVDBSeriesExtended)
    (details : TVDBSeason -> TVDBSeason) (seasons : list TVDBSeason) :
  (forall s, In s seasons -> getSeasonDetails tvdbClient (season_id s) = Ok (details s)) ->
  forall allEpisodes,
    collectEpisodes tvdbClient id seriesDetails seasons allEpisodes
    = Ok (allEpisodes
          ++ flat_map (fun s => episodesOfSeason id seriesDetails s (details s)) seasons).
Proof.
  induction seasons as [|s seasons IH]; intros Hok acc; cbn [collectEpisodes flat_map].
  - now rewrite app_nil_r.
  - rewrite (Hok s (or_introl eq_refl)). cbn [bind].
    rewrite IH by (intros x Hx; apply Hok; now right).
    now rewrite app_assoc.
Qed.

Lemma collectEpisodes_fail (id : number) (seriesDetails : TVDBSeriesExtended)
    (before after : list TVDBSeason) (s : TVDBSeason) (e : Error) :
  (forall x, In x before -> exists d, getSeasonDetails tvdbClient (season_id x) = Ok d) ->
  getSeasonDetails tvdbClient (season_id s) = Throw e ->
  forall allEpisodes,
    collectEpisodes tvdbClient id seriesDetails (before ++ s :: after) allEpisodes = Throw e.
Proof.
  intros Hok Hs. induction before as [|x before IH]; intros acc;
    cbn [app collectEpisodes].
  - now rewrite Hs.
  - destruct (Hok x (or_introl eq_refl)) as [d ->]. cbn [bind].
    apply IH. intros y Hy. apply Hok. now right.
Qed.

Lemma length_episodesOfSeason (id : number) (seriesDetails : TVDBSeriesExtended)
    (season seasonDetails : TVDBSeason) :
  List.length (episodesOfSeason id seriesDetails season seasonDetails)
  = List.length (elements (season_episodes seasonDetails)).
Proof.
  unfold episodesOfSeason. destruct (season_episodes seasonDetails); [|reflexivity].
  apply length_map.
Qed.

Lemma regularSeasons_canonical (seriesDetails : TVDBSeriesExtended) :
  regularSeasons seriesDetails
  = filter (fun s => season_number s >=? 1) (canonicalSeasons seriesDetails).
Proof.
  unfold regularSeasons, canonicalSeasons.
  destruct (series_seasons seriesDetails) as [l|]; [|reflexivity].
  induction l as [|s l IH]; [reflexivity |]. cbn [filter].
  destruct (isCanonical s); cbn [filter]; rewrite ?andb_false_r, ?andb_true_r.
  - destruct (season_number s >=? 1) eqn:E1; destruct (season_number s >=? 0) eqn:E0;
      cbn [filter andb]; rewrite ?E1; try (now rewrite IH).
    rewrite Z.geb_leb in E1, E0. apply Z.leb_le in E1. apply Z.leb_gt in E0. lia.
  - exact IH.
Qed.

(** X24.  When every season's details can be fetched, [getGrandchildren]
    pages over the episodes of the regular seasons (canonical ordering,
    number at least 1: the seasons [getChildren] lists, less the specials of
    season 0), season after season in upstream order; [totalSize] is the sum
    of the seasons' episode counts. *)
Theorem getGrandchildren_concatenates (ratingKey : string) (p : ParsedRatingKey)
    (options : MetadataServiceOptions) (paging : PagingOptions)
    (seriesDetails : TVDBSeriesExtended) (details : TVDBSeason -> TVDBSeason) :
  parseRatingKey ratingKey = Some p -> parsed_type p = Show ->
  getSeriesDetails tvdbClient (seriesId p) = Ok seriesDetails ->
  (forall s, In s (regularSeasons seriesDetails) ->
             getSeasonDetails tvdbClient (season_id s) = Ok (details s)) ->
  let allEpisodes :=
    flat_map (fun s => episodesOfSeason (seriesId p) seriesDetails s (details s))
             (regularSeasons seriesDetails) in
  getGrandchildren tvdbClient ratingKey options paging
  = Ok (paged (map OfEpisode allEpisodes)
              (match containerStart paging with Some n => n | None => 1 end)
              (match containerSize paging with Some n => n | None => 20 end))
  /\ regularSeasons seriesDetails
     = filter (fun s => season_number s >=? 1) (canonicalSeasons seriesDetails)
  /\ List.length allEpisodes
     = list_sum (map (fun s => List.length (elements (season_episodes (details s))))
                     (regularSeasons seriesDetails)).
Proof.
  intros Hp Ht Hs Hok allEpisodes. split; [|split].
  - unfold getGrandchildren. rewrite Hp, Ht, Hs. cbn [bind].
    now rewrite (collectEpisodes_ok _ _ details _ Hok).
  - apply regularSeasons_canonical.
  - subst allEpisodes. induction (regularSeasons seriesDetails) as [|s l IH];
      [reflexivity |].
    cbn [flat_map map list_sum fold_right]. rewrite length_app, length_episodesOfSeason.
    f_equal. apply IH. intros x Hx. apply Hok. now right.
Qed.

(** X25.  [getGrandchildren] fetches the seasons one after the other and
    gives up at the first one whose details cannot be fetched: it fails with
    that season's upstream error, and returns no partial list. *)
Theorem getGrandchildren_first_failure (ratingKey : string) (p : ParsedRatingKey)
    (options : MetadataServiceOptions) (paging : PagingOptions)
    (seriesDetails : TVDBSeriesExtended)
    (before after : list TVDBSeason) (s : TVDBSeason) (e : Error) :
  parseRatingKey ratingKey = Some p -> parsed_type p = Show ->
  getSeriesDetails tvdbClient (seriesId p) = Ok seriesDetails ->
  regularSeasons seriesDetails = before ++ s :: after ->
  (forall x, In x before -> exists d, getSeasonDetails tvdbClient (season_id x) = Ok d) ->
  getSeasonDetails tvdbClient (season_id s) = Throw e ->
  getGrandchildren tvdbClient ratingKey options paging = Throw e.
Proof.
  intros Hp Ht Hs Hsplit Hok Hfail.
  unfold getGrandchildren. rewrite Hp, Ht, Hs. cbn [bind]. rewrite Hsplit.
  now rewrite (collectEpisodes_fail _ _ before after s e Hok Hfail).
Qed.

(** *** Images *)

(** X26.  Asked for the images of a season or an episode that the upstream
    lookup by number does not find, [getImages] answers with an empty
    container, where [getMetadata] fails with the not-found error. *)
Theorem getImages_not_found_is_empty (ratingKey : string) (p : ParsedRatingKey)
    (options : MetadataServiceOptions) (seriesDetails : TVDBSeriesExtended) :
  parseRatingKey ratingKey = Some p ->
  getSeriesDetails tvdbClient (seriesId p) = Ok seriesDetails ->
  (forall n,
     parsed_type p = Season -> seasonNumber p = Some n ->
     getSeasonByNumber tvdbClient (seriesId p) n (orElse (seasonType p) "default")
     = Ok None ->
     getImages tvdbClient artworkClient ratingKey options = Ok (imagesResponse [])
     /\ getMetadata tvdbClient ratingKey options = Throw (seasonNotFound (seriesId p) n))
  /\ (forall n e,
        parsed_type p = Episode -> seasonNumber p = Some n -> episodeNumber p = Some e ->
        getEpisodeByNumber tvdbClient (seriesId p) n e (orElse (seasonType p) "default")
        = Ok None ->
        getImages tvdbClient artworkClient ratingKey options = Ok (imagesResponse [])
        /\ getMetadata tvdbClient ratingKey options
           = Throw (episodeNotFound (seriesId p) n e)).
Proof.
  intros Hp Hs. unfold getImages, getMetadata. rewrite Hp. split.
  - intros n Ht Hn Hnone. rewrite Ht, Hn. unfold getSeason.
    rewrite Hs. cbn [bind]. rewrite Hnone. cbn [bind]. split; reflexivity.
  - intros n e Ht Hn He Hnone. rewrite Ht, Hn, He. unfold getEpisode.
    rewrite Hs. cbn [bind]. rewrite Hnone. cbn [bind]. split; reflexivity.
Qed.

(** X27.  Whenever [getImages] succeeds, the container starts at offset 0
    and both sizes are the number of images.  For an episode there is at
    most one image, a snapshot; for a show or a season no image is a
    snapshot or a square background. *)
Theorem getImages_container (ratingKey : string) (options : MetadataServiceOptions)
    (r : ImagesResponse) :
  getImages tvdbClient artworkClient ratingKey options = Ok r ->
  ir_offset r = 0
  /\ ir_totalSize r = Z.of_nat (List.length (ir_Image r))
  /\ ir_size r = Z.of_nat (List.length (ir_Image r))
  /\ ir_identifier r = TV_PROVIDER_IDENTIFIER
  /\ exists p,
       parseRatingKey ratingKey = Some p
       /\ (parsed_type p = Episode ->
           (List.length (ir_Image r) <= 1)%nat
           /\ forall i, In i (ir_Image r) -> image_type i = snapshot)
       /\ (parsed_type p <> Episode ->
           forall i, In i (ir_Image r) ->
                     image_type i <> snapshot /\ image_type i <> backgroundSquare).
Proof.
  unfold getImages. destruct (parseRatingKey ratingKey) as [p|] eqn:Hp; [|discriminate].
  intros Hr.
  assert (Hshape : exists images, r = imagesResponse images
            /\ (parsed_type p = Episode ->
                (List.length images <= 1)%nat
                /\ forall i, In i images -> image_type i = snapshot)
            /\ (parsed_type p <> Episode ->
                forall i, In i images ->
                          image_type i <> snapshot /\ image_type i <> backgroundSquare)).
  { destruct (parsed_type p) eqn:Ht.
    - destruct (getSeriesDetails tvdbClient (seriesId p)) as [sd|]; [|discriminate Hr].
      cbn [bind] in Hr.
      destruct (getSeriesArtworks artworkClient (seriesId p)) as [arts|]; [|discriminate Hr].
      cbn [bind] in Hr. injection Hr as <-. eexists. split; [reflexivity |].
      split; [discriminate |]. intros _ i. apply mapAllImages_types.
    - destruct (seasonNumber p) as [n|]; [|discriminate Hr].
      destruct (getSeriesDetails tvdbClient (seriesId p)) as [sd|]; [|discriminate Hr].
      cbn [bind] in Hr.
      destruct (getSeasonByNumber tvdbClient (seriesId p) n _) as [[season|]|];
        cbn [bind] in Hr; [| |discriminate Hr].
      + destruct (getSeasonArtworks artworkClient (season_id season)) as [arts|];
          [|discriminate Hr].
        cbn [bind] in Hr. injection Hr as <-. eexists. split; [reflexivity |].
        split; [discriminate |]. intros _ i. apply mapAllImages_types.
      + injection Hr as <-. exists []. split; [reflexivity |].
        split; [discriminate |]. intros _ i [].
    - destruct (seasonNumber p) as [n|]; [|discriminate Hr].
      destruct (episodeNumber p) as [e|]; [|discriminate Hr].
      destruct (getSeriesDetails tvdbClient (seriesId p)) as [sd|]; [|discriminate Hr].
      cbn [bind] in Hr.
      destruct (getEpisodeByNumber tvdbClient (seriesId p) n e _) as [episode|];
        [|discriminate Hr].
      cbn [bind] in Hr. injection Hr as <-. eexists. split; [reflexivity |].
      split; [|congruence]. intros _.
      destruct episode as [episode|]; [destruct (orUndefined (episode_image episode))|];
        cbn [List.length In]; (split; [lia |]); intros i Hi;
        try contradiction; destruct Hi as [<-|[]]; reflexivity. }
  destruct Hshape as (images & -> & He & Hn).
  cbn [imagesResponse ir_offset ir_totalSize ir_size ir_identifier ir_Image].
  repeat split. exists p. auto.
Qed.

End Service.

Lemma getGrandchildren_concatenates_witness :
  @getGrandchildren guidUtils dateLib miniUpstreamUp "tvdb-show-152831" noOptions noPaging
  = Ok (paged
          (map OfEpisode
             (flat_map
                (fun s => @episodesOfSeason guidUtils dateLib 152831 miniSeries s
                            (detailsOf s))
                (regularSeasons miniSeries)))
          1 20).
Proof.
  refine (proj1 (@getGrandchildren_concatenates guidUtils dateLib miniUpstreamUp
                   "tvdb-show-152831"
                   {| parsed_type := Show; seriesId := 152831; seasonNumber := None;
                      episodeNumber := None; seasonType := None |}
                   noOptions noPaging miniSeries detailsOf eq_refl eq_refl eq_refl _)).
  intros s [<-|[<-|[]]]; reflexivity.
Defined.

Lemma getGrandchildren_first_failure_witness :
  @getGrandchildren guidUtils dateLib miniUpstream "tvdb-show-152831" noOptions noPaging
  = Throw {| message := "Request failed with status code 500" |}.
Proof.
  refine (@getGrandchildren_first_failure guidUtils dateLib miniUpstream
            "tvdb-show-152831"
            {| parsed_type := Show; seriesId := 152831; seasonNumber := None;
               episodeNumber := None; seasonType := None |}
            noOptions noPaging miniSeries [mkSeason official 1] [] (mkSeason official 2)
            _ eq_refl eq_refl eq_refl eq_refl _ eq_refl).
  intros x [<-|[]]. eexists. reflexivity.
Defined.

Lemma getImages_not_found_is_empty_witness :
  getImages upstream artworkUpstream "tvdb-season-152831-3" noOptions
  = Ok (imagesResponse [])
  /\ @getMetadata guidUtils dateLib upstream "tvdb-season-152831-3" noOptions
     = Throw (seasonNotFound 152831 3).
Proof.
  exact (proj1 (@getImages_not_found_is_empty guidUtils dateLib upstream artworkUpstream
                  "tvdb-season-152831-3"
                  {| parsed_type := Season; seriesId := 152831; seasonNumber := Some 3;
                     episodeNumber := None; seasonType := None |}
                  noOptions adventureTime eq_refl eq_refl)
           3 eq_refl eq_refl eq_refl).
Defined.

Lemma getImages_container_witness :
  ir_totalSize
    (imagesResponse (mapAllImages
       (Some [ {| artwork_type := TVDBArtworkType.POSTER;
                  artwork_image := "https://artworks.thetvdb.com/poster.jpg" |};
               {| artwork_type := 5;
                  artwork_image := "https://artworks.thetvdb.com/icon.jpg" |};
               {| artwork_type := TVDBArtworkType.BANNER;
                  artwork_image := "https://artworks.thetvdb.com/banner.jpg" |} ])
       "Adventure Time"))
  = 2.
Proof.
  exact (proj1 (proj2 (getImages_container upstream artworkUpstream
                         "tvdb-show-152831" noOptions _ eq_refl))).
Defined.

End ServiceLists.

(** ** Optional fields: what is present together *)

Module MapperOptional.
Import JS TVDB Metadata TVDBMapper MetadataService Samples MoreSamples.
Import StringFacts MapperFacts.

Lemma orUndefined_orElse (x : option string) :
  (orUndefined x = None <-> orElse x "" = "")
  /\ forall s, orUndefined x = Some s -> orElse x "" = s /\ s <> "".
Proof.
  unfold orElse, orUndefined. destruct x as [s|]; [|split; [tauto | discriminate]].
  unfold truthyString. destruct (String.eqb_spec s "") as [->|Hs]; cbn [negb].
  - split; [tauto | discriminate].
  - split; [split; [discriminate | congruence] |]. now intros ? [= <-].
Qed.

Section Mapper.
Context `{GuidUtils} `{DateLib}.

(** X28.  For a show, air date and year go together: [year] is present
    exactly when [originallyAvailableAt] is not the empty string, which is
    exactly when upstream has a non-empty [firstAired]; that string is then
    handed on unchanged, and a missing or empty one gives neither field.
    (Nothing is said of the year's value, which is the host's to compute.) *)
Theorem mapSeries_year (series : TVDBSeriesExtended) (options : option MapSeriesOptions) :
  let m := mapSeries series options in
  (sh_year m = None <-> sh_originallyAvailableAt m = "")
  /\ (sh_originallyAvailableAt m = ""
      <-> series_firstAired series = None \/ series_firstAired series = Some "")
  /\ (sh_originallyAvailableAt m <> "" ->
      series_firstAired series = Some (sh_originallyAvailableAt m)).
Proof.
  cbn [mapSeries sh_year sh_originallyAvailableAt]. unfold yearOf.
  destruct (orUndefined_orElse (series_firstAired series)) as [Hnone Hsome].
  destruct (orUndefined (series_firstAired series)) as [s|] eqn:E.
  - destruct (Hsome s eq_refl) as [-> Hs]. cbn [option_map].
    assert (Ef : series_firstAired series = Some s).
    { unfold orUndefined in E. destruct (series_firstAired series) as [t|]; [|discriminate].
      destruct (truthyString t); congruence. }
    split; [split; [discriminate | congruence] |]. split; [|intros _; exact Ef].
    rewrite Ef. split; [congruence |]. intros [D|D]; [discriminate D | congruence].
  - cbn [option_map]. rewrite (proj1 Hnone eq_refl).
    split; [tauto |]. split; [|congruence]. split; [|reflexivity]. intros _.
    unfold orUndefined in E. destruct (series_firstAired series) as [t|]; [|now left].
    right. unfold truthyString in E.
    destruct (String.eqb_spec t "") as [Et|Et]; [now rewrite Et | discriminate E].
Qed.

(** X29.  For an episode, thumbnail and image go together and so do air
    date and year: [Image] is present exactly when [thumb] is, and is then
    the single snapshot of that address titled like the episode; [year] is
    present exactly when [originallyAvailableAt] is not empty; and [duration]
    is the runtime in minutes times 60000, absent for a missing or zero
    runtime. *)
Theorem mapEpisode_optional_fields (episode : TVDBEpisode) (seriesId : number)
    (showTitle showGuid seasonTitle seasonGuid : string)
    (showThumb seasonThumb : option string) :
  let m := mapEpisode episode seriesId showTitle showGuid seasonTitle seasonGuid
             showThumb seasonThumb in
  ep_Image m
  = option_map (fun url => [ {| image_type := snapshot; image_url := url;
                                image_alt := ep_title m |} ]) (ep_thumb m)
  /\ (ep_year m = None <-> ep_originallyAvailableAt m = "")
  /\ ep_duration m
     = match episode_runtime episode with
       | Some r => if r =? 0 then None else Some (r * 60000)
       | None => None
       end
  /\ ep_title m <> "".
Proof.
  cbn [mapEpisode ep_Image ep_thumb ep_title ep_year ep_originallyAvailableAt ep_duration].
  split; [reflexivity |]. split; [|split; [apply minutesToMs_spec |]].
  - unfold yearOf.
    destruct (orUndefined_orElse (episode_aired episode)) as [Hnone Hsome].
    destruct (orUndefined (episode_aired episode)) as [s|] eqn:E.
    + destruct (Hsome s eq_refl) as [-> Hs]. cbn [option_map].
      split; [discriminate | congruence].
    + cbn [option_map]. rewrite (proj1 Hnone eq_refl). tauto.
  - unfold orElse. destruct (orUndefined (episode_name episode)) as [s|] eqn:E.
    + unfold orUndefined in E. destruct (episode_name episode) as [t|]; [|discriminate].
      unfold truthyString in E. destruct (String.eqb_spec t ""); cbn [negb] in E;
        congruence.
    + discriminate.
Qed.

End Mapper.

Lemma mapSeries_year_witness :
  series_firstAired adventureTime
  = Some (sh_originallyAvailableAt (@mapSeries guidUtils dateLib adventureTime None)).
Proof.
  refine (proj2 (proj2 (@mapSeries_year guidUtils dateLib adventureTime None)) _).
  discriminate.
Defined.

End MapperOptional.
